(** * Cetus liquidity rebalance bot: model and verified properties

    A shallow embedding of the rebalance decision-and-execution engine of
    the Cetus liquidity bot (TypeScript):

    - [PositionMonitorService]: range calculator, in-range test and
      rebalance decision ([src/services/monitor.ts]);
    - [RebalanceService]: the full orchestrator with dry-run mode and the
      unchanged-range skip ([src/services/rebalance.ts]);
    - [SimpleRebalanceService]: the simple orchestrator with its two-attempt
      retry loops and the coin merge step ([src/services/rebalance-simple.ts]);
    - [CetusRebalanceBot], [SimpleCetusRebalanceBot]: the life cycle of the
      two variants of the bot ([src/bot.ts]);
    - [Scheduler]: the interleavings of the bot with its interval timer;
    - [Config]: the configuration loader ([src/config/index.ts]);
    - [LiquidityPreservation]: amount selection and swap detection
      ([tests/liquidityPreservation.test.ts]);
    - [SimpleRebalanceServiceBeforeMerge]: [addLiquidity] of the simple
      orchestrator as it was before the coin merge step.

    Conventions.  JavaScript numbers holding ticks, spacings and counts are
    integers well inside the exactly representable range and are modelled
    by [Z]; decimal strings that the code reads with [BigInt] (balances,
    liquidity, amounts) are modelled by the integer they denote; the
    rebalance threshold is a rational.  A thrown [Error] is its message; a
    rejection with a value that is not an [Error] is not told apart from
    one, so where a handler reports [error.message] the text it reports
    for an error raised by a collaborator is not part of any statement.
    Calls of the logger have no effect on the modelled state and are left
    out.  An [async] function is a computation in the monad [M]: every
    [await] runs the awaited computation to completion, and side effects
    made before a [throw] persist. *)

From Stdlib Require Import ZArith QArith Bool List Ascii String Lia Permutation.
From Stdlib Require Import Sorted DecimalString.
Import ListNotations.

Local Open Scope string_scope.
Local Open Scope list_scope.
Local Open Scope Z_scope.

Set Implicit Arguments.

(** ** Results of fallible computations *)

(** A JavaScript completion: a normal value or a thrown error message. *)
Inductive Res (A : Type) : Type :=
| Ok (a : A)
| Throw (msg : string).

Arguments Ok {A} a.
Arguments Throw {A} msg.

(** ** Data model *)

(** [PoolInfo] of the monitor service. *)
Module PoolInfo.
Record t : Type := mk {
  poolAddress : string;
  currentTickIndex : Z;
  currentSqrtPrice : string;
  coinTypeA : string;
  coinTypeB : string;
  tickSpacing : Z
}.
End PoolInfo.

(** [PositionInfo] of the monitor service. *)
Module PositionInfo.
Record t : Type := mk {
  positionId : string;
  poolAddress : string;
  tickLower : Z;
  tickUpper : Z;
  liquidity : Z;
  tokenA : string;
  tokenB : string;
  inRange : bool
}.
End PositionInfo.

(** [BotConfig] ([src/config/index.ts]).  Optional fields are [option]s;
    an unset or empty string setting is [None]. *)
Inductive Network : Type := mainnet | testnet.

Module BotConfig.
Record t : Type := mk {
  network : Network;
  checkInterval : Z;
  rebalanceThreshold : Q;
  poolAddress : string;
  positionId : option string;
  lowerTick : option Z;
  upperTick : option Z;
  rangeWidth : option Z;
  tokenAAmount : option Z;
  tokenBAmount : option Z;
  maxSlippage : Q;
  gasBudget : Z
}.
End BotConfig.

(** The [{ lower, upper }] object returned by the range calculator. *)
Record Range : Type := mkRange { lower : Z; upper : Z }.

(** The [{ tickLower, tickUpper }] objects of a [RebalanceResult]. *)
Record TickRange : Type := mkTickRange { tickLower : Z; tickUpper : Z }.

Record RebalanceResult : Type := mkResult {
  success : bool;
  transactionDigest : option string;
  error : option string;
  oldPosition : option TickRange;
  newPosition : option TickRange
}.

(** ** Position monitor service *)

Module PositionMonitorService.

(** [Math.floor(a / b)] for a positive integer divisor. *)
Definition floorDiv (a b : Z) : Z := a / b.

(** [Math.ceil(a / b)] for a positive integer divisor. *)
Definition ceilDiv (a b : Z) : Z := - ((- a) / b).

(** Modelled from the spec: [calculateOptimalRange] of
    [src/services/monitor.ts], which is not among the sources.  Without a
    configured width the range is one tick-spacing unit wide, anchored at
    the aligned tick at or below the current tick; with a configured
    width [W] the bounds [currentTick -/+ W/2] are rounded outward to the
    grid (the halves are kept exact by doubling numerator and
    denominator).  A tick spacing that is not positive fails fast with an
    invalid-configuration error. *)
Definition calculateOptimalRange (config : BotConfig.t)
    (currentTick tickSpacing : Z) : Res Range :=
  if tickSpacing <=? 0 then
    Throw "Invalid configuration: tickSpacing must be positive"
  else
    match BotConfig.rangeWidth config with
    | None =>
        let lower := floorDiv currentTick tickSpacing * tickSpacing in
        Ok (mkRange lower (lower + tickSpacing))
    | Some W =>
        Ok (mkRange
              (floorDiv (2 * currentTick - W) (2 * tickSpacing) * tickSpacing)
              (ceilDiv (2 * currentTick + W) (2 * tickSpacing) * tickSpacing))
    end.

(** Modelled from the spec: [isPositionInRange] of
    [src/services/monitor.ts], which is not among the sources: the
    membership test, inclusive at both boundaries. *)
Definition isPositionInRange (lower upper currentTick : Z) : bool :=
  (lower <=? currentTick) && (currentTick <=? upper).

(** Strict comparison of rationals as a boolean. *)
Definition Qltb (x y : Q) : bool := negb (Qle_bool y x).

(** The safety margin [rebalanceThreshold * (upper - lower)]. *)
Definition margin (config : BotConfig.t) (position : PositionInfo.t) : Q :=
  (BotConfig.rebalanceThreshold config
   * inject_Z (PositionInfo.tickUpper position - PositionInfo.tickLower position))%Q.

(** Modelled from the spec: [shouldRebalance] of
    [src/services/monitor.ts], which is not among the sources: true when
    the stored in-range flag is false, or when the current tick is
    closer than the margin to either boundary. *)
Definition shouldRebalance (config : BotConfig.t)
    (position : PositionInfo.t) (pool : PoolInfo.t) : bool :=
  if negb (PositionInfo.inRange position) then true
  else
    let currentTick := PoolInfo.currentTickIndex pool in
    Qltb (inject_Z (currentTick - PositionInfo.tickLower position))
         (margin config position)
    || Qltb (inject_Z (PositionInfo.tickUpper position - currentTick))
            (margin config position).

End PositionMonitorService.

(** ** The ledger and protocol clients *)

(** One coin object returned by [suiClient.getCoins]. *)
Record Coin : Type := mkCoin { coinObjectId : string; balance : Z }.

(** The parameter objects handed to the SDK or to the transaction builder. *)
Inductive Payload : Type :=
| RemoveLiquidityParams (pool_id pos_id : string) (delta_liquidity : Z)
    (min_amount_a min_amount_b : Z) (coinTypeA coinTypeB : string)
    (collect_fee : option bool) (rewarder_coin_types : list string)
| OpenPositionParams (pool_id : string) (tick_lower tick_upper : Z)
    (coinTypeA coinTypeB : string)
| AddLiquidityFixTokenParams (pool_id pos_id : string)
    (tick_lower tick_upper : Z) (amount_a amount_b : option Z) (slippage : Q)
    (fix_amount_a is_open : bool) (coinTypeA coinTypeB : string)
    (collect_fee : bool) (rewarder_coin_types : list string)
| MergeCoinsCommand (primary : string) (sources : list string).

(** A transaction block: its content, and the sender and gas budget when
    the code sets them. *)
Record Transaction : Type := mkTransaction {
  payload : Payload;
  sender : option string;
  txGasBudget : option Z
}.

(** What [signAndExecuteTransaction] resolves to: [status] is
    [result.effects?.status?.status] and [statusError] is
    [result.effects?.status?.error]. *)
Record TxResult : Type := mkTxResult {
  digest : string;
  status : option string;
  statusError : option string
}.

(** What the SDK returns for [Position.getPositionById] and [Pool.getPool],
    restricted to the fields the code reads. *)
Record SdkPosition : Type := mkSdkPosition { pool : string }.
Record SdkPool : Type := mkSdkPool { sdkCoinTypeA : string; sdkCoinTypeB : string }.

(** The result of [monitorService.monitorPosition]. *)
Record MonitorResult : Type := mkMonitorResult {
  monitorPool : PoolInfo.t;
  monitorPositions : list PositionInfo.t;
  needsRebalance : bool
}.

(** Every call that leaves the process, in the order it is made. *)
Inductive Event : Type :=
| EGetPoolInfo (poolAddress : string)
| EGetPositions (owner : string)
| EMonitorPosition (poolAddress : string)
| EGetPositionById (positionId : string)
| EGetPool (poolId : string)
| EGetBalance (owner coinType : string)
| EGetCoins (owner coinType : string)
| EBuildPayload (p : Payload)
| ESubmit (tx : Transaction)
| EDelay (ms : Z).

(** The external collaborators over a world of type [W]: each call may
    change the world and either returns or throws. *)
Record Env (W : Type) : Type := mkEnv {
  getAddress : string;
  getPoolInfo : string -> W -> Res PoolInfo.t * W;
  getPositions : string -> W -> Res (list PositionInfo.t) * W;
  monitorPosition : string -> W -> Res MonitorResult * W;
  getPositionById : string -> W -> Res SdkPosition * W;
  getPool : string -> W -> Res SdkPool * W;
  getBalance : string -> string -> W -> Res Z * W;
  getCoins : string -> string -> W -> Res (option (list Coin)) * W;
  buildPayload : Payload -> W -> Res unit * W;
  signAndExecuteTransaction : Transaction -> W -> Res TxResult * W;
  setTimeout : Z -> W -> W
}.

(** The state threaded through a run: the world and the log of calls. *)
Record St (W : Type) : Type := mkSt { world : W; log : list Event }.

(** ** The monad of asynchronous computations *)

Definition M (S A : Type) : Type := S -> Res A * S.

Definition ret {S A : Type} (a : A) : M S A := fun s => (Ok a, s).

Definition throw {S A : Type} (msg : string) : M S A := fun s => (Throw msg, s).

Definition bind {S A B : Type} (c : M S A) (k : A -> M S B) : M S B :=
  fun s => match c s with
           | (Ok a, s') => k a s'
           | (Throw msg, s') => (Throw msg, s')
           end.

(** [try { c } catch (error) { h error.message }]. *)
Definition tryCatch {S A : Type} (c : M S A) (h : string -> M S A) : M S A :=
  fun s => match c s with
           | (Ok a, s') => (Ok a, s')
           | (Throw msg, s') => h msg s'
           end.

(** A synchronous fallible value used inside an asynchronous function. *)
Definition liftRes {S A : Type} (r : Res A) : M S A := fun s => (r, s).

Declare Scope monad_scope.
Delimit Scope monad_scope with monad.
Notation "x <- c ;; k" := (bind c (fun x => k))
  (at level 61, c at next level, right associativity) : monad_scope.
Notation "c ;;; k" := (bind c (fun _ => k))
  (at level 61, right associativity) : monad_scope.

Local Open Scope monad_scope.

(** The transactions submitted in a log. *)
Fixpoint submitted (l : list Event) : list Transaction :=
  match l with
  | [] => []
  | ESubmit tx :: l' => tx :: submitted l'
  | _ :: l' => submitted l'
  end.

(** The coin queries made in a log, by coin type. *)
Fixpoint coinQueries (l : list Event) : list string :=
  match l with
  | [] => []
  | EGetCoins _ coinType :: l' => coinType :: coinQueries l'
  | _ :: l' => coinQueries l'
  end.

(** [result.effects?.status?.status !== 'success'] *)
Definition notSuccess (result : TxResult) : bool :=
  match status result with
  | Some st => negb (String.eqb st "success")
  | None => true
  end.

(** [result.effects?.status?.error || 'Unknown error'] *)
Definition errorOrUnknown (result : TxResult) : string :=
  match statusError result with
  | Some e => if String.eqb e "" then "Unknown error" else e
  | None => "Unknown error"
  end.

(** [String(n)] for a count. *)
Definition stringOfNat (n : nat) : string :=
  NilZero.string_of_uint (Nat.to_uint n).

Section Calls.

Context {W : Type} (env : Env W).

(** A logged call of a collaborator. *)
Definition call {A : Type} (e : Event) (f : W -> Res A * W) : M (St W) A :=
  fun s => let (r, w') := f (world s) in (r, mkSt w' (log s ++ [e])).

Definition callGetPoolInfo (poolAddress : string) : M (St W) PoolInfo.t :=
  call (EGetPoolInfo poolAddress) (getPoolInfo env poolAddress).

Definition callGetPositions (owner : string) : M (St W) (list PositionInfo.t) :=
  call (EGetPositions owner) (getPositions env owner).

Definition callMonitorPosition (poolAddress : string) : M (St W) MonitorResult :=
  call (EMonitorPosition poolAddress) (monitorPosition env poolAddress).

Definition callGetPositionById (positionId : string) : M (St W) SdkPosition :=
  call (EGetPositionById positionId) (getPositionById env positionId).

Definition callGetPool (poolId : string) : M (St W) SdkPool :=
  call (EGetPool poolId) (getPool env poolId).

Definition callGetBalance (owner coinType : string) : M (St W) Z :=
  call (EGetBalance owner coinType) (getBalance env owner coinType).

Definition callGetCoins (owner coinType : string)
  : M (St W) (option (list Coin)) :=
  call (EGetCoins owner coinType) (getCoins env owner coinType).

Definition callBuildPayload (p : Payload) : M (St W) unit :=
  call (EBuildPayload p) (buildPayload env p).

Definition callSignAndExecute (tx : Transaction) : M (St W) TxResult :=
  call (ESubmit tx) (signAndExecuteTransaction env tx).

(** [await new Promise(resolve => setTimeout(resolve, ms))] *)
Definition delay (ms : Z) : M (St W) unit :=
  call (EDelay ms) (fun w => (Ok tt, setTimeout env ms w)).

End Calls.

(** ** JavaScript number conversions used for the fallback amounts *)

(** [Number(n)] for a BigInt [n]: exact up to [2^53], beyond that rounded
    to a 53-bit significand, ties to even. *)
Definition NumberOfBigInt (n : Z) : Z :=
  let a := Z.abs n in
  if a <? 2 ^ 53 then n
  else
    let e := Z.log2 a - 52 in
    let q := Z.shiftr a e in
    let r := a - Z.shiftl q e in
    let half := Z.shiftl 1 (e - 1) in
    let q' := if r <? half then q
              else if half <? r then q + 1
              else if Z.even q then q else q + 1 in
    Z.sgn n * Z.shiftl q' e.

(** [BigInt(String(x))] for an integral number [x]: from [1e21] on,
    [String] prints an exponent, which [BigInt] rejects with a
    [SyntaxError] (its message, which quotes the printed number, is
    shortened here). *)
Definition BigIntOfNumberString (x : Z) : Res Z :=
  if Z.abs x <? 10 ^ 21 then Ok x
  else Throw "Cannot convert the amount to a BigInt".

(** ** The full rebalance service ([src/services/rebalance.ts]) *)

Module RebalanceService.
Section WithEnv.

Context {W : Type} (env : Env W).

(** The fields of the service: the configuration, and [dryRun], read
    from the environment variable [DRY_RUN] by the constructor. *)
Variable config : BotConfig.t.
Variable dryRun : bool.

Local Abbreviation Async := (M (St W)).

Definition tickRangeOfPosition (position : PositionInfo.t) : TickRange :=
  mkTickRange (PositionInfo.tickLower position) (PositionInfo.tickUpper position).

(** [removeLiquidity(positionId, liquidity)] *)
Definition removeLiquidity (positionId : string) (liquidity : Z) : Async unit :=
  tryCatch
    (let ownerAddress := getAddress env in
     positions <- callGetPositions env ownerAddress ;;
     match find (fun p => String.eqb (PositionInfo.positionId p) positionId)
                positions with
     | None => throw ("Position " ++ positionId ++ " not found")
     | Some position =>
         let removeLiquidityPayload :=
           RemoveLiquidityParams (PositionInfo.poolAddress position) positionId
             liquidity 0 0 (PositionInfo.tokenA position)
             (PositionInfo.tokenB position) None [] in
         callBuildPayload env removeLiquidityPayload ;;;
         result <- callSignAndExecute env
                     (mkTransaction removeLiquidityPayload None None) ;;
         if notSuccess result then
           throw ("Transaction failed: " ++ errorOrUnknown result)
         else ret tt
     end)
    (fun error => throw error).

(** The amount used for one token, as [BigInt] reads it in the test for
    zero: the configured amount, or a tenth of the wallet balance and at
    least 1000, which goes through [Number] and [String]. *)
Definition selectAmount (configured : option Z) (totalBalance : Z) : Res Z :=
  match configured with
  | Some amount => Ok amount
  | None =>
      BigIntOfNumberString
        (Z.max 1000 (NumberOfBigInt (Z.quot totalBalance 10)))
  end.

Definition insufficientBalance : string :=
  "Insufficient token balance to add liquidity. Please ensure you have both tokens in your wallet.".

(** [addLiquidity(poolInfo, tickLower, tickUpper)]; the value is the
    [transactionDigest] of the returned object.  The test
    [BigInt(amountA) === 0n || BigInt(amountB) === 0n] reads the second
    amount only when the first is not zero. *)
Definition addLiquidity (poolInfo : PoolInfo.t) (tickLower tickUpper : Z)
  : Async string :=
  tryCatch
    (let ownerAddress := getAddress env in
     balanceA <- callGetBalance env ownerAddress (PoolInfo.coinTypeA poolInfo) ;;
     balanceB <- callGetBalance env ownerAddress (PoolInfo.coinTypeB poolInfo) ;;
     amountA <- liftRes (selectAmount (BotConfig.tokenAAmount config) balanceA) ;;
     if amountA =? 0 then throw insufficientBalance
     else
       amountB <- liftRes (selectAmount (BotConfig.tokenBAmount config) balanceB) ;;
       if amountB =? 0 then throw insufficientBalance
       else
         let openPositionPayload :=
           OpenPositionParams (PoolInfo.poolAddress poolInfo) tickLower tickUpper
             (PoolInfo.coinTypeA poolInfo) (PoolInfo.coinTypeB poolInfo) in
         callBuildPayload env openPositionPayload ;;;
         openResult <- callSignAndExecute env
                         (mkTransaction openPositionPayload None None) ;;
         if notSuccess openResult then
           throw ("Failed to open position: " ++ errorOrUnknown openResult)
         else ret (digest openResult))
    (fun error => throw error).

Definition calculateOptimalRange (poolInfo : PoolInfo.t) : Async Range :=
  liftRes (PositionMonitorService.calculateOptimalRange config
             (PoolInfo.currentTickIndex poolInfo) (PoolInfo.tickSpacing poolInfo)).

(** [this.config.lowerTick && this.config.upperTick]: both set and
    neither of them zero. *)
Definition configuredRange : option Range :=
  match BotConfig.lowerTick config, BotConfig.upperTick config with
  | Some l, Some u => if (l =? 0) || (u =? 0) then None else Some (mkRange l u)
  | _, _ => None
  end.

Definition failure (error : string) : RebalanceResult :=
  mkResult false None (Some error) None None.

(** [createNewPosition(poolInfo)] *)
Definition createNewPosition (poolInfo : PoolInfo.t) : Async RebalanceResult :=
  tryCatch
    (range <- match configuredRange with
              | Some r => ret r
              | None => calculateOptimalRange poolInfo
              end ;;
     if dryRun then
       ret (mkResult true None None None
              (Some (mkTickRange (lower range) (upper range))))
     else
       result <- addLiquidity poolInfo (lower range) (upper range) ;;
       ret (mkResult true (Some result) None None
              (Some (mkTickRange (lower range) (upper range)))))
    (fun error => ret (failure error)).

(** The test that the freshly computed range does not differ from the
    old one by a whole tick spacing on either bound. *)
Definition rangeUnchanged (position : PositionInfo.t) (range : Range)
    (poolInfo : PoolInfo.t) : bool :=
  (Z.abs (PositionInfo.tickLower position - lower range)
     <? PoolInfo.tickSpacing poolInfo)
  && (Z.abs (PositionInfo.tickUpper position - upper range)
        <? PoolInfo.tickSpacing poolInfo).

(** [rebalancePosition(poolAddress)] *)
Definition rebalancePosition (poolAddress : string) : Async RebalanceResult :=
  tryCatch
    (poolInfo <- callGetPoolInfo env poolAddress ;;
     let ownerAddress := getAddress env in
     positions <- callGetPositions env ownerAddress ;;
     let poolPositions :=
       filter (fun p => String.eqb (PositionInfo.poolAddress p) poolAddress)
              positions in
     match poolPositions with
     | [] =>
         if dryRun then
           range <- calculateOptimalRange poolInfo ;;
           ret (mkResult true None None None
                  (Some (mkTickRange (lower range) (upper range))))
         else createNewPosition poolInfo
     | position :: _ =>
         range <- calculateOptimalRange poolInfo ;;
         if rangeUnchanged position range poolInfo then
           ret (mkResult true None None
                  (Some (tickRangeOfPosition position))
                  (Some (mkTickRange (lower range) (upper range))))
         else if dryRun then
           ret (mkResult true None None
                  (Some (tickRangeOfPosition position))
                  (Some (mkTickRange (lower range) (upper range))))
         else
           removeLiquidity (PositionInfo.positionId position)
                           (PositionInfo.liquidity position) ;;;
           result <- addLiquidity poolInfo (lower range) (upper range) ;;
           ret (mkResult true (Some result) None
                  (Some (tickRangeOfPosition position))
                  (Some (mkTickRange (lower range) (upper range))))
     end)
    (fun error => ret (failure error)).

(** [checkAndRebalance(poolAddress)]; [None] is [null]. *)
Definition checkAndRebalance (poolAddress : string)
  : Async (option RebalanceResult) :=
  tryCatch
    (monitorResult <- callMonitorPosition env poolAddress ;;
     if negb (needsRebalance monitorResult) then ret None
     else
       result <- rebalancePosition poolAddress ;;
       ret (Some result))
    (fun error => throw error).

End WithEnv.
End RebalanceService.

(** ** The simple rebalance service ([src/services/rebalance-simple.ts]) *)

Module SimpleRebalanceService.

(** Delay constants for coin merging. *)
Definition COIN_MERGE_FINALITY_DELAY_MS : Z := 5000.
Definition COIN_MERGE_PROPAGATION_DELAY_MS : Z := 2000.

(** Insertion of a coin into a list sorted by decreasing balance, after
    the coins with a strictly larger balance. *)
Fixpoint insertCoin (c : Coin) (sorted : list Coin) : list Coin :=
  match sorted with
  | [] => [c]
  | d :: rest =>
      if balance c <? balance d then d :: insertCoin c rest
      else c :: d :: rest
  end.

(** [data.sort((a, b) => balanceB > balanceA ? 1 : balanceB < balanceA ? -1 : 0)]:
    the stable sort by decreasing balance. *)
Definition sortByBalance (data : list Coin) : list Coin :=
  fold_right insertCoin [] data.

Section WithEnv.

Context {W : Type} (env : Env W).

Variable config : BotConfig.t.

Local Abbreviation Async := (M (St W)).

(** The retry skeleton shared by the two transactions:
    [for (let attempt = 0; attempt < 2; attempt++) { try { body } catch
    (error) { lastError = error; if (attempt < 1) wait 2 seconds } }
    throw lastError || new Error(exhausted)].  [remaining] counts the
    iterations left, so the loop is entered with [remaining = 2] and
    [attempt = 0]. *)
Fixpoint forAttempts {A : Type} (remaining : nat) (attempt : Z)
    (lastError : option string) (body : Z -> Async A) (exhausted : string)
  : Async A :=
  match remaining with
  | O => throw (match lastError with
                | Some error => error
                | None => exhausted
                end)
  | S remaining' =>
      tryCatch (body attempt)
        (fun error =>
           (if attempt <? 1 then delay env 2000 else ret tt) ;;;
           forAttempts remaining' (attempt + 1) (Some error) body exhausted)
  end.

(** [mergeCoins(coinType)] *)
Definition mergeCoins (coinType : string) : Async unit :=
  tryCatch
    (let ownerAddress := getAddress env in
     allCoins <- callGetCoins env ownerAddress coinType ;;
     match allCoins with
     | None => ret tt
     | Some data =>
         if (List.length data <=? 1)%nat then ret tt
         else
           match sortByBalance data with
           | [] => throw "Cannot read properties of undefined (reading 'coinObjectId')"
           | primaryCoin :: others =>
               let coinsToMerge := map coinObjectId others in
               let tx :=
                 mkTransaction
                   (MergeCoinsCommand (coinObjectId primaryCoin) coinsToMerge)
                   (Some ownerAddress) (Some (BotConfig.gasBudget config)) in
               result <- callSignAndExecute env tx ;;
               if notSuccess result then
                 throw ("Failed to merge coins: " ++ errorOrUnknown result)
               else
                 delay env COIN_MERGE_FINALITY_DELAY_MS ;;;
                 verifyCoins <- callGetCoins env ownerAddress coinType ;;
                 match verifyCoins with
                 | Some verifyData =>
                     if (1 <? List.length verifyData)%nat then
                       delay env COIN_MERGE_FINALITY_DELAY_MS ;;;
                       secondVerify <- callGetCoins env ownerAddress coinType ;;
                       match secondVerify with
                       | Some secondData =>
                           if (1 <? List.length secondData)%nat then
                             throw ("Coin merge failed to consolidate " ++ coinType
                                    ++ ". Expected 1 coin object but found "
                                    ++ stringOfNat (List.length secondData)
                                    ++ " after waiting "
                                    ++ stringOfNat (Z.to_nat (COIN_MERGE_FINALITY_DELAY_MS * 2))
                                    ++ "ms total. "
                                    ++ "This indicates network propagation issues or concurrent transactions.")
                           else ret tt
                       | None => ret tt
                       end
                     else ret tt
                 | None => ret tt
                 end
           end
     end)
    (fun error => throw error).

(** [removeLiquidity(positionId, liquidity)] *)
Definition removeLiquidity (positionId : string) (liquidity : Z) : Async unit :=
  position <- callGetPositionById env positionId ;;
  pool' <- callGetPool env (pool position) ;;
  let params :=
    RemoveLiquidityParams (pool position) positionId liquidity 0 0
      (sdkCoinTypeA pool') (sdkCoinTypeB pool') (Some true) [] in
  callBuildPayload env params ;;;
  let removeLiquidityPayload :=
    mkTransaction params None (Some (BotConfig.gasBudget config)) in
  forAttempts 2 0 None
    (fun attempt =>
       result <- callSignAndExecute env removeLiquidityPayload ;;
       if notSuccess result then
         throw ("Remove liquidity failed: " ++ errorOrUnknown result)
       else ret tt)
    "Remove liquidity failed after retries".

(** The parameters of the open-position transaction of [addLiquidity]. *)
Definition addLiquidityParams (poolInfo : PoolInfo.t) (tickLower tickUpper : Z)
  : Payload :=
  AddLiquidityFixTokenParams (PoolInfo.poolAddress poolInfo) ""
    tickLower tickUpper
    (BotConfig.tokenAAmount config) (BotConfig.tokenBAmount config)
    (BotConfig.maxSlippage config) true true
    (PoolInfo.coinTypeA poolInfo) (PoolInfo.coinTypeB poolInfo) false [].

(** One iteration of the retry loop of [addLiquidity]. *)
Definition addLiquidityAttempt (poolInfo : PoolInfo.t) (tickLower tickUpper : Z)
    (attempt : Z) : Async string :=
  mergeCoins (PoolInfo.coinTypeA poolInfo) ;;;
  mergeCoins (PoolInfo.coinTypeB poolInfo) ;;;
  delay env COIN_MERGE_PROPAGATION_DELAY_MS ;;;
  callBuildPayload env (addLiquidityParams poolInfo tickLower tickUpper) ;;;
  let openPositionPayload :=
    mkTransaction (addLiquidityParams poolInfo tickLower tickUpper)
      None (Some (BotConfig.gasBudget config)) in
  result <- callSignAndExecute env openPositionPayload ;;
  if notSuccess result then
    throw ("Add liquidity failed: " ++ errorOrUnknown result)
  else ret (digest result).

(** [addLiquidity(poolInfo, tickLower, tickUpper)] *)
Definition addLiquidity (poolInfo : PoolInfo.t) (tickLower tickUpper : Z)
  : Async string :=
  forAttempts 2 0 None
    (addLiquidityAttempt poolInfo tickLower tickUpper)
    "Add liquidity failed after retries".

(** [rebalancePosition(poolAddress, position, poolInfo)] *)
Definition rebalancePosition (poolAddress : string)
    (position : PositionInfo.t) (poolInfo : PoolInfo.t) : Async RebalanceResult :=
  tryCatch
    (range <- liftRes (PositionMonitorService.calculateOptimalRange config
                         (PoolInfo.currentTickIndex poolInfo)
                         (PoolInfo.tickSpacing poolInfo)) ;;
     let hasLiquidity := 0 <? PositionInfo.liquidity position in
     (if hasLiquidity then
        removeLiquidity (PositionInfo.positionId position)
                        (PositionInfo.liquidity position)
      else ret tt) ;;;
     txDigest <- addLiquidity poolInfo (lower range) (upper range) ;;
     ret (mkResult true (Some txDigest) None
            (Some (mkTickRange (PositionInfo.tickLower position)
                               (PositionInfo.tickUpper position)))
            (Some (mkTickRange (lower range) (upper range)))))
    (fun error => ret (mkResult false None (Some error) None None)).

(** [allPositions.find(p => p.positionId === this.config.positionId)] *)
Definition findTracked (allPositions : list PositionInfo.t)
  : option PositionInfo.t :=
  match BotConfig.positionId config with
  | Some tracked =>
      find (fun p => String.eqb (PositionInfo.positionId p) tracked) allPositions
  | None => None
  end.

(** [checkAndRebalance(poolAddress)]; [None] is [null]. *)
Definition checkAndRebalance (poolAddress : string)
  : Async (option RebalanceResult) :=
  tryCatch
    (poolInfo <- callGetPoolInfo env poolAddress ;;
     let ownerAddress := getAddress env in
     allPositions <- callGetPositions env ownerAddress ;;
     match findTracked allPositions with
     | None => ret None
     | Some position =>
         let isInRange :=
           PositionMonitorService.isPositionInRange
             (PositionInfo.tickLower position) (PositionInfo.tickUpper position)
             (PoolInfo.currentTickIndex poolInfo) in
         if isInRange
            && negb (PositionMonitorService.shouldRebalance config position poolInfo)
         then ret None
         else
           result <- rebalancePosition poolAddress position poolInfo ;;
           ret (Some result)
     end)
    (fun error => throw error).

End WithEnv.
End SimpleRebalanceService.

(** ** The bot ([src/bot.ts]) *)

(** The object returned by [getStatus]. *)
Record Status : Type := mkStatus {
  running : bool;
  address : string;
  statusNetwork : Network;
  statusPoolAddress : string
}.

(** The fields [isRunning] and [intervalId] of a bot, the interval timers
    of the runtime (identifier and period in milliseconds) with the next
    free identifier, and the state of the services. *)
Record BotSt (W : Type) : Type := mkBotSt {
  isRunning : bool;
  intervalId : option nat;
  timers : list (nat * Z);
  nextTimer : nat;
  services : St W
}.

(** A freshly constructed bot. *)
Definition newBot {W : Type} (s : St W) : BotSt W := mkBotSt false None [] 0 s.

Section BotRuntime.

Context {W : Type}.

(** A computation of the services run by the bot. *)
Definition liftServices {A : Type} (c : M (St W) A) : M (BotSt W) A :=
  fun b => let (r, s') := c (services b) in
           (r, mkBotSt (isRunning b) (intervalId b) (timers b) (nextTimer b) s').

Definition setIsRunning (v : bool) : M (BotSt W) unit :=
  fun b => (Ok tt, mkBotSt v (intervalId b) (timers b) (nextTimer b) (services b)).

Definition setIntervalId (v : option nat) : M (BotSt W) unit :=
  fun b => (Ok tt, mkBotSt (isRunning b) v (timers b) (nextTimer b) (services b)).

(** [setInterval(callback, ms)]: arms a new timer and returns it. *)
Definition setInterval (ms : Z) : M (BotSt W) nat :=
  fun b => (Ok (nextTimer b),
            mkBotSt (isRunning b) (intervalId b)
                    (timers b ++ [(nextTimer b, ms)]) (S (nextTimer b)) (services b)).

(** [clearInterval(id)] *)
Definition clearInterval (id : nat) : M (BotSt W) unit :=
  fun b => (Ok tt,
            mkBotSt (isRunning b) (intervalId b)
                    (filter (fun t => negb (Nat.eqb (fst t) id)) (timers b))
                    (nextTimer b) (services b)).

(** [stop()], the same in both variants of the bot. *)
Definition stop : M (BotSt W) unit :=
  fun b =>
    if negb (isRunning b) then (Ok tt, b)
    else
      (setIsRunning false ;;;
       match intervalId b with
       | Some id => clearInterval id ;;; setIntervalId None
       | None => ret tt
       end) b.

End BotRuntime.

(** The bot driving the full rebalance service. *)
Module CetusRebalanceBot.
Section WithEnv.

Context {W : Type} (env : Env W).
Variable config : BotConfig.t.
Variable dryRun : bool.

(** [performCheck()] *)
Definition performCheck : M (BotSt W) unit :=
  tryCatch
    (result <- liftServices
                 (RebalanceService.checkAndRebalance env config dryRun
                    (BotConfig.poolAddress config)) ;;
     ret tt)
    (fun error => ret tt).

(** [start()] *)
Definition start : M (BotSt W) unit :=
  fun b =>
    if isRunning b then (Ok tt, b)
    else
      (setIsRunning true ;;;
       performCheck ;;;
       id <- setInterval (BotConfig.checkInterval config * 1000) ;;
       setIntervalId (Some id)) b.

(** [getStatus()] *)
Definition getStatus : M (BotSt W) Status :=
  fun b => (Ok (mkStatus (isRunning b) (getAddress env)
                  (BotConfig.network config) (BotConfig.poolAddress config)), b).

End WithEnv.
End CetusRebalanceBot.

(** The bot driving the simple rebalance service. *)
Module SimpleCetusRebalanceBot.
Section WithEnv.

Context {W : Type} (env : Env W).
Variable config : BotConfig.t.

(** [retryWithBackoff] of [src/utils/retry.ts], which is not among the
    sources, is a parameter. *)
Variable retryWithBackoff : forall A : Type, M (St W) A -> string -> M (St W) A.

(** [validateSetup()] *)
Definition validateSetup : M (St W) unit :=
  tryCatch
    (let address := getAddress env in
     tryCatch
       (balance <- retryWithBackoff
                     (callGetBalance env address "0x2::sui::SUI") "getBalance" ;;
        ret tt)
       (fun error => ret tt) ;;;
     tryCatch
       (poolInfo <- callGetPoolInfo env (BotConfig.poolAddress config) ;;
        ret tt)
       (fun error =>
          throw "Invalid pool configuration. Please check POOL_ADDRESS in .env file.") ;;;
     tryCatch
       (positions <- callGetPositions env address ;;
        match SimpleRebalanceService.findTracked config positions with
        | Some position => ret tt
        | None =>
            throw ("Position "
                   ++ match BotConfig.positionId config with
                      | Some id => id
                      | None => "undefined"
                      end
                   ++ " not found. Please check POSITION_ID in .env file.")
        end)
       (fun error => throw error))
    (fun error => throw error).

(** [performCheck()] *)
Definition performCheck : M (BotSt W) unit :=
  tryCatch
    (result <- liftServices
                 (SimpleRebalanceService.checkAndRebalance env config
                    (BotConfig.poolAddress config)) ;;
     ret tt)
    (fun error => ret tt).

(** [start()] *)
Definition start : M (BotSt W) unit :=
  fun b =>
    if isRunning b then (Ok tt, b)
    else
      (liftServices validateSetup ;;;
       setIsRunning true ;;;
       performCheck ;;;
       id <- setInterval (BotConfig.checkInterval config * 1000) ;;
       setIntervalId (Some id)) b.

(** [getStatus()] *)
Definition getStatus : M (BotSt W) Status :=
  fun b => (Ok (mkStatus (isRunning b) (getAddress env)
                  (BotConfig.network config) (BotConfig.poolAddress config)), b).

End WithEnv.
End SimpleCetusRebalanceBot.

(** ** Interleavings of the bot with its timer *)

(** The bot between two suspensions of its asynchronous functions.  A call
    of [start()] or of the timer callback runs until its first [await] and
    is resumed later, while other calls and timer callbacks may run in
    between.  [validates] tells the variant: the simple bot awaits
    [validateSetup()] before it sets [isRunning]. *)
Module Scheduler.

Record State : Type := mkState {
  isRunning : bool;
  intervalId : option nat;
  timers : list nat;        (* interval timers that are armed *)
  nextTimer : nat;
  validating : nat;         (* calls of start() awaiting validateSetup() *)
  starting : nat;           (* calls of start() awaiting their first check *)
  cycles : nat              (* timer callbacks awaiting their check *)
}.

Definition init : State := mkState false None [] 0 0 0 0.

(** The check cycles that have begun and not finished. *)
Definition inFlight (s : State) : nat := (starting s + cycles s)%nat.

Inductive Step : Type :=
| CallStart                      (* start() is called *)
| ValidationDone (ok : bool)     (* a pending validateSetup() settles *)
| InitialCheckDone               (* the check awaited by start() settles *)
| TimerFires (id : nat)          (* the interval timer [id] runs its callback *)
| CycleDone                      (* the check awaited by a callback settles *)
| CallStop.                      (* stop() is called *)

Section Variant.

Variable validates : bool.

(** [start()] after its guard and, for the simple bot, after
    [validateSetup()]: sets [isRunning] and begins the first check. *)
Definition beginFirstCheck (s : State) : State :=
  mkState true (intervalId s) (timers s) (nextTimer s)
          (validating s) (S (starting s)) (cycles s).

Definition step (e : Step) (s : State) : option State :=
  match e with
  | CallStart =>
      if isRunning s then Some s
      else if validates then
        Some (mkState (isRunning s) (intervalId s) (timers s) (nextTimer s)
                      (S (validating s)) (starting s) (cycles s))
      else Some (beginFirstCheck s)
  | ValidationDone ok =>
      match validating s with
      | O => None
      | S v =>
          let s' := mkState (isRunning s) (intervalId s) (timers s)
                            (nextTimer s) v (starting s) (cycles s) in
          Some (if ok then beginFirstCheck s' else s')
      end
  | InitialCheckDone =>
      match starting s with
      | O => None
      | S n =>
          Some (mkState (isRunning s) (Some (nextTimer s))
                        (timers s ++ [nextTimer s]) (S (nextTimer s))
                        (validating s) n (cycles s))
      end
  | TimerFires id =>
      if existsb (Nat.eqb id) (timers s) then
        Some (mkState (isRunning s) (intervalId s) (timers s) (nextTimer s)
                      (validating s) (starting s) (S (cycles s)))
      else None
  | CycleDone =>
      match cycles s with
      | O => None
      | S n =>
          Some (mkState (isRunning s) (intervalId s) (timers s) (nextTimer s)
                        (validating s) (starting s) n)
      end
  | CallStop =>
      if negb (isRunning s) then Some s
      else
        match intervalId s with
        | Some id =>
            Some (mkState false None
                          (filter (fun t => negb (Nat.eqb t id)) (timers s))
                          (nextTimer s) (validating s) (starting s) (cycles s))
        | None =>
            Some (mkState false None (timers s) (nextTimer s)
                          (validating s) (starting s) (cycles s))
        end
  end.

(** A run: the events in order, from the state [s]. *)
Fixpoint run (trace : list Step) (s : State) : option State :=
  match trace with
  | [] => Some s
  | e :: trace' =>
      match step e s with
      | Some s' => run trace' s'
      | None => None
      end
  end.

End Variant.

(** The claim that check cycles never overlap. *)
Definition cyclesSerialized (validates : bool) : Prop :=
  forall trace s, run validates trace init = Some s -> (inFlight s <= 1)%nat.

End Scheduler.

(** ** Vocabulary of the properties *)

(** The order of the sorted coins: no later coin has a larger balance. *)
Definition notSmaller (a b : Coin) : Prop := balance b <= balance a.

(** A computation only appends to the log. *)
Definition extends {W A : Type} (c : M (St W) A) : Prop :=
  forall s, exists d, log (snd (c s)) = log s ++ d.

(** How the outcome of one submission is judged: a thrown error stays an
    error, and a returned result whose status is not ['success'] becomes an
    error too. *)
Definition judged (prefix : string) (outcome : Res TxResult) : Res TxResult :=
  match outcome with
  | Throw msg => Throw msg
  | Ok result =>
      if notSuccess result then Throw (prefix ++ errorOrUnknown result)
      else Ok result
  end.

(** Whether a transaction is the open-position transaction of
    [addLiquidity]. *)
Definition isAddLiquidity (tx : Transaction) : bool :=
  match payload tx with
  | AddLiquidityFixTokenParams _ _ _ _ _ _ _ _ _ _ _ _ _ => true
  | _ => false
  end.

(** The number of add-liquidity submissions in a log. *)
Definition addSubmissions (l : list Event) : nat :=
  List.length (filter isAddLiquidity (submitted l)).

Section SimpleServiceVocabulary.

Context {W : Type} (env : Env W).
Variable config : BotConfig.t.

(** The merge transaction built for a primary coin and the other coins. *)
Definition mergeTransaction (primary : Coin) (others : list Coin) : Transaction :=
  mkTransaction
    (MergeCoinsCommand (coinObjectId primary) (map coinObjectId others))
    (Some (getAddress env)) (Some (BotConfig.gasBudget config)).

(** What an attempt of [addLiquidity] does before it submits: the two
    merges, the propagation delay and the construction of the payload. *)
Definition addLiquidityPrelude (poolInfo : PoolInfo.t) (tickLower tickUpper : Z)
  : M (St W) unit :=
  SimpleRebalanceService.mergeCoins env config (PoolInfo.coinTypeA poolInfo) ;;;
  SimpleRebalanceService.mergeCoins env config (PoolInfo.coinTypeB poolInfo) ;;;
  delay env SimpleRebalanceService.COIN_MERGE_PROPAGATION_DELAY_MS ;;;
  callBuildPayload env
    (SimpleRebalanceService.addLiquidityParams config poolInfo tickLower tickUpper).

(** The transaction submitted by [addLiquidity]. *)
Definition addLiquidityTransaction (poolInfo : PoolInfo.t)
    (tickLower tickUpper : Z) : Transaction :=
  mkTransaction
    (SimpleRebalanceService.addLiquidityParams config poolInfo tickLower tickUpper)
    None (Some (BotConfig.gasBudget config)).

(** The transaction submitted by [removeLiquidity]. *)
Definition removeLiquidityTransaction (position : SdkPosition) (pool' : SdkPool)
    (positionId : string) (liquidity : Z) : Transaction :=
  mkTransaction
    (RemoveLiquidityParams (pool position) positionId liquidity 0 0
       (sdkCoinTypeA pool') (sdkCoinTypeB pool') (Some true) [])
    None (Some (BotConfig.gasBudget config)).

End SimpleServiceVocabulary.

(** A call of the public interface. *)
Inductive Call : Type := Start | Stop.

Section LifeCycleVocabulary.

Context {W : Type} (env : Env W).
Variable config : BotConfig.t.
Variable dryRun : bool.

(** One awaited call on the bot. *)
Definition runCall (c : Call) : M (BotSt W) unit :=
  match c with
  | Start => CetusRebalanceBot.start env config dryRun
  | Stop => stop
  end.

(** A sequence of awaited calls. *)
Fixpoint runCalls (calls : list Call) (b : BotSt W) : BotSt W :=
  match calls with
  | [] => b
  | c :: calls' => runCalls calls' (snd (runCall c b))
  end.

(** A call is effective when it passes the guard of its method: [start()]
    on a bot that is not running, [stop()] on a bot that is. *)
Definition effective (c : Call) (b : BotSt W) : bool :=
  match c with
  | Start => negb (isRunning b)
  | Stop => isRunning b
  end.

(** The last effective call of a sequence, [last] being the one before. *)
Fixpoint lastEffective (calls : list Call) (b : BotSt W) (last : option Call)
  : option Call :=
  match calls with
  | [] => last
  | c :: calls' =>
      lastEffective calls' (snd (runCall c b))
        (if effective c b then Some c else last)
  end.

(** The value of [getStatus().running]. *)
Definition statusRunning (b : BotSt W) : option bool :=
  match fst (CetusRebalanceBot.getStatus env config b) with
  | Ok status => Some (running status)
  | Throw _ => None
  end.

(** A bot between awaited calls: running with exactly its one timer
    armed, or stopped with none. *)
Definition consistent (b : BotSt W) : Prop :=
  if isRunning b
  then exists id ms, intervalId b = Some id /\ timers b = [(id, ms)]
  else intervalId b = None /\ timers b = [].

End LifeCycleVocabulary.

(** A run in which every step that begins a check cycle is taken when no
    cycle is in flight: every cycle finishes before the next one starts. *)
Fixpoint unhurried (validates : bool) (trace : list Scheduler.Step)
    (s : Scheduler.State) : bool :=
  match trace with
  | [] => true
  | e :: trace' =>
      match Scheduler.step validates e s with
      | None => false
      | Some s' =>
          (if (Scheduler.inFlight s <? Scheduler.inFlight s')%nat
           then (Scheduler.inFlight s =? 0)%nat else true)
          && unhurried validates trace' s'
      end
  end.

(** ** Scenarios: a scripted ledger *)

(** A world whose answers are scripted: the pool and the positions that
    are reported, the successive answers of [getCoins] and the successive
    outcomes of transaction submissions, and a clock advanced by delays. *)
Record Script : Type := mkScript {
  scPool : PoolInfo.t;
  scPositions : list PositionInfo.t;
  scCoins : list (option (list Coin));
  scTx : list (Res TxResult);
  scClock : Z
}.

Definition txSucceeded (d : string) : TxResult :=
  mkTxResult d (Some "success") None.

Definition txFailed (d e : string) : TxResult :=
  mkTxResult d (Some "failure") (Some e).

Definition scriptEnv : Env Script :=
  mkEnv "0xowner"
    (fun _ w => (Ok (scPool w), w))
    (fun _ w => (Ok (scPositions w), w))
    (fun _ w => (Ok (mkMonitorResult (scPool w) (scPositions w) true), w))
    (fun _ w => (Ok (mkSdkPosition (PoolInfo.poolAddress (scPool w))), w))
    (fun _ w => (Ok (mkSdkPool (PoolInfo.coinTypeA (scPool w))
                               (PoolInfo.coinTypeB (scPool w))), w))
    (fun _ _ w => (Ok 1000000, w))
    (fun _ _ w =>
       match scCoins w with
       | [] => (Ok (Some []), w)
       | answer :: rest =>
           (Ok answer, mkScript (scPool w) (scPositions w) rest (scTx w) (scClock w))
       end)
    (fun _ w => (Ok tt, w))
    (fun _ w =>
       match scTx w with
       | [] => (Ok (txSucceeded "digest"), w)
       | outcome :: rest =>
           (outcome, mkScript (scPool w) (scPositions w) (scCoins w) rest (scClock w))
       end)
    (fun ms w =>
       mkScript (scPool w) (scPositions w) (scCoins w) (scTx w) (scClock w + ms)).

(** The configuration of the tests: threshold 5%, no range width. *)
Definition testConfig : BotConfig.t :=
  BotConfig.mk testnet 60 (5 # 100) "0x123" (Some "pos1") None None None
    (Some 1000000) (Some 1000000) (1 # 100) 100000000.

(** The pool of the tests at a given tick and spacing. *)
Definition testPool (currentTick tickSpacing : Z) : PoolInfo.t :=
  PoolInfo.mk "0x123" currentTick "1000000" "0xA" "0xB" tickSpacing.

(** The position of the tests with a given range and in-range flag. *)
Definition testPosition (tickLower tickUpper : Z) (inRange : bool)
  : PositionInfo.t :=
  PositionInfo.mk "pos1" "0x123" tickLower tickUpper 1000000 "0xA" "0xB" inRange.

(** A scripted world reporting one pool and one position. *)
Definition testWorld (pool : PoolInfo.t) (position : PositionInfo.t)
    (coins : list (option (list Coin))) (txs : list (Res TxResult)) : St Script :=
  mkSt (mkScript pool [position] coins txs 0) [].

(** Three coin objects of asset A; the ledger reports one coin after the
    merge.  The first call merges into the largest coin, the second call
    finds the holdings consolidated and submits nothing. *)
Definition fragmentedWorld : St Script :=
  testWorld (testPool 1000 60) (testPosition 840 900 false)
    [Some [mkCoin "a1" 500; mkCoin "a2" 300; mkCoin "a3" 800];
     Some [mkCoin "a3" 1600];
     Some [mkCoin "a3" 1600]]
    [].

(** The ledger rejects the first remove-liquidity submission with a
    failure status and accepts the second. *)
Definition removeRetryWorld : St Script :=
  testWorld (testPool 1000 60) (testPosition 840 900 false) []
    [Ok (txFailed "d1" "MoveAbort"); Ok (txSucceeded "d2")].

(** The first submission throws, the second returns a failure status. *)
Definition removeFailsWorld : St Script :=
  testWorld (testPool 1000 60) (testPosition 840 900 false) []
    [Throw "fetch failed"; Ok (txFailed "d2" "MoveAbort")].

Definition testRemoveTransaction : Transaction :=
  mkTransaction
    (RemoveLiquidityParams "0x123" "pos1" 1000000 0 0 "0xA" "0xB" (Some true) [])
    None (Some 100000000).

(** One coin object per asset; the ledger accepts the removal, rejects the
    first add-liquidity submission and accepts the second. *)
Definition addRetryWorld : St Script :=
  testWorld (testPool 1000 60) (testPosition 840 900 false)
    [Some [mkCoin "a1" 500]; Some [mkCoin "b1" 700];
     Some [mkCoin "a1" 500]; Some [mkCoin "b1" 700]]
    [Ok (txSucceeded "remove"); Ok (txFailed "add1" "MoveAbort");
     Ok (txSucceeded "add2")].

(** As before, but a deposit splits asset A again between the attempts. *)
Definition addRetryDepositWorld : St Script :=
  testWorld (testPool 1000 60) (testPosition 840 900 false)
    [Some [mkCoin "a1" 500; mkCoin "a2" 300]; Some [mkCoin "a1" 800];
     Some [mkCoin "b1" 700];
     Some [mkCoin "a1" 800; mkCoin "a3" 50]; Some [mkCoin "a1" 850];
     Some [mkCoin "b1" 700]]
    [Ok (txSucceeded "remove"); Ok (txSucceeded "merge1");
     Ok (txFailed "add1" "MoveAbort");
     Ok (txSucceeded "merge2"); Ok (txSucceeded "add2")].

Definition testAddTransaction : Transaction :=
  mkTransaction
    (AddLiquidityFixTokenParams "0x123" "" 960 1020 (Some 1000000) (Some 1000000)
       (1 # 100) true true "0xA" "0xB" false [])
    None (Some 100000000).

(** The configuration of the life-cycle test with a short interval: a
    check every second. *)
Definition quickConfig : BotConfig.t :=
  BotConfig.mk testnet 1 (5 # 100) "0x123" (Some "pos1") None None None
    (Some 1000000) (Some 1000000) (1 # 100) 100000000.

(** The bot of the tests on a scripted world in which the position
    already has the target range, so that its checks submit nothing. *)
Definition testBot : BotSt Script :=
  newBot (testWorld (testPool 1000 60) (testPosition 960 1020 true) [] []).

(** ** The configuration loader ([src/config/index.ts]) *)

Module Config.

(** [process.env]: every variable is unset or holds a string. *)
Definition ProcessEnv : Type := string -> option string.

(** Truthiness of a value read from the environment: set and not empty. *)
Definition truthy (value : option string) : bool :=
  match value with
  | Some v => negb (String.eqb v "")
  | None => false
  end.

(** [value || ''] *)
Definition orEmpty (value : option string) : string :=
  match value with
  | Some v => v
  | None => ""
  end.

(** [s || undefined] *)
Definition orUndefined (s : string) : option string :=
  if String.eqb s "" then None else Some s.

(** [toLowerCase] on the letters A to Z.  Characters outside ASCII, which
    JavaScript may map as well, are left as they are; none of them maps to
    a letter of ['true'], the only string the result is compared with. *)
Definition lowerChar (c : ascii) : ascii :=
  let n := nat_of_ascii c in
  if ((65 <=? n) && (n <=? 90))%nat then ascii_of_nat (n + 32) else c.

Fixpoint toLowerCase (s : string) : string :=
  match s with
  | EmptyString => EmptyString
  | String c s' => String (lowerChar c) (toLowerCase s')
  end.

(** Sequencing of fallible synchronous steps. *)
Definition andThen {A B : Type} (r : Res A) (k : A -> Res B) : Res B :=
  match r with
  | Ok a => k a
  | Throw msg => Throw msg
  end.

(** The line break of the error message. *)
Definition newline : string := String (ascii_of_nat 10) EmptyString.

(** [getEnvVar(key, required)] *)
Definition getEnvVar (env : ProcessEnv) (key : string) (required : bool)
  : Res string :=
  let value := env key in
  if required && negb (truthy value) then
    Throw ("Missing required environment variable: " ++ key)
  else Ok (orEmpty value).

(** [getEnvBoolean(key, defaultValue)] *)
Definition getEnvBoolean (env : ProcessEnv) (key : string) (defaultValue : bool)
  : bool :=
  let value := env key in
  if truthy value then String.eqb (toLowerCase (orEmpty value)) "true"
  else defaultValue.

(** [if (!process.env[key]) missingVars.push(key)] *)
Definition pushIfMissing (env : ProcessEnv) (key : string)
    (missingVars : list string) : list string :=
  if negb (truthy (env key)) then missingVars ++ [key] else missingVars.

(** The message of the error that lists the missing variables. *)
Definition missingMessage (missingVars : list string) : string :=
  "Missing required environment variables: " ++ String.concat ", " missingVars
  ++ newline
  ++ "Please create a .env file from .env.example and configure these variables."
  ++ newline
  ++ "See README.md for configuration instructions.".

Section Loader.

(** JavaScript numbers as read by [parseFloat] and [parseInt], which are
    parameters, together with the numbers that the literals denote. *)
Variable Number : Type.
Variable parseFloat : string -> Number.
Variable parseInt : string -> Number.
Variable literal : Q -> Number.

(** The object returned by [loadConfig], with the types of the code. *)
Record Loaded : Type := mkLoaded {
  network : Network;
  suiRpcUrl : option string;
  privateKey : string;
  checkInterval : Number;
  rebalanceThreshold : Number;
  poolAddress : string;
  positionId : option string;
  lowerTick : option Number;
  upperTick : option Number;
  rangeWidth : option Number;
  tokenAAmount : option string;
  tokenBAmount : option string;
  maxSlippage : Number;
  gasBudget : Number;
  logLevel : string;
  verboseLogs : bool
}.

(** [getEnvNumber(key, defaultValue)] *)
Definition getEnvNumber (env : ProcessEnv) (key : string)
    (defaultValue : Number) : Number :=
  let value := env key in
  if truthy value then parseFloat (orEmpty value) else defaultValue.

(** [getEnvVar(key, false) ? parseInt(getEnvVar(key, false)) : undefined] *)
Definition optionalInt (env : ProcessEnv) (key : string) : Res (option Number) :=
  andThen (getEnvVar env key false) (fun test =>
  if String.eqb test "" then Ok None
  else andThen (getEnvVar env key false) (fun value => Ok (Some (parseInt value)))).

(** [getEnvVar(key, false) || undefined] *)
Definition optionalVar (env : ProcessEnv) (key : string) : Res (option string) :=
  andThen (getEnvVar env key false) (fun value => Ok (orUndefined value)).

(** [loadConfig()] *)
Definition loadConfig (env : ProcessEnv) : Res Loaded :=
  andThen (getEnvVar env "NETWORK" false) (fun networkVar =>
  let network := if String.eqb networkVar "" then "mainnet" else networkVar in
  if negb (String.eqb network "mainnet") && negb (String.eqb network "testnet")
  then
    Throw ("Invalid NETWORK value: " ++ network
           ++ ". Must be 'mainnet' or 'testnet'")
  else
    let missingVars := [] in
    let missingVars := pushIfMissing env "PRIVATE_KEY" missingVars in
    let missingVars := pushIfMissing env "POOL_ADDRESS" missingVars in
    let missingVars := pushIfMissing env "POSITION_ID" missingVars in
    let missingVars := pushIfMissing env "TOKEN_A_AMOUNT" missingVars in
    let missingVars := pushIfMissing env "TOKEN_B_AMOUNT" missingVars in
    if (0 <? List.length missingVars)%nat then Throw (missingMessage missingVars)
    else
      andThen (getEnvVar env "PRIVATE_KEY" true) (fun privateKey =>
      andThen (getEnvVar env "POOL_ADDRESS" true) (fun poolAddress =>
      andThen (optionalVar env "SUI_RPC_URL") (fun suiRpcUrl =>
      andThen (optionalVar env "POSITION_ID") (fun positionId =>
      andThen (optionalInt env "LOWER_TICK") (fun lowerTick =>
      andThen (optionalInt env "UPPER_TICK") (fun upperTick =>
      andThen (optionalInt env "RANGE_WIDTH") (fun rangeWidth =>
      andThen (optionalVar env "TOKEN_A_AMOUNT") (fun tokenAAmount =>
      andThen (optionalVar env "TOKEN_B_AMOUNT") (fun tokenBAmount =>
      andThen (getEnvVar env "LOG_LEVEL" false) (fun logLevelVar =>
      Ok (mkLoaded
            (if String.eqb network "mainnet" then mainnet else testnet)
            suiRpcUrl
            privateKey
            (getEnvNumber env "CHECK_INTERVAL" (literal 300))
            (getEnvNumber env "REBALANCE_THRESHOLD" (literal (5 # 100)))
            poolAddress
            positionId
            lowerTick upperTick rangeWidth
            tokenAAmount tokenBAmount
            (getEnvNumber env "MAX_SLIPPAGE" (literal (1 # 100)))
            (getEnvNumber env "GAS_BUDGET" (literal 50000000))
            (if String.eqb logLevelVar "" then "info" else logLevelVar)
            (getEnvBoolean env "VERBOSE_LOGS" false))))))))))))).

End Loader.

(** The variables [loadConfig] requires, in the order it checks them. *)
Definition requiredVariables : list string :=
  ["PRIVATE_KEY"; "POOL_ADDRESS"; "POSITION_ID"; "TOKEN_A_AMOUNT";
   "TOKEN_B_AMOUNT"].

(** An environment in which the empty values are unset. *)
Definition unsetEmpty (env : ProcessEnv) : ProcessEnv :=
  fun key => if truthy (env key) then env key else None.

End Config.

(** ** Vocabulary and scenarios for the configuration loader *)

(** The required variables that are unset or empty, in the order of the
    checks. *)
Definition missingVariables (env : Config.ProcessEnv) : list string :=
  filter (fun key => negb (Config.truthy (env key))) Config.requiredVariables.

(** The network name [loadConfig] goes by: [NETWORK], or ['mainnet'] when
    it is unset or empty. *)
Definition networkName (env : Config.ProcessEnv) : string :=
  if String.eqb (Config.orEmpty (env "NETWORK")) "" then "mainnet"
  else Config.orEmpty (env "NETWORK").

Definition networkValid (env : Config.ProcessEnv) : bool :=
  String.eqb (networkName env) "mainnet" || String.eqb (networkName env) "testnet".

(** An environment given by the list of its settings. *)
Fixpoint envOf (settings : list (string * string)) : Config.ProcessEnv :=
  fun key =>
    match settings with
    | [] => None
    | (k, v) :: settings' => if String.eqb k key then Some v else envOf settings' key
    end.

(** The settings of a complete [.env] file. *)
Definition completeSettings : list (string * string) :=
  [("NETWORK", "testnet"); ("PRIVATE_KEY", "0001"); ("POOL_ADDRESS", "0x123");
   ("POSITION_ID", "0xpos"); ("TOKEN_A_AMOUNT", "1000000");
   ("TOKEN_B_AMOUNT", "2000000"); ("VERBOSE_LOGS", "TRUE")].

(** Settings with an empty pool address and no token amounts. *)
Definition incompleteSettings : list (string * string) :=
  [("PRIVATE_KEY", "0001"); ("POOL_ADDRESS", ""); ("POSITION_ID", "0xpos")].

(** Numbers kept as the text handed to the parser, for the scenarios. *)
Definition textNumber : Type := string.
Definition textParse (s : string) : textNumber := s.
Definition textLiteral (q : Q) : textNumber := "default".

(** ** Amount selection and swap detection
       ([tests/liquidityPreservation.test.ts]) *)

Module LiquidityPreservation.

(** The object returned by [computeAmountsFromLiquidity]. *)
Record Amounts : Type := mkAmounts {
  amountA : Z;
  amountB : Z;
  requiredA : Z;
  requiredB : Z
}.

(** The object returned by [needsSwap]. *)
Record SwapDecision : Type := mkSwapDecision {
  swap : bool;
  aToB : bool;
  swapAmount : Z
}.

Section WithSdk.

(** The price and liquidity mathematics of the SDK are parameters:
    [TickMath.tickIndexToSqrtPriceX64] and
    [ClmmPoolUtil.getCoinAmountFromLiquidity], which returns [coinA] and
    [coinB]. *)
Variable tickIndexToSqrtPriceX64 : Z -> Z.
Variable getCoinAmountFromLiquidity : Z -> Z -> Z -> Z -> bool -> Z * Z.

(** [computeAmountsFromLiquidity(originalLiquidity, currentSqrtPrice,
    tickLower, tickUpper, walletBalanceA, walletBalanceB, isSuiA, isSuiB,
    gasBudget)] *)
Definition computeAmountsFromLiquidity
    (originalLiquidity currentSqrtPrice tickLower tickUpper : Z)
    (walletBalanceA walletBalanceB : Z) (isSuiA isSuiB : bool) (gasBudget : Z)
  : Amounts :=
  let balanceABigInt := walletBalanceA in
  let balanceBBigInt := walletBalanceB in
  let safeBalanceA :=
    if isSuiA && (gasBudget <? balanceABigInt) then balanceABigInt - gasBudget
    else balanceABigInt in
  let safeBalanceB :=
    if isSuiB && (gasBudget <? balanceBBigInt) then balanceBBigInt - gasBudget
    else balanceBBigInt in
  let lowerSqrtPrice := tickIndexToSqrtPriceX64 tickLower in
  let upperSqrtPrice := tickIndexToSqrtPriceX64 tickUpper in
  let required :=
    getCoinAmountFromLiquidity originalLiquidity currentSqrtPrice
      lowerSqrtPrice upperSqrtPrice true in
  let reqA := fst required in
  let reqB := snd required in
  let amountA :=
    if reqA <=? safeBalanceA then reqA
    else if 0 <? safeBalanceA then safeBalanceA else 0 in
  let amountB :=
    if reqB <=? safeBalanceB then reqB
    else if 0 <? safeBalanceB then safeBalanceB else 0 in
  mkAmounts amountA amountB reqA reqB.

End WithSdk.

(** The default gas budget of [computeAmountsFromLiquidity]. *)
Definition defaultGasBudget : Z := 50000000.

(** [needsSwap(amountA, amountB, safeBalanceA, safeBalanceB)] *)
Definition needsSwap (amountA amountB safeBalanceA safeBalanceB : Z)
  : SwapDecision :=
  let preSwapA := amountA in
  let preSwapB := amountB in
  let oneIsZero :=
    ((preSwapA =? 0) && (0 <? preSwapB))
    || ((0 <? preSwapA) && (preSwapB =? 0)) in
  let walletShortOnA :=
    (0 <? preSwapA) && (safeBalanceA <? preSwapA) && (preSwapB <? safeBalanceB) in
  let walletShortOnB :=
    (0 <? preSwapB) && (safeBalanceB <? preSwapB) && (preSwapA <? safeBalanceA) in
  if negb oneIsZero && negb walletShortOnA && negb walletShortOnB then
    mkSwapDecision false false 0
  else if walletShortOnA then
    mkSwapDecision true false (safeBalanceB - preSwapB)
  else if walletShortOnB then
    mkSwapDecision true true (safeBalanceA - preSwapA)
  else
    let aToB := 0 <? preSwapA in
    mkSwapDecision true aToB (Z.quot (if aToB then preSwapA else preSwapB) 2).

End LiquidityPreservation.

(** The SDK mathematics of the scenarios: the required amounts are the
    liquidity itself for both tokens. *)
Definition flatSqrtPrice (tick : Z) : Z := tick.
Definition flatCoinAmounts (liquidity cur lo hi : Z) (roundUp : bool) : Z * Z :=
  (liquidity, liquidity).

(** ** Vocabulary of the service outcomes *)

(** Whether a transaction removes liquidity, and whether it opens a
    position. *)
Definition isRemoveLiquidity (tx : Transaction) : bool :=
  match payload tx with
  | RemoveLiquidityParams _ _ _ _ _ _ _ _ _ => true
  | _ => false
  end.

Definition isOpenPosition (tx : Transaction) : bool :=
  match payload tx with
  | OpenPositionParams _ _ _ _ _ => true
  | _ => false
  end.

(** A result reports a failure by its fields: a success carries no error,
    a failure carries an error and nothing else. *)
Definition wellFormedResult (result : RebalanceResult) : Prop :=
  if success result then error result = None
  else error result <> None
       /\ transactionDigest result = None
       /\ oldPosition result = None
       /\ newPosition result = None.

(** The ledger accepts the removal and rejects the opening of the new
    position. *)
Definition openFailsWorld : St Script :=
  testWorld (testPool 1000 60) (testPosition 840 900 false) []
    [Ok (txSucceeded "remove"); Ok (txFailed "open" "MoveAbort")].

(** The configuration of the tests with a configured range and without
    configured amounts. *)
Definition rangedConfig : BotConfig.t :=
  BotConfig.mk testnet 60 (5 # 100) "0x123" None (Some 600) (Some 1200) None
    None None (1 # 100) 100000000.

(** A scripted world reporting the pool and no position. *)
Definition emptyPoolWorld : St Script :=
  mkSt (mkScript (testPool 1000 60) [] [] [] 0) [].

(** The scripted ledger with an empty wallet: every balance is zero. *)
Definition emptyWalletEnv : Env Script :=
  mkEnv (getAddress scriptEnv) (getPoolInfo scriptEnv) (getPositions scriptEnv)
    (monitorPosition scriptEnv) (getPositionById scriptEnv) (getPool scriptEnv)
    (fun _ _ w => (Ok 0, w))
    (getCoins scriptEnv) (buildPayload scriptEnv)
    (signAndExecuteTransaction scriptEnv) (setTimeout scriptEnv).

(** A computation only appends to the log, and what it appends
    satisfies [P]. *)
Definition appending {W A : Type} (P : list Event -> Prop) (c : M (St W) A)
  : Prop :=
  forall s, exists d, log (snd (c s)) = log s ++ d /\ P d.

(** No removal of liquidity among the submissions of a log. *)
Definition noRemoval (d : list Event) : Prop :=
  forallb (fun tx => negb (isRemoveLiquidity tx)) (submitted d) = true.

(** ** The simple rebalance service before coin merging

    [src/services/rebalance-simple.ts] as it was before [mergeCoins] was
    added: [checkAndRebalance], [rebalancePosition] and [removeLiquidity]
    read as above, and [addLiquidity] builds its payload once, before the
    retry loop. *)

Module SimpleRebalanceServiceBeforeMerge.
Section WithEnv.

Context {W : Type} (env : Env W).

Variable config : BotConfig.t.

(** [addLiquidity(poolInfo, tickLower, tickUpper)] *)
Definition addLiquidity (poolInfo : PoolInfo.t) (tickLower tickUpper : Z)
  : M (St W) string :=
  callBuildPayload env
    (SimpleRebalanceService.addLiquidityParams config poolInfo
       tickLower tickUpper) ;;;
  let openPositionPayload :=
    mkTransaction
      (SimpleRebalanceService.addLiquidityParams config poolInfo
         tickLower tickUpper)
      None (Some (BotConfig.gasBudget config)) in
  SimpleRebalanceService.forAttempts env 2 0 None
    (fun attempt =>
       result <- callSignAndExecute env openPositionPayload ;;
       if notSuccess result then
         throw ("Add liquidity failed: " ++ errorOrUnknown result)
       else ret (digest result))
    "Add liquidity failed after retries".

End WithEnv.
End SimpleRebalanceServiceBeforeMerge.

(** A run of the bot in which [stop()] is never called. *)
Definition neverStopped (trace : list Scheduler.Step) : bool :=
  forallb (fun e => match e with Scheduler.CallStop => false | _ => true end)
          trace.

(** The retry helper of the scenarios: one try. *)
Definition singleTry {W : Type} (A : Type) (c : M (St W) A) (label : string)
  : M (St W) A := c.

(** Two coins of asset A with the same, largest balance. *)
Definition tiedCoins : list Coin :=
  [mkCoin "a1" 500; mkCoin "a2" 800; mkCoin "a3" 800].

(** The time a log spends in delays, in milliseconds. *)
Fixpoint waited (l : list Event) : Z :=
  match l with
  | [] => 0
  | EDelay ms :: l' => ms + waited l'
  | _ :: l' => waited l'
  end.

(** * Verified properties *)

Unset Implicit Arguments.

(** ** Range calculator *)

Lemma floorDiv_bracket (t s : Z) :
  0 < s ->
  PositionMonitorService.floorDiv t s * s <= t
  < PositionMonitorService.floorDiv t s * s + s.
Proof.
  intros Hs. unfold PositionMonitorService.floorDiv.
  pose proof (Z.mul_div_le t s Hs).
  pose proof (Z.mul_succ_div_gt t s Hs).
  lia.
Qed.

(** C1.  For every integer current tick [t] and tick spacing [s > 0], the
    range calculator without a configured width returns
    [lower = floor(t/s) * s] and [upper = lower + s]; hence
    [lower <= t < upper], also for negative [t], and both bounds are
    multiples of [s].  For [t = 1000], [s = 60] the range is [960, 1020],
    and for [t = -100], [s = 60] it is [-120, -60]. *)
Theorem calculateOptimalRange_tightest :
  forall (config : BotConfig.t) (t s : Z),
    BotConfig.rangeWidth config = None ->
    0 < s ->
    (exists r,
        PositionMonitorService.calculateOptimalRange config t s = Ok r
        /\ lower r = (t / s) * s
        /\ upper r = lower r + s
        /\ lower r <= t < upper r
        /\ (s | lower r) /\ (s | upper r))
    /\ PositionMonitorService.calculateOptimalRange config 1000 60
       = Ok (mkRange 960 1020)
    /\ PositionMonitorService.calculateOptimalRange config (-100) 60
       = Ok (mkRange (-120) (-60)).
Proof.
  intros config t s Hw Hs.
  unfold PositionMonitorService.calculateOptimalRange.
  rewrite Hw.
  split.
  - destruct (Z.leb_spec s 0) as [Hle | _]; [lia |].
    eexists. split; [reflexivity |]. cbn [lower upper].
    pose proof (floorDiv_bracket t s Hs) as Hb.
    unfold PositionMonitorService.floorDiv in *.
    repeat split; try lia.
    + exists (t / s). reflexivity.
    + exists (t / s + 1). lia.
  - split; reflexivity.
Qed.

Lemma calculateOptimalRange_tightest_witness :
  exists r,
    PositionMonitorService.calculateOptimalRange testConfig (-100) 60 = Ok r
    /\ lower r = -120 /\ upper r = -60 /\ lower r <= -100 < upper r.
Proof.
  destruct (calculateOptimalRange_tightest testConfig (-100) 60 eq_refl eq_refl)
    as ((r & Hr & Hlower & Hupper & Hbracket & _) & _).
  exists r. split; [exact Hr |].
  split; [rewrite Hlower; reflexivity |].
  split; [rewrite Hupper, Hlower; reflexivity | exact Hbracket].
Defined.

(** Truncation toward zero would put the lower bound above a negative
    tick. *)
Example truncation_misses_negative_tick :
  Z.quot (-100) 60 * 60 = -60 /\ ~ (-60 <= -100).
Proof. split; [reflexivity | lia]. Qed.

(** The centred policy on the example of the tests. *)
Example calculateOptimalRange_centred :
  PositionMonitorService.calculateOptimalRange
    (BotConfig.mk testnet 60 (5 # 100) "0x123" None None None (Some 600)
       None None (1 # 100) 100000000) 1000 60
  = Ok (mkRange 660 1320).
Proof. reflexivity. Qed.

(** ** In-range test *)

(** C2.  [isPositionInRange lower upper currentTick] is true exactly when
    [lower <= currentTick <= upper]: it is true at either boundary of a
    non-empty range, as for [(-100, 100, -100)] and [(-100, 100, 100)], and
    false one unit outside either boundary. *)
Theorem isPositionInRange_inclusive :
  forall l u t : Z,
    (PositionMonitorService.isPositionInRange l u t = true <-> l <= t <= u)
    /\ PositionMonitorService.isPositionInRange l u l = (l <=? u)
    /\ PositionMonitorService.isPositionInRange l u u = (l <=? u)
    /\ PositionMonitorService.isPositionInRange l u (l - 1) = false
    /\ PositionMonitorService.isPositionInRange l u (u + 1) = false
    /\ PositionMonitorService.isPositionInRange (-100) 100 (-100) = true
    /\ PositionMonitorService.isPositionInRange (-100) 100 100 = true
    /\ PositionMonitorService.isPositionInRange (-100) 100 (-101) = false
    /\ PositionMonitorService.isPositionInRange (-100) 100 101 = false.
Proof.
  intros l u t. unfold PositionMonitorService.isPositionInRange.
  split; [| repeat split].
  - rewrite andb_true_iff, !Z.leb_le. reflexivity.
  - rewrite Z.leb_refl. reflexivity.
  - rewrite Z.leb_refl. apply andb_true_r.
  - destruct (Z.leb_spec l (l - 1)); [lia | reflexivity].
  - destruct (Z.leb_spec (u + 1) u); [lia | apply andb_false_r].
Qed.

(** ** Rebalance decision *)

Lemma Qltb_lt (x y : Q) :
  PositionMonitorService.Qltb x y = true <-> (x < y)%Q.
Proof.
  unfold PositionMonitorService.Qltb. rewrite negb_true_iff. split.
  - intros H. apply Qnot_le_lt. intros Hle.
    apply Qle_bool_iff in Hle. congruence.
  - intros H. destruct (Qle_bool y x) eqn:E; [| reflexivity].
    apply Qle_bool_iff in E. apply Qlt_not_le in H. contradiction.
Qed.

Lemma Qltb_ge (x y : Q) :
  PositionMonitorService.Qltb x y = false <-> (y <= x)%Q.
Proof.
  unfold PositionMonitorService.Qltb. rewrite negb_false_iff.
  apply Qle_bool_iff.
Qed.

(** C3.  [shouldRebalance] is true whenever the stored in-range flag is
    false, whatever the current tick; true when the position is flagged
    in range and the current tick is closer than
    [margin = rebalanceThreshold * (upper - lower)] to the lower or to the
    upper boundary; false when it is flagged in range and at least the
    margin away from both.  This holds for every threshold, in particular
    for those in (0, 1).  With the range [-1000, 1000] and threshold 0.05,
    tick -950 triggers a rebalance and tick 0 does not. *)
Theorem shouldRebalance_decision :
  forall (config : BotConfig.t) (position : PositionInfo.t) (pool : PoolInfo.t),
    let currentTick := PoolInfo.currentTickIndex pool in
    let fromLower := inject_Z (currentTick - PositionInfo.tickLower position) in
    let toUpper := inject_Z (PositionInfo.tickUpper position - currentTick) in
    let margin :=
      (BotConfig.rebalanceThreshold config
       * inject_Z (PositionInfo.tickUpper position
                   - PositionInfo.tickLower position))%Q in
    (PositionInfo.inRange position = false ->
     PositionMonitorService.shouldRebalance config position pool = true)
    /\ (PositionInfo.inRange position = true ->
        (fromLower < margin)%Q \/ (toUpper < margin)%Q ->
        PositionMonitorService.shouldRebalance config position pool = true)
    /\ (PositionInfo.inRange position = true ->
        (margin <= fromLower)%Q -> (margin <= toUpper)%Q ->
        PositionMonitorService.shouldRebalance config position pool = false)
    /\ PositionMonitorService.shouldRebalance testConfig
         (testPosition (-1000) 1000 true) (testPool (-950) 10) = true
    /\ PositionMonitorService.shouldRebalance testConfig
         (testPosition (-1000) 1000 true) (testPool 0 10) = false.
Proof.
  intros config position pool currentTick fromLower toUpper margin.
  unfold PositionMonitorService.shouldRebalance, PositionMonitorService.margin.
  fold currentTick. cbv zeta. fold fromLower toUpper margin.
  split; [| split; [| split; [| split]]].
  - intros ->. reflexivity.
  - intros -> [H | H]; cbn [negb]; apply orb_true_iff;
      [left | right]; apply Qltb_lt; exact H.
  - intros -> Hl Hu. cbn [negb]. apply orb_false_iff.
    split; apply Qltb_ge; assumption.
  - reflexivity.
  - reflexivity.
Qed.

Lemma shouldRebalance_decision_witness :
  PositionMonitorService.shouldRebalance testConfig
    (testPosition (-1000) 1000 false) (testPool 0 10) = true
  /\ PositionMonitorService.shouldRebalance testConfig
       (testPosition (-1000) 1000 true) (testPool 950 10) = true
  /\ PositionMonitorService.shouldRebalance testConfig
       (testPosition (-1000) 1000 true) (testPool 100 10) = false.
Proof.
  split; [| split].
  - destruct (shouldRebalance_decision testConfig
                (testPosition (-1000) 1000 false) (testPool 0 10))
      as (Hflag & _).
    apply Hflag. reflexivity.
  - destruct (shouldRebalance_decision testConfig
                (testPosition (-1000) 1000 true) (testPool 950 10))
      as (_ & Hnear & _).
    apply Hnear; [reflexivity | right; reflexivity].
  - destruct (shouldRebalance_decision testConfig
                (testPosition (-1000) 1000 true) (testPool 100 10))
      as (_ & _ & Hfar & _).
    apply Hfar; [reflexivity | discriminate | discriminate].
Defined.

(** ** Logs *)

Lemma submitted_app (l1 l2 : list Event) :
  submitted (l1 ++ l2) = submitted l1 ++ submitted l2.
Proof.
  induction l1 as [| e l1 IH]; [reflexivity |].
  destruct e; cbn; rewrite IH; reflexivity.
Qed.

(** Every computation built from logged calls only appends to the log. *)
Section ExtendsFacts.

Context {W : Type}.

Lemma extends_ret {A : Type} (a : A) : extends (@ret (St W) A a).
Proof. intros s. exists []. cbn. symmetry. apply app_nil_r. Qed.

Lemma extends_throw {A : Type} (msg : string) : extends (@throw (St W) A msg).
Proof. intros s. exists []. cbn. symmetry. apply app_nil_r. Qed.

Lemma extends_liftRes {A : Type} (r : Res A) : extends (@liftRes (St W) A r).
Proof. intros s. exists []. cbn. symmetry. apply app_nil_r. Qed.

Lemma extends_call {A : Type} (e : Event) (f : W -> Res A * W) :
  extends (call e f).
Proof.
  intros s. exists [e]. unfold call.
  destruct (f (world s)) as [r w']. reflexivity.
Qed.

Lemma extends_bind {A B : Type} (c : M (St W) A) (k : A -> M (St W) B) :
  extends c -> (forall a, extends (k a)) -> extends (bind c k).
Proof.
  intros Hc Hk s. unfold bind.
  destruct (Hc s) as [d Hd].
  destruct (c s) as [[a | msg] s1]; cbn [snd] in Hd.
  - destruct (Hk a s1) as [d' Hd'].
    exists (d ++ d'). rewrite Hd', Hd. symmetry. apply app_assoc.
  - exists d. exact Hd.
Qed.

Lemma extends_tryCatch {A : Type} (c : M (St W) A) (h : string -> M (St W) A) :
  extends c -> (forall msg, extends (h msg)) -> extends (tryCatch c h).
Proof.
  intros Hc Hh s. unfold tryCatch.
  destruct (Hc s) as [d Hd].
  destruct (c s) as [[a | msg] s1]; cbn [snd] in Hd.
  - exists d. exact Hd.
  - destruct (Hh msg s1) as [d' Hd'].
    exists (d ++ d'). rewrite Hd', Hd. symmetry. apply app_assoc.
Qed.

(** A guarded computation that starts with a logged call logs that call
    first. *)
Lemma call_logged_first {A B : Type} (e : Event) (f : W -> Res A * W)
    (k : A -> M (St W) B) (h : string -> M (St W) B) :
  (forall a, extends (k a)) -> (forall msg, extends (h msg)) ->
  forall s, exists rest,
    log (snd (tryCatch (bind (call e f) k) h s)) = log s ++ e :: rest.
Proof.
  intros Hk Hh s. unfold tryCatch, bind, call.
  destruct (f (world s)) as [[a | msg] w'].
  - destruct (Hk a (mkSt w' (log s ++ [e]))) as [d Hd].
    destruct (k a (mkSt w' (log s ++ [e]))) as [[b | msg] s1];
      cbn [snd log] in *.
    + exists d. rewrite Hd, <- app_assoc. reflexivity.
    + destruct (Hh msg s1) as [d' Hd'].
      exists (d ++ d'). rewrite Hd', Hd, <- !app_assoc. reflexivity.
  - destruct (Hh msg (mkSt w' (log s ++ [e]))) as [d Hd].
    exists d. rewrite Hd. cbn [log]. rewrite <- app_assoc. reflexivity.
Qed.

Lemma first_logged_bind {A B : Type} (e : Event) (c : M (St W) A)
    (k : A -> M (St W) B) :
  (forall s, exists rest, log (snd (c s)) = log s ++ e :: rest) ->
  (forall a, extends (k a)) ->
  forall s, exists rest, log (snd (bind c k s)) = log s ++ e :: rest.
Proof.
  intros Hc Hk s. unfold bind.
  destruct (Hc s) as [rest Hrest].
  destruct (c s) as [[a | msg] s1]; cbn [snd] in Hrest.
  - destruct (Hk a s1) as [d Hd].
    exists (rest ++ d). rewrite Hd, Hrest, <- app_assoc. reflexivity.
  - exists rest. exact Hrest.
Qed.

End ExtendsFacts.

Ltac extends_tac :=
  repeat first
    [ apply extends_ret
    | apply extends_throw
    | apply extends_liftRes
    | apply extends_call
    | apply extends_bind; [| intro]
    | apply extends_tryCatch; [| intro]
    | match goal with
      | |- extends (match ?x with _ => _ end) => destruct x
      | |- extends (let _ := _ in _) => cbv zeta
      end ].

(** ** The full rebalance service: unchanged-range skip and dry run *)

Section RebalanceServiceFacts.

Context {W : Type} (env : Env W).
Variable config : BotConfig.t.

(** C4.  In a rebalance run of the full service, when the freshly computed
    range differs from the range of the existing position by less than one
    tick spacing on both bounds, the run is skipped: it reports success
    with the old and the new range, and after the two reads of pool and
    positions it makes no call at all, so no remove-liquidity and no
    add-liquidity transaction is issued. *)
Theorem rebalancePosition_range_unchanged_noop :
  forall (dryRun : bool) (poolAddress : string) (s : St W)
         (poolInfo : PoolInfo.t) (w1 : W)
         (positions : list PositionInfo.t) (w2 : W)
         (position : PositionInfo.t) (others : list PositionInfo.t)
         (range : Range),
    getPoolInfo env poolAddress (world s) = (Ok poolInfo, w1) ->
    getPositions env (getAddress env) w1 = (Ok positions, w2) ->
    filter (fun p => String.eqb (PositionInfo.poolAddress p) poolAddress)
           positions = position :: others ->
    PositionMonitorService.calculateOptimalRange config
      (PoolInfo.currentTickIndex poolInfo) (PoolInfo.tickSpacing poolInfo)
    = Ok range ->
    Z.abs (PositionInfo.tickLower position - lower range)
    < PoolInfo.tickSpacing poolInfo ->
    Z.abs (PositionInfo.tickUpper position - upper range)
    < PoolInfo.tickSpacing poolInfo ->
    RebalanceService.rebalancePosition env config dryRun poolAddress s
    = (Ok (mkResult true None None
             (Some (mkTickRange (PositionInfo.tickLower position)
                                (PositionInfo.tickUpper position)))
             (Some (mkTickRange (lower range) (upper range)))),
       mkSt w2 (log s ++ [EGetPoolInfo poolAddress;
                          EGetPositions (getAddress env)]))
    /\ submitted (log (snd (RebalanceService.rebalancePosition
                              env config dryRun poolAddress s)))
       = submitted (log s).
Proof.
  intros dryRun poolAddress s poolInfo w1 positions w2 position others range
         Hpool Hpos Hfilter Hrange Hlo Hup.
  assert (Hrun :
    RebalanceService.rebalancePosition env config dryRun poolAddress s
    = (Ok (mkResult true None None
             (Some (mkTickRange (PositionInfo.tickLower position)
                                (PositionInfo.tickUpper position)))
             (Some (mkTickRange (lower range) (upper range)))),
       mkSt w2 (log s ++ [EGetPoolInfo poolAddress;
                          EGetPositions (getAddress env)]))).
  { unfold RebalanceService.rebalancePosition, tryCatch, bind,
      callGetPoolInfo, callGetPositions, call,
      RebalanceService.calculateOptimalRange, liftRes.
    rewrite Hpool. cbn [world log]. rewrite Hpos. rewrite Hfilter.
    rewrite Hrange.
    unfold RebalanceService.rangeUnchanged.
    apply Z.ltb_lt in Hlo. apply Z.ltb_lt in Hup. rewrite Hlo, Hup.
    cbn. rewrite <- app_assoc. reflexivity. }
  split; [exact Hrun |].
  rewrite Hrun. cbn [snd log].
  rewrite submitted_app. cbn. apply app_nil_r.
Qed.

End RebalanceServiceFacts.

Lemma rebalancePosition_range_unchanged_noop_witness :
  RebalanceService.rebalancePosition scriptEnv testConfig false "0x123"
    (testWorld (testPool 1000 60) (testPosition 960 1020 false) [] [])
  = (Ok (mkResult true None None
           (Some (mkTickRange 960 1020)) (Some (mkTickRange 960 1020))),
     mkSt (mkScript (testPool 1000 60) [testPosition 960 1020 false] [] [] 0)
          [EGetPoolInfo "0x123"; EGetPositions "0xowner"]).
Proof.
  destruct (rebalancePosition_range_unchanged_noop scriptEnv testConfig false
              "0x123"
              (testWorld (testPool 1000 60) (testPosition 960 1020 false) [] [])
              (testPool 1000 60)
              (mkScript (testPool 1000 60) [testPosition 960 1020 false] [] [] 0)
              [testPosition 960 1020 false]
              (mkScript (testPool 1000 60) [testPosition 960 1020 false] [] [] 0)
              (testPosition 960 1020 false) [] (mkRange 960 1020)
              eq_refl eq_refl eq_refl eq_refl eq_refl eq_refl)
    as [Hrun _].
  exact Hrun.
Defined.

(** Without the skip and without dry run, the same service submits the
    remove-liquidity and the open-position transactions. *)
Example rebalancePosition_moves_changed_range :
  let run := RebalanceService.rebalancePosition scriptEnv testConfig false "0x123"
               (testWorld (testPool 1000 60) (testPosition 840 900 false) [] []) in
  fst run = Ok (mkResult true (Some "digest") None
                  (Some (mkTickRange 840 900)) (Some (mkTickRange 960 1020)))
  /\ submitted (log (snd run))
     = [mkTransaction
          (RemoveLiquidityParams "0x123" "pos1" 1000000 0 0 "0xA" "0xB" None [])
          None None;
        mkTransaction (OpenPositionParams "0x123" 960 1020 "0xA" "0xB")
          None None].
Proof. split; reflexivity. Qed.

Section DryRunFacts.

Context {W : Type} (env : Env W).
Variable config : BotConfig.t.

(** In dry-run mode [createNewPosition] makes no call at all. *)
Lemma createNewPosition_dry_run_state (poolInfo : PoolInfo.t) (s : St W) :
  snd (RebalanceService.createNewPosition env config true poolInfo s) = s.
Proof.
  unfold RebalanceService.createNewPosition, tryCatch, bind,
    RebalanceService.calculateOptimalRange, liftRes, ret.
  destruct (RebalanceService.configuredRange config) as [r |]; [reflexivity |].
  destruct (PositionMonitorService.calculateOptimalRange config _ _);
    reflexivity.
Qed.

(** In dry-run mode a rebalance run only reads the pool and the
    positions. *)
Lemma rebalancePosition_dry_run_log (poolAddress : string) (s : St W) :
  let s' := snd (RebalanceService.rebalancePosition env config true poolAddress s) in
  log s' = log s ++ [EGetPoolInfo poolAddress]
  \/ log s' = log s ++ [EGetPoolInfo poolAddress; EGetPositions (getAddress env)].
Proof.
  unfold RebalanceService.rebalancePosition, tryCatch, bind,
    callGetPoolInfo, callGetPositions, call,
    RebalanceService.calculateOptimalRange, liftRes, ret.
  destruct (getPoolInfo env poolAddress (world s)) as [[poolInfo | msg] w1];
    cbn [world log]; [| left; reflexivity].
  destruct (getPositions env (getAddress env) w1) as [[positions | msg] w2];
    cbn [world log]; rewrite <- app_assoc; cbn [app]; right; [| reflexivity].
  destruct (filter _ positions) as [| position others].
  - destruct (PositionMonitorService.calculateOptimalRange config _ _);
      reflexivity.
  - destruct (PositionMonitorService.calculateOptimalRange config _ _)
      as [range | msg]; [| reflexivity].
    destruct (RebalanceService.rangeUnchanged position range poolInfo);
      reflexivity.
Qed.

(** C8.  With dry-run mode enabled, a rebalance run of the full service
    submits no transaction, whatever the collaborators answer: it returns
    before [removeLiquidity] and [addLiquidity] are reached.  When the reads
    of pool and positions return and the range is computed, the value is a
    [RebalanceResult] like that of a real run, with [success] true, the old
    range of the first position of the pool (when there is one) and the
    computed new range.  [createNewPosition] in dry-run mode likewise
    returns before [addLiquidity]. *)
Theorem rebalancePosition_dry_run :
  forall (poolAddress : string) (s : St W),
    submitted (log (snd (RebalanceService.rebalancePosition
                           env config true poolAddress s)))
    = submitted (log s)
    /\ (forall (poolInfo : PoolInfo.t) (w1 : W)
               (positions : list PositionInfo.t) (w2 : W) (range : Range),
           getPoolInfo env poolAddress (world s) = (Ok poolInfo, w1) ->
           getPositions env (getAddress env) w1 = (Ok positions, w2) ->
           PositionMonitorService.calculateOptimalRange config
             (PoolInfo.currentTickIndex poolInfo) (PoolInfo.tickSpacing poolInfo)
           = Ok range ->
           RebalanceService.rebalancePosition env config true poolAddress s
           = (Ok (mkResult true None None
                    (option_map RebalanceService.tickRangeOfPosition
                       (hd_error
                          (filter (fun p => String.eqb
                                              (PositionInfo.poolAddress p)
                                              poolAddress) positions)))
                    (Some (mkTickRange (lower range) (upper range)))),
              mkSt w2 (log s ++ [EGetPoolInfo poolAddress;
                                 EGetPositions (getAddress env)])))
    /\ (forall poolInfo : PoolInfo.t,
           snd (RebalanceService.createNewPosition env config true poolInfo s)
           = s).
Proof.
  intros poolAddress s. split; [| split].
  - destruct (rebalancePosition_dry_run_log poolAddress s) as [H | H];
      rewrite H, submitted_app; cbn; apply app_nil_r.
  - intros poolInfo w1 positions w2 range Hpool Hpos Hrange.
    unfold RebalanceService.rebalancePosition, tryCatch, bind,
      callGetPoolInfo, callGetPositions, call,
      RebalanceService.calculateOptimalRange, liftRes, ret.
    rewrite Hpool. cbn [world log]. rewrite Hpos. cbn [world log].
    rewrite <- app_assoc. cbn [app].
    destruct (filter _ positions) as [| position others];
      rewrite Hrange; cbn [hd_error option_map]; [reflexivity |].
    destruct (RebalanceService.rangeUnchanged position range poolInfo);
      reflexivity.
  - intros poolInfo. apply createNewPosition_dry_run_state.
Qed.

End DryRunFacts.

Lemma rebalancePosition_dry_run_witness :
  RebalanceService.rebalancePosition scriptEnv testConfig true "0x123"
    (testWorld (testPool 1000 60) (testPosition 840 900 false) [] [])
  = (Ok (mkResult true None None
           (Some (mkTickRange 840 900)) (Some (mkTickRange 960 1020))),
     mkSt (mkScript (testPool 1000 60) [testPosition 840 900 false] [] [] 0)
          [EGetPoolInfo "0x123"; EGetPositions "0xowner"]).
Proof.
  destruct (rebalancePosition_dry_run scriptEnv testConfig "0x123"
              (testWorld (testPool 1000 60) (testPosition 840 900 false) [] []))
    as (_ & Hresult & _).
  exact (Hresult (testPool 1000 60)
           (mkScript (testPool 1000 60) [testPosition 840 900 false] [] [] 0)
           [testPosition 840 900 false]
           (mkScript (testPool 1000 60) [testPosition 840 900 false] [] [] 0)
           (mkRange 960 1020) eq_refl eq_refl eq_refl).
Defined.

(** ** The simple rebalance service: coin merge *)


Lemma insertCoin_perm (c : Coin) (l : list Coin) :
  Permutation (c :: l) (SimpleRebalanceService.insertCoin c l).
Proof.
  induction l as [| d l IH]; cbn; [apply Permutation_refl |].
  destruct (balance c <? balance d); [| apply Permutation_refl].
  eapply Permutation_trans; [apply perm_swap |].
  apply perm_skip. exact IH.
Qed.

Lemma sortByBalance_perm (data : list Coin) :
  Permutation data (SimpleRebalanceService.sortByBalance data).
Proof.
  unfold SimpleRebalanceService.sortByBalance.
  induction data as [| c data IH]; cbn; [apply perm_nil |].
  eapply Permutation_trans; [| apply insertCoin_perm].
  apply perm_skip. exact IH.
Qed.

Lemma insertCoin_sorted (c : Coin) (l : list Coin) :
  StronglySorted notSmaller l ->
  StronglySorted notSmaller (SimpleRebalanceService.insertCoin c l).
Proof.
  induction 1 as [| d l Hsorted IH Hall]; cbn.
  - constructor; [constructor | constructor].
  - destruct (Z.ltb_spec (balance c) (balance d)) as [Hlt | Hge].
    + constructor; [exact IH |].
      eapply Permutation_Forall; [apply insertCoin_perm |].
      constructor; [unfold notSmaller; lia | exact Hall].
    + constructor; [constructor; assumption |].
      constructor; [exact Hge |].
      eapply Forall_impl; [| exact Hall].
      unfold notSmaller. intros x Hx. lia.
Qed.

Lemma sortByBalance_sorted (data : list Coin) :
  StronglySorted notSmaller (SimpleRebalanceService.sortByBalance data).
Proof.
  unfold SimpleRebalanceService.sortByBalance.
  induction data as [| c data IH]; cbn; [constructor |].
  apply insertCoin_sorted. exact IH.
Qed.

(** The first coin after sorting holds the largest balance, and the sorted
    list holds the same coins. *)
Lemma sortByBalance_primary (data : list Coin) (primary : Coin)
    (others : list Coin) :
  SimpleRebalanceService.sortByBalance data = primary :: others ->
  Permutation data (primary :: others)
  /\ forall c, In c data -> balance c <= balance primary.
Proof.
  intros Hsort.
  pose proof (sortByBalance_perm data) as Hperm.
  pose proof (sortByBalance_sorted data) as Hsorted.
  rewrite Hsort in Hperm, Hsorted.
  split; [exact Hperm |].
  intros c Hin.
  apply (Permutation_in _ Hperm) in Hin.
  apply StronglySorted_inv in Hsorted as [_ Hall].
  destruct Hin as [-> | Hin]; [lia |].
  rewrite Forall_forall in Hall. apply Hall. exact Hin.
Qed.

Lemma sortByBalance_length (data : list Coin) :
  List.length (SimpleRebalanceService.sortByBalance data) = List.length data.
Proof.
  symmetry. apply Permutation_length. apply sortByBalance_perm.
Qed.

Section MergeCoinsFacts.

Context {W : Type} (env : Env W).
Variable config : BotConfig.t.


Ltac log_done :=
  cbn [snd fst log world];
  rewrite ?submitted_app; cbn [submitted app];
  rewrite ?app_nil_r, <- ?app_assoc; reflexivity.

(** With at most one coin object, [mergeCoins] only queries the coins. *)
Lemma mergeCoins_nothing_to_merge (coinType : string) (s : St W)
    (answer : option (list Coin)) (w1 : W) :
  getCoins env (getAddress env) coinType (world s) = (Ok answer, w1) ->
  (forall data, answer = Some data -> (List.length data <= 1)%nat) ->
  SimpleRebalanceService.mergeCoins env config coinType s
  = (Ok tt, mkSt w1 (log s ++ [EGetCoins (getAddress env) coinType])).
Proof.
  intros Hget Hsmall.
  unfold SimpleRebalanceService.mergeCoins, tryCatch, bind, callGetCoins, call.
  rewrite Hget.
  destruct answer as [data |]; [| reflexivity].
  specialize (Hsmall data eq_refl).
  apply Nat.leb_le in Hsmall. rewrite Hsmall. reflexivity.
Qed.

(** With several coin objects, [mergeCoins] submits exactly the merge
    transaction of the sorted coins, whatever happens afterwards. *)
Lemma mergeCoins_submits_one (coinType : string) (s : St W)
    (data : list Coin) (w1 : W) (primary : Coin) (others : list Coin) :
  getCoins env (getAddress env) coinType (world s) = (Ok (Some data), w1) ->
  (1 < List.length data)%nat ->
  SimpleRebalanceService.sortByBalance data = primary :: others ->
  submitted (log (snd (SimpleRebalanceService.mergeCoins env config coinType s)))
  = submitted (log s) ++ [mergeTransaction env config primary others].
Proof.
  intros Hget Hlen Hsort.
  unfold SimpleRebalanceService.mergeCoins, tryCatch, bind, callGetCoins,
    callSignAndExecute, delay, call, throw, ret.
  rewrite Hget. clear Hget.
  destruct (Nat.leb_spec (List.length data) 1) as [Hle | _]; [lia |].
  rewrite Hsort. cbn [world log].
  fold (mergeTransaction env config primary others).
  destruct (signAndExecuteTransaction env _ w1) as [[result | msg] w2];
    [| log_done].
  destruct (notSuccess result); [log_done |].
  cbn [world log].
  destruct (getCoins env (getAddress env) coinType _)
    as [[[verifyData |] | msg] w3]; try log_done.
  destruct (1 <? List.length verifyData)%nat; [| log_done].
  cbn [world log].
  destruct (getCoins env (getAddress env) coinType _)
    as [[[secondData |] | msg] w4]; try log_done.
  destruct (1 <? List.length secondData)%nat; log_done.
Qed.

(** C7.  [mergeCoins] for an asset whose holdings are zero or one coin
    object is a no-op: it queries the coins, submits no transaction and
    returns normally; so a call on already consolidated holdings changes
    nothing.  With more than one coin object, the coin with the largest
    balance is the merge target, and exactly one transaction is submitted,
    which merges all the other coin objects into it. *)
Theorem mergeCoins_consolidates :
  forall (coinType : string) (s : St W),
    (forall (answer : option (list Coin)) (w1 : W),
        getCoins env (getAddress env) coinType (world s) = (Ok answer, w1) ->
        (forall data, answer = Some data -> (List.length data <= 1)%nat) ->
        SimpleRebalanceService.mergeCoins env config coinType s
        = (Ok tt, mkSt w1 (log s ++ [EGetCoins (getAddress env) coinType]))
        /\ submitted (log (snd (SimpleRebalanceService.mergeCoins
                                  env config coinType s)))
           = submitted (log s))
    /\ (forall (data : list Coin) (w1 : W),
           getCoins env (getAddress env) coinType (world s)
           = (Ok (Some data), w1) ->
           (1 < List.length data)%nat ->
           exists (primary : Coin) (others : list Coin),
             Permutation data (primary :: others)
             /\ (forall c, In c data -> balance c <= balance primary)
             /\ submitted (log (snd (SimpleRebalanceService.mergeCoins
                                       env config coinType s)))
                = submitted (log s)
                  ++ [mkTransaction
                        (MergeCoinsCommand (coinObjectId primary)
                                           (map coinObjectId others))
                        (Some (getAddress env))
                        (Some (BotConfig.gasBudget config))]).
Proof.
  intros coinType s. split.
  - intros answer w1 Hget Hsmall.
    pose proof (mergeCoins_nothing_to_merge coinType s answer w1 Hget Hsmall)
      as Hrun.
    split; [exact Hrun |].
    rewrite Hrun. cbn [snd log]. rewrite submitted_app. cbn.
    apply app_nil_r.
  - intros data w1 Hget Hlen.
    destruct (SimpleRebalanceService.sortByBalance data)
      as [| primary others] eqn:Hsort.
    + pose proof (sortByBalance_length data) as Hl.
      rewrite Hsort in Hl. cbn in Hl. lia.
    + exists primary, others.
      destruct (sortByBalance_primary data primary others Hsort)
        as [Hperm Hmax].
      split; [exact Hperm |]. split; [exact Hmax |].
      apply (mergeCoins_submits_one coinType s data w1 primary others
               Hget Hlen Hsort).
Qed.

End MergeCoinsFacts.


Lemma mergeCoins_consolidates_witness :
  (exists (primary : Coin) (others : list Coin),
      Permutation [mkCoin "a1" 500; mkCoin "a2" 300; mkCoin "a3" 800]
                  (primary :: others)
      /\ (forall c, In c [mkCoin "a1" 500; mkCoin "a2" 300; mkCoin "a3" 800] ->
                    balance c <= balance primary)
      /\ submitted (log (snd (SimpleRebalanceService.mergeCoins scriptEnv
                                testConfig "0xA" fragmentedWorld)))
         = [mkTransaction
              (MergeCoinsCommand (coinObjectId primary)
                                 (map coinObjectId others))
              (Some "0xowner") (Some 100000000)])
  /\ (let s1 := snd (SimpleRebalanceService.mergeCoins scriptEnv testConfig
                       "0xA" fragmentedWorld) in
      SimpleRebalanceService.mergeCoins scriptEnv testConfig "0xA" s1
      = (Ok tt,
         mkSt (mkScript (testPool 1000 60) [testPosition 840 900 false] [] [] 5000)
              (log s1 ++ [EGetCoins "0xowner" "0xA"]))).
Proof.
  split.
  - destruct (mergeCoins_consolidates scriptEnv testConfig "0xA" fragmentedWorld)
      as (_ & Hmerge).
    exact (Hmerge [mkCoin "a1" 500; mkCoin "a2" 300; mkCoin "a3" 800]
             (mkScript (testPool 1000 60) [testPosition 840 900 false]
                [Some [mkCoin "a3" 1600]; Some [mkCoin "a3" 1600]] [] 0)
             eq_refl ltac:(cbn; lia)).
  - cbv zeta.
    destruct (mergeCoins_consolidates scriptEnv testConfig "0xA"
                (snd (SimpleRebalanceService.mergeCoins scriptEnv testConfig
                        "0xA" fragmentedWorld)))
      as (Hnoop & _).
    destruct (Hnoop (Some [mkCoin "a3" 1600])
                (mkScript (testPool 1000 60) [testPosition 840 900 false]
                   [] [] 5000)
                eq_refl
                ltac:(intros data Hdata; injection Hdata as <-; cbn; lia))
      as (Hrun & _).
    exact Hrun.
Defined.

(** The run of the first call: the largest coin [a3] is the target. *)
Example mergeCoins_fragmented_run :
  SimpleRebalanceService.mergeCoins scriptEnv testConfig "0xA" fragmentedWorld
  = (Ok tt,
     mkSt (mkScript (testPool 1000 60) [testPosition 840 900 false]
             [Some [mkCoin "a3" 1600]] [] 5000)
          [EGetCoins "0xowner" "0xA";
           ESubmit (mkTransaction (MergeCoinsCommand "a3" ["a1"; "a2"])
                      (Some "0xowner") (Some 100000000));
           EDelay 5000;
           EGetCoins "0xowner" "0xA"]).
Proof. reflexivity. Qed.

(** ** The simple rebalance service: retries *)




Section RetryFacts.

Context {W : Type} (env : Env W).
Variable config : BotConfig.t.




(** The retry loop makes two attempts, with a delay of two seconds after
    a failed first attempt, and surfaces the error of the second. *)
Lemma forAttempts_two {A : Type} (body : Z -> M (St W) A) (exhausted : string)
    (s : St W) :
  SimpleRebalanceService.forAttempts env 2 0 None body exhausted s
  = match body 0 s with
    | (Ok a, s1) => (Ok a, s1)
    | (Throw e1, s1) => body 1 (snd (delay env 2000 s1))
    end.
Proof.
  cbn [SimpleRebalanceService.forAttempts]. unfold tryCatch, bind.
  destruct (body 0 s) as [[a | e1] s1]; [reflexivity |].
  cbn [Z.ltb Z.compare]. unfold delay at 1. unfold call at 1.
  cbn [Z.add Z.ltb Z.compare Pos.add].
  unfold delay, call. cbn [snd].
  destruct (body 1 _) as [[a | e2] s2]; reflexivity.
Qed.

(** One submission followed by the status check. *)
Lemma submit_checked {A : Type} (tx : Transaction) (prefix : string)
    (value : TxResult -> A) (s : St W) :
  (result <- callSignAndExecute env tx ;;
   if notSuccess result then throw (prefix ++ errorOrUnknown result)
   else ret (value result)) s
  = (match judged prefix (fst (signAndExecuteTransaction env tx (world s))) with
     | Ok result => Ok (value result)
     | Throw e => Throw e
     end,
     mkSt (snd (signAndExecuteTransaction env tx (world s)))
          (log s ++ [ESubmit tx])).
Proof.
  unfold bind, callSignAndExecute, call, judged, throw, ret.
  destruct (signAndExecuteTransaction env tx (world s)) as [[result | e] w'];
    cbn [fst snd]; [| reflexivity].
  destruct (notSuccess result); reflexivity.
Qed.

End RetryFacts.

Lemma addSubmissions_app (l1 l2 : list Event) :
  addSubmissions (l1 ++ l2) = (addSubmissions l1 + addSubmissions l2)%nat.
Proof.
  unfold addSubmissions.
  rewrite submitted_app, filter_app, length_app. reflexivity.
Qed.

Lemma judged_ok (prefix : string) (outcome : Res TxResult) (result : TxResult) :
  judged prefix outcome = Ok result
  <-> outcome = Ok result /\ status result = Some "success".
Proof.
  unfold judged, notSuccess. split.
  - destruct outcome as [r | msg]; [| discriminate].
    destruct (status r) as [st |] eqn:Hst; [| discriminate].
    destruct (String.eqb_spec st "success") as [-> | Hne]; [| discriminate].
    cbn. intros H. injection H as <-. split; [reflexivity | exact Hst].
  - intros [-> Hst]. rewrite Hst. reflexivity.
Qed.

Section RetryTheorems.

Context {W : Type} (env : Env W).
Variable config : BotConfig.t.

Ltac count_done :=
  cbn [snd fst log world];
  rewrite ?addSubmissions_app; cbn; lia.

(** [mergeCoins] submits no add-liquidity transaction. *)
Lemma mergeCoins_addSubmissions (coinType : string) (s : St W) :
  addSubmissions
    (log (snd (SimpleRebalanceService.mergeCoins env config coinType s)))
  = addSubmissions (log s).
Proof.
  unfold SimpleRebalanceService.mergeCoins, tryCatch, bind, callGetCoins,
    callSignAndExecute, delay, call, throw, ret.
  destruct (getCoins env (getAddress env) coinType (world s))
    as [[[data |] | msg] w1]; try count_done.
  destruct (List.length data <=? 1)%nat; [count_done |].
  destruct (SimpleRebalanceService.sortByBalance data)
    as [| primary others]; [count_done |].
  cbn [world log].
  destruct (signAndExecuteTransaction env _ w1) as [[result | msg] w2];
    [| count_done].
  destruct (notSuccess result); [count_done |].
  cbn [world log].
  destruct (getCoins env (getAddress env) coinType _)
    as [[[verifyData |] | msg] w3]; try count_done.
  destruct (1 <? List.length verifyData)%nat; [| count_done].
  cbn [world log].
  destruct (getCoins env (getAddress env) coinType _)
    as [[[secondData |] | msg] w4]; try count_done.
  destruct (1 <? List.length secondData)%nat; count_done.
Qed.

(** Nor does the rest of what precedes the submission in an attempt. *)
Lemma addLiquidityPrelude_addSubmissions (poolInfo : PoolInfo.t)
    (tickLower tickUpper : Z) (s : St W) :
  addSubmissions
    (log (snd (addLiquidityPrelude env config poolInfo tickLower tickUpper s)))
  = addSubmissions (log s).
Proof.
  unfold addLiquidityPrelude, bind.
  pose proof (mergeCoins_addSubmissions (PoolInfo.coinTypeA poolInfo) s) as HA.
  destruct (SimpleRebalanceService.mergeCoins env config
              (PoolInfo.coinTypeA poolInfo) s) as [[[] | msg] sA];
    cbn [snd] in *; [| exact HA].
  pose proof (mergeCoins_addSubmissions (PoolInfo.coinTypeB poolInfo) sA) as HB.
  destruct (SimpleRebalanceService.mergeCoins env config
              (PoolInfo.coinTypeB poolInfo) sA) as [[[] | msg] sB];
    cbn [snd] in *; [| congruence].
  unfold delay, callBuildPayload, call. cbn [world log].
  destruct (buildPayload env _ _) as [[[] | msg] w']; cbn [snd log];
    rewrite !addSubmissions_app; cbn; lia.
Qed.

(** An attempt of [addLiquidity] is its prelude followed by one checked
    submission. *)
Lemma addLiquidityAttempt_shape (poolInfo : PoolInfo.t)
    (tickLower tickUpper attempt : Z) (s : St W) :
  SimpleRebalanceService.addLiquidityAttempt env config poolInfo
    tickLower tickUpper attempt s
  = match addLiquidityPrelude env config poolInfo tickLower tickUpper s with
    | (Throw e, s0) => (Throw e, s0)
    | (Ok _, s0) =>
        let tx := addLiquidityTransaction config poolInfo tickLower tickUpper in
        let submission := signAndExecuteTransaction env tx (world s0) in
        (match judged "Add liquidity failed: " (fst submission) with
         | Ok result => Ok (digest result)
         | Throw e => Throw e
         end,
         mkSt (snd submission) (log s0 ++ [ESubmit tx]))
    end.
Proof.
  unfold SimpleRebalanceService.addLiquidityAttempt, addLiquidityPrelude.
  unfold bind at 1 2 3 4 6 7 8.
  destruct (SimpleRebalanceService.mergeCoins env config
              (PoolInfo.coinTypeA poolInfo) s) as [[[] | msg] sA];
    [| reflexivity].
  destruct (SimpleRebalanceService.mergeCoins env config
              (PoolInfo.coinTypeB poolInfo) sA) as [[[] | msg] sB];
    [| reflexivity].
  destruct (delay env _ sB) as [[[] | msg] sD]; [| reflexivity].
  destruct (callBuildPayload env _ sD) as [[[] | msg] s0]; [| reflexivity].
  cbv zeta. unfold addLiquidityTransaction.
  apply (submit_checked env _ "Add liquidity failed: " digest s0).
Qed.

End RetryTheorems.

Section RetryClaim.

Context {W : Type} (env : Env W).
Variable config : BotConfig.t.

(** C6.  Each ledger-facing transaction of the simple service makes at
    most two attempts, with a fixed delay of 2000 ms after a failed first
    attempt.  A submission counts as successful only when it returns a
    result whose status is ['success']; a returned result with another
    status is turned into an error and takes the path of a thrown error:
    the transaction is tried once more, and the error of the second failure
    is what the caller receives.  For [removeLiquidity] this is the whole
    run after the payload is built; for [addLiquidity] every attempt is its
    prelude followed by one judged submission, and no run submits the
    add-liquidity transaction more than twice. *)
Theorem ledger_transactions_retry_once :
  (forall (prefix : string) (outcome : Res TxResult) (result : TxResult),
      judged prefix outcome = Ok result
      <-> outcome = Ok result /\ status result = Some "success")
  /\ (forall (positionId : string) (liquidity : Z) (s : St W)
             (position : SdkPosition) (w1 : W) (pool' : SdkPool) (w2 w3 : W),
         let tx := removeLiquidityTransaction config position pool'
                     positionId liquidity in
         getPositionById env positionId (world s) = (Ok position, w1) ->
         getPool env (pool position) w1 = (Ok pool', w2) ->
         buildPayload env (payload tx) w2 = (Ok tt, w3) ->
         let before := log s ++ [EGetPositionById positionId;
                                 EGetPool (pool position);
                                 EBuildPayload (payload tx)] in
         let first := signAndExecuteTransaction env tx w3 in
         let second :=
           signAndExecuteTransaction env tx (setTimeout env 2000 (snd first)) in
         SimpleRebalanceService.removeLiquidity env config positionId liquidity s
         = match judged "Remove liquidity failed: " (fst first) with
           | Ok _ => (Ok tt, mkSt (snd first) (before ++ [ESubmit tx]))
           | Throw e1 =>
               (match judged "Remove liquidity failed: " (fst second) with
                | Ok _ => Ok tt
                | Throw e2 => Throw e2
                end,
                mkSt (snd second)
                     (before ++ [ESubmit tx; EDelay 2000; ESubmit tx]))
           end)
  /\ (forall (poolInfo : PoolInfo.t) (tickLower tickUpper : Z) (s : St W),
         SimpleRebalanceService.addLiquidity env config poolInfo
           tickLower tickUpper s
         = match SimpleRebalanceService.addLiquidityAttempt env config poolInfo
                   tickLower tickUpper 0 s with
           | (Ok txDigest, s1) => (Ok txDigest, s1)
           | (Throw e1, s1) =>
               SimpleRebalanceService.addLiquidityAttempt env config poolInfo
                 tickLower tickUpper 1
                 (mkSt (setTimeout env 2000 (world s1)) (log s1 ++ [EDelay 2000]))
           end)
  /\ (forall (poolInfo : PoolInfo.t) (tickLower tickUpper attempt : Z) (s : St W),
         SimpleRebalanceService.addLiquidityAttempt env config poolInfo
           tickLower tickUpper attempt s
         = match addLiquidityPrelude env config poolInfo tickLower tickUpper s with
           | (Throw e, s0) => (Throw e, s0)
           | (Ok _, s0) =>
               let tx := addLiquidityTransaction config poolInfo
                           tickLower tickUpper in
               let submission := signAndExecuteTransaction env tx (world s0) in
               (match judged "Add liquidity failed: " (fst submission) with
                | Ok result => Ok (digest result)
                | Throw e => Throw e
                end,
                mkSt (snd submission) (log s0 ++ [ESubmit tx]))
           end)
  /\ (forall (poolInfo : PoolInfo.t) (tickLower tickUpper : Z) (s : St W),
         (addSubmissions
            (log (snd (SimpleRebalanceService.addLiquidity env config poolInfo
                         tickLower tickUpper s)))
          <= addSubmissions (log s) + 2)%nat).
Proof.
  split; [exact judged_ok |].
  split; [| split; [| split]].
  - intros positionId liquidity s position w1 pool' w2 w3 tx
           Hposition Hpool Hbuild before first second.
    unfold SimpleRebalanceService.removeLiquidity.
    unfold bind at 1 2 3.
    unfold callGetPositionById, callGetPool, callBuildPayload, call.
    rewrite Hposition. cbn [world log]. rewrite Hpool. cbn [world log].
    fold tx. cbn [payload] in Hbuild.
    unfold tx in Hbuild. unfold removeLiquidityTransaction in Hbuild.
    cbn [payload] in Hbuild. rewrite Hbuild.
    rewrite forAttempts_two.
    rewrite (submit_checked env _ "Remove liquidity failed: " (fun _ => tt)).
    cbn [world log].
    fold (removeLiquidityTransaction config position pool' positionId liquidity).
    fold tx. fold first.
    assert (Hbefore :
      ((log s ++ [EGetPositionById positionId]) ++ [EGetPool (pool position)])
        ++ [EBuildPayload (payload tx)] = before).
    { unfold before. rewrite <- !app_assoc. reflexivity. }
    cbn [payload tx removeLiquidityTransaction] in Hbefore.
    rewrite Hbefore.
    destruct (judged "Remove liquidity failed: " (fst first)) as [r1 | e1];
      [reflexivity |].
    rewrite (submit_checked env _ "Remove liquidity failed: " (fun _ => tt)).
    unfold delay, call. cbn [snd world log].
    fold second.
    rewrite <- !app_assoc. cbn [app].
    destruct (judged "Remove liquidity failed: " (fst second)); reflexivity.
  - intros poolInfo tickLower tickUpper s.
    unfold SimpleRebalanceService.addLiquidity.
    rewrite forAttempts_two.
    destruct (SimpleRebalanceService.addLiquidityAttempt env config poolInfo
                tickLower tickUpper 0 s) as [[d | e1] s1]; reflexivity.
  - intros poolInfo tickLower tickUpper attempt s.
    apply addLiquidityAttempt_shape.
  - intros poolInfo tickLower tickUpper s.
    assert (Hattempt : forall attempt s0,
      (addSubmissions
         (log (snd (SimpleRebalanceService.addLiquidityAttempt env config
                      poolInfo tickLower tickUpper attempt s0)))
       <= addSubmissions (log s0) + 1)%nat).
    { intros attempt s0. rewrite addLiquidityAttempt_shape.
      pose proof (addLiquidityPrelude_addSubmissions env config poolInfo
                    tickLower tickUpper s0) as Hprelude.
      destruct (addLiquidityPrelude env config poolInfo tickLower tickUpper s0)
        as [[[] | e] s1]; cbn [snd log] in *.
      - rewrite addSubmissions_app, Hprelude. cbn. lia.
      - lia. }
    unfold SimpleRebalanceService.addLiquidity.
    rewrite forAttempts_two.
    pose proof (Hattempt 0 s) as H0.
    destruct (SimpleRebalanceService.addLiquidityAttempt env config poolInfo
                tickLower tickUpper 0 s) as [[d | e1] s1];
      cbn [snd] in *; [lia |].
    pose proof (Hattempt 1 (snd (delay env 2000 s1))) as H1.
    assert (Hdelay : addSubmissions (log (snd (delay env 2000 s1)))
                     = addSubmissions (log s1)).
    { unfold delay, call. cbn [snd log].
      rewrite addSubmissions_app. cbn. lia. }
    lia.
Qed.

End RetryClaim.


Lemma ledger_transactions_retry_once_witness :
  SimpleRebalanceService.removeLiquidity scriptEnv testConfig "pos1" 1000000
    removeRetryWorld
  = (Ok tt,
     mkSt (mkScript (testPool 1000 60) [testPosition 840 900 false] [] [] 2000)
          [EGetPositionById "pos1"; EGetPool "0x123";
           EBuildPayload (payload testRemoveTransaction);
           ESubmit testRemoveTransaction; EDelay 2000;
           ESubmit testRemoveTransaction])
  /\ SimpleRebalanceService.removeLiquidity scriptEnv testConfig "pos1" 1000000
       removeFailsWorld
     = (Throw "Remove liquidity failed: MoveAbort",
        mkSt (mkScript (testPool 1000 60) [testPosition 840 900 false] [] [] 2000)
             [EGetPositionById "pos1"; EGetPool "0x123";
              EBuildPayload (payload testRemoveTransaction);
              ESubmit testRemoveTransaction; EDelay 2000;
              ESubmit testRemoveTransaction]).
Proof.
  destruct (ledger_transactions_retry_once scriptEnv testConfig)
    as (_ & Hremove & _).
  split.
  - exact (Hremove "pos1" 1000000 removeRetryWorld
             (mkSdkPosition "0x123") (world removeRetryWorld)
             (mkSdkPool "0xA" "0xB") (world removeRetryWorld)
             (world removeRetryWorld) eq_refl eq_refl eq_refl).
  - exact (Hremove "pos1" 1000000 removeFailsWorld
             (mkSdkPosition "0x123") (world removeFailsWorld)
             (mkSdkPool "0xA" "0xB") (world removeFailsWorld)
             (world removeFailsWorld) eq_refl eq_refl eq_refl).
Defined.

(** ** The simple rebalance service: merging on every attempt *)


Section MergeOnRetry.

Context {W : Type} (env : Env W).
Variable config : BotConfig.t.

Lemma mergeCoins_extends (coinType : string) :
  extends (SimpleRebalanceService.mergeCoins env config coinType).
Proof.
  unfold SimpleRebalanceService.mergeCoins, callGetCoins, callSignAndExecute,
    delay.
  extends_tac.
Qed.

(** [mergeCoins] begins by querying the coin objects of the asset. *)
Lemma mergeCoins_queries_first (coinType : string) (s : St W) :
  exists rest,
    log (snd (SimpleRebalanceService.mergeCoins env config coinType s))
    = log s ++ EGetCoins (getAddress env) coinType :: rest.
Proof.
  unfold SimpleRebalanceService.mergeCoins, callGetCoins. cbv zeta.
  apply call_logged_first; intros;
    unfold callSignAndExecute, callGetCoins, delay; extends_tac.
Qed.

(** On every ledger: when the first attempt of [addLiquidity] fails, the
    retry waits two seconds and then runs the merge step again, beginning
    with the query of the coin objects of the first asset. *)
Lemma addLiquidity_retry_merges_again (poolInfo : PoolInfo.t)
    (tickLower tickUpper : Z) (s s1 : St W) (e1 : string) :
  SimpleRebalanceService.addLiquidityAttempt env config poolInfo
    tickLower tickUpper 0 s = (Throw e1, s1) ->
  exists rest,
    log (snd (SimpleRebalanceService.addLiquidity env config poolInfo
                tickLower tickUpper s))
    = log s1 ++ EDelay 2000
        :: EGetCoins (getAddress env) (PoolInfo.coinTypeA poolInfo) :: rest.
Proof.
  intros Hfirst.
  unfold SimpleRebalanceService.addLiquidity.
  rewrite forAttempts_two, Hfirst.
  unfold SimpleRebalanceService.addLiquidityAttempt.
  destruct (first_logged_bind
              (EGetCoins (getAddress env) (PoolInfo.coinTypeA poolInfo))
              (SimpleRebalanceService.mergeCoins env config
                 (PoolInfo.coinTypeA poolInfo))
              (fun _ =>
                 SimpleRebalanceService.mergeCoins env config
                   (PoolInfo.coinTypeB poolInfo) ;;;
                 delay env SimpleRebalanceService.COIN_MERGE_PROPAGATION_DELAY_MS ;;;
                 callBuildPayload env
                   (SimpleRebalanceService.addLiquidityParams config poolInfo
                      tickLower tickUpper) ;;;
                 result <- callSignAndExecute env
                             (mkTransaction
                                (SimpleRebalanceService.addLiquidityParams
                                   config poolInfo tickLower tickUpper)
                                None (Some (BotConfig.gasBudget config))) ;;
                 if notSuccess result then
                   throw ("Add liquidity failed: " ++ errorOrUnknown result)
                 else ret (digest result))
              (mergeCoins_queries_first (PoolInfo.coinTypeA poolInfo))
              (fun _ => ltac:(
                 apply extends_bind; [apply mergeCoins_extends | intro];
                 unfold delay, callBuildPayload, callSignAndExecute;
                 extends_tac))
              (snd (delay env 2000 s1))) as [rest Hrest].
  exists rest. rewrite Hrest.
  unfold delay, call. cbn [snd log]. rewrite <- app_assoc. reflexivity.
Qed.

End MergeOnRetry.

(** C5 (the code departs from it).  The claim is that within one check
    cycle the coins of the two assets are merged once, before the
    add-liquidity attempts, and that a failed first attempt does not run the
    merge step again.  In the code the merge step is inside the retry loop:
    in a cycle whose first add-liquidity submission fails, [mergeCoins] runs
    for both assets in the first attempt and again in the second, which
    shows as four coin queries in the log, and after the failed submission
    the log has the delay of the retry followed by the two queries of the
    second merge step. *)
Theorem addLiquidity_merges_on_every_attempt :
  let run := SimpleRebalanceService.checkAndRebalance scriptEnv testConfig
               "0x123" addRetryWorld in
  fst run = Ok (Some (mkResult true (Some "add2") None
                        (Some (mkTickRange 840 900))
                        (Some (mkTickRange 960 1020))))
  /\ coinQueries (log (snd run)) = ["0xA"; "0xB"; "0xA"; "0xB"]
  /\ log (snd run)
     = [EGetPoolInfo "0x123"; EGetPositions "0xowner";
        EGetPositionById "pos1"; EGetPool "0x123";
        EBuildPayload (payload testRemoveTransaction);
        ESubmit testRemoveTransaction;
        EGetCoins "0xowner" "0xA"; EGetCoins "0xowner" "0xB"; EDelay 2000;
        EBuildPayload (payload testAddTransaction);
        ESubmit testAddTransaction;
        EDelay 2000;
        EGetCoins "0xowner" "0xA"; EGetCoins "0xowner" "0xB"; EDelay 2000;
        EBuildPayload (payload testAddTransaction);
        ESubmit testAddTransaction].
Proof. cbv zeta. split; [| split]; reflexivity. Qed.

(** When the holdings are split again between the attempts, the retry
    submits a second merge transaction in the same cycle. *)
Example addLiquidity_merges_twice_after_deposit :
  submitted (log (snd (SimpleRebalanceService.checkAndRebalance scriptEnv
                         testConfig "0x123" addRetryDepositWorld)))
  = [testRemoveTransaction;
     mkTransaction (MergeCoinsCommand "a1" ["a2"]) (Some "0xowner")
       (Some 100000000);
     testAddTransaction;
     mkTransaction (MergeCoinsCommand "a1" ["a3"]) (Some "0xowner")
       (Some 100000000);
     testAddTransaction].
Proof. reflexivity. Qed.

(** ** The bot life cycle *)


Section LifeCycle.

Context {W : Type} (env : Env W).
Variable config : BotConfig.t.
Variable dryRun : bool.


(** [performCheck] never throws and touches the services only. *)
Lemma performCheck_frame (b : BotSt W) :
  exists s',
    CetusRebalanceBot.performCheck env config dryRun b
    = (Ok tt, mkBotSt (isRunning b) (intervalId b) (timers b) (nextTimer b) s').
Proof.
  unfold CetusRebalanceBot.performCheck, tryCatch, bind, liftServices, ret.
  destruct (RebalanceService.checkAndRebalance env config dryRun _ (services b))
    as [[result | msg] s']; exists s'; reflexivity.
Qed.

Lemma start_when_running (b : BotSt W) :
  isRunning b = true ->
  CetusRebalanceBot.start env config dryRun b = (Ok tt, b).
Proof.
  intros H. unfold CetusRebalanceBot.start. rewrite H. reflexivity.
Qed.

Lemma stop_when_stopped (b : BotSt W) :
  isRunning b = false -> stop b = (Ok tt, b).
Proof.
  intros H. unfold stop. rewrite H. reflexivity.
Qed.

(** An effective [start()] runs one check and arms one timer. *)
Lemma start_when_stopped (b : BotSt W) :
  isRunning b = false ->
  exists s',
    CetusRebalanceBot.start env config dryRun b
    = (Ok tt,
       mkBotSt true (Some (nextTimer b))
         (timers b ++ [(nextTimer b, BotConfig.checkInterval config * 1000)])
         (S (nextTimer b)) s').
Proof.
  intros H. unfold CetusRebalanceBot.start. rewrite H.
  unfold bind at 1. unfold setIsRunning at 1.
  unfold bind at 1.
  destruct (performCheck_frame
              (mkBotSt true (intervalId b) (timers b) (nextTimer b) (services b)))
    as [s' Hcheck].
  cbn [isRunning intervalId timers nextTimer services] in Hcheck.
  rewrite Hcheck.
  exists s'. reflexivity.
Qed.

Lemma stop_when_running (b : BotSt W) :
  isRunning b = true ->
  stop b
  = (Ok tt,
     mkBotSt false None
       (match intervalId b with
        | Some id => filter (fun t => negb (Nat.eqb (fst t) id)) (timers b)
        | None => timers b
        end)
       (nextTimer b) (services b)).
Proof.
  intros H. unfold stop. rewrite H. cbn [negb].
  destruct (intervalId b) as [id |] eqn:Hid; [reflexivity |].
  unfold bind, setIsRunning, ret. cbn. rewrite Hid. reflexivity.
Qed.

Lemma consistent_new (s : St W) : consistent (newBot s).
Proof. unfold consistent, newBot. cbn. split; reflexivity. Qed.

Lemma runCall_consistent (c : Call) (b : BotSt W) :
  consistent b -> consistent (snd (runCall env config dryRun c b)).
Proof.
  unfold consistent. intros Hb.
  destruct c; cbn [runCall].
  - destruct (isRunning b) eqn:Hrun.
    + rewrite (start_when_running b Hrun). cbn [snd]. rewrite Hrun. exact Hb.
    + destruct (start_when_stopped b Hrun) as [s' ->]. cbn [snd isRunning].
      destruct Hb as [_ Htimers]. rewrite Htimers.
      eexists _, _. split; reflexivity.
  - destruct (isRunning b) eqn:Hrun.
    + rewrite (stop_when_running b Hrun). cbn [snd isRunning intervalId timers].
      destruct Hb as (id & ms & -> & ->). cbn.
      rewrite Nat.eqb_refl. split; reflexivity.
    + rewrite (stop_when_stopped b Hrun). cbn [snd]. rewrite Hrun. exact Hb.
Qed.

Lemma runCalls_consistent (calls : list Call) (b : BotSt W) :
  consistent b -> consistent (runCalls env config dryRun calls b).
Proof.
  revert b. induction calls as [| c calls IH]; intros b Hb; [exact Hb |].
  cbn [runCalls]. apply IH. apply runCall_consistent. exact Hb.
Qed.

Lemma runCall_running (c : Call) (b : BotSt W) :
  isRunning (snd (runCall env config dryRun c b))
  = match c with Start => true | Stop => false end.
Proof.
  destruct c; cbn [runCall]; destruct (isRunning b) eqn:Hrun.
  - rewrite (start_when_running b Hrun). exact Hrun.
  - destruct (start_when_stopped b Hrun) as [s' ->]. reflexivity.
  - rewrite (stop_when_running b Hrun). reflexivity.
  - rewrite (stop_when_stopped b Hrun). exact Hrun.
Qed.

Lemma runCalls_lastEffective (calls : list Call) (b : BotSt W)
    (last : option Call) :
  isRunning b = match last with Some Start => true | _ => false end ->
  isRunning (runCalls env config dryRun calls b)
  = match lastEffective env config dryRun calls b last with Some Start => true | _ => false end.
Proof.
  revert b last. induction calls as [| c calls IH]; intros b last Hlast;
    [exact Hlast |].
  cbn [runCalls lastEffective]. apply IH.
  rewrite runCall_running.
  destruct c; cbn [effective]; destruct (isRunning b) eqn:Hrun;
    cbn [negb]; try reflexivity; rewrite <- Hlast; reflexivity.
Qed.

(** The simple bot: [start()] on a stopped bot validates the setup first;
    a failed validation is thrown to the caller and leaves the bot stopped
    with no timer armed, a successful one is followed by one check and one
    timer. *)
Lemma simple_start_when_stopped
    (retryWithBackoff : forall A : Type, M (St W) A -> string -> M (St W) A)
    (b : BotSt W) :
  isRunning b = false ->
  match SimpleCetusRebalanceBot.validateSetup env config retryWithBackoff
          (services b) with
  | (Throw msg, s') =>
      SimpleCetusRebalanceBot.start env config retryWithBackoff b
      = (Throw msg,
         mkBotSt false (intervalId b) (timers b) (nextTimer b) s')
  | (Ok _, _) =>
      exists s'',
        SimpleCetusRebalanceBot.start env config retryWithBackoff b
        = (Ok tt,
           mkBotSt true (Some (nextTimer b))
             (timers b ++ [(nextTimer b, BotConfig.checkInterval config * 1000)])
             (S (nextTimer b)) s'')
  end.
Proof.
  intros H.
  assert (Hstart : forall r s',
    SimpleCetusRebalanceBot.validateSetup env config retryWithBackoff
      (services b) = (r, s') ->
    SimpleCetusRebalanceBot.start env config retryWithBackoff b
    = match r with
      | Ok _ =>
          (setIsRunning true ;;;
           SimpleCetusRebalanceBot.performCheck env config ;;;
           id <- setInterval (BotConfig.checkInterval config * 1000) ;;
           setIntervalId (Some id))
            (mkBotSt (isRunning b) (intervalId b) (timers b) (nextTimer b) s')
      | Throw msg =>
          (Throw msg,
           mkBotSt (isRunning b) (intervalId b) (timers b) (nextTimer b) s')
      end).
  { intros r s' Hv. unfold SimpleCetusRebalanceBot.start. rewrite H.
    unfold bind at 1. unfold liftServices at 1. rewrite Hv, ?H.
    destruct r; reflexivity. }
  destruct (SimpleCetusRebalanceBot.validateSetup env config retryWithBackoff
              (services b)) as [[[] | msg] s'] eqn:Hv;
    rewrite (Hstart _ _ eq_refl); rewrite ?H.
  - unfold bind at 1. unfold setIsRunning at 1.
    unfold bind at 1.
    unfold SimpleCetusRebalanceBot.performCheck, tryCatch.
    unfold bind at 1. unfold liftServices.
    cbn [isRunning intervalId timers nextTimer services].
    destruct (SimpleRebalanceService.checkAndRebalance env config _ s')
      as [[result | msg] s'']; exists s''; reflexivity.
  - reflexivity.
Qed.

End LifeCycle.

Section LifeCycleClaim.

Context {W : Type} (env : Env W).
Variable config : BotConfig.t.
Variable dryRun : bool.

(** C10.  The life-cycle calls are idempotent for awaited calls: [start()]
    on a running bot returns without any change, so no second timer is
    scheduled, and [getStatus().running] stays true (the guard is the same
    in the simple bot); [stop()] on a bot that is not running, also on a
    fresh one, returns without any change and [getStatus().running] stays
    false.  After any sequence of [start()] and [stop()] calls on a fresh
    bot, [getStatus().running] tells whether the last effective call was
    [start()], and one timer is armed when the bot runs and none when it
    does not. *)
Theorem bot_lifecycle_idempotent :
  (forall b : BotSt W,
      isRunning b = true ->
      CetusRebalanceBot.start env config dryRun b = (Ok tt, b)
      /\ statusRunning env config
           (snd (CetusRebalanceBot.start env config dryRun b)) = Some true)
  /\ (forall (retryWithBackoff : forall A : Type,
                 M (St W) A -> string -> M (St W) A)
             (b : BotSt W),
         isRunning b = true ->
         SimpleCetusRebalanceBot.start env config retryWithBackoff b
         = (Ok tt, b))
  /\ (forall b : BotSt W,
         isRunning b = false ->
         stop b = (Ok tt, b)
         /\ statusRunning env config (snd (stop b)) = Some false)
  /\ (forall s : St W, stop (newBot s) = (Ok tt, newBot s))
  /\ (forall (calls : list Call) (s : St W),
         statusRunning env config (runCalls env config dryRun calls (newBot s))
         = Some match lastEffective env config dryRun calls (newBot s) None with
                | Some Start => true
                | _ => false
                end)
  /\ (forall (calls : list Call) (s : St W),
         let b := runCalls env config dryRun calls (newBot s) in
         List.length (timers b) = if isRunning b then 1%nat else 0%nat).
Proof.
  split; [| split; [| split; [| split; [| split]]]].
  - intros b Hrun.
    rewrite (start_when_running env config dryRun b Hrun).
    split; [reflexivity |].
    unfold statusRunning, CetusRebalanceBot.getStatus. cbn. rewrite Hrun.
    reflexivity.
  - intros retryWithBackoff b Hrun.
    unfold SimpleCetusRebalanceBot.start. rewrite Hrun. reflexivity.
  - intros b Hrun.
    rewrite (stop_when_stopped b Hrun).
    split; [reflexivity |].
    unfold statusRunning, CetusRebalanceBot.getStatus. cbn. rewrite Hrun.
    reflexivity.
  - intros s. apply stop_when_stopped. reflexivity.
  - intros calls s.
    unfold statusRunning, CetusRebalanceBot.getStatus. cbn [fst running].
    f_equal. apply runCalls_lastEffective. reflexivity.
  - intros calls s b.
    pose proof (runCalls_consistent env config dryRun calls (newBot s)
                  (consistent_new s)) as Hb.
    fold b in Hb. unfold consistent in Hb.
    destruct (isRunning b).
    + destruct Hb as (id & ms & _ & ->). reflexivity.
    + destruct Hb as (_ & ->). reflexivity.
Qed.

End LifeCycleClaim.


Lemma bot_lifecycle_idempotent_witness :
  (let started := snd (CetusRebalanceBot.start scriptEnv testConfig false testBot) in
   CetusRebalanceBot.start scriptEnv testConfig false started = (Ok tt, started)
   /\ timers started = [(0%nat, 60000)])
  /\ stop testBot = (Ok tt, testBot)
  /\ statusRunning scriptEnv testConfig
       (runCalls scriptEnv testConfig false
          [Stop; Start; Start; Stop; Stop; Start] testBot) = Some true.
Proof.
  destruct (bot_lifecycle_idempotent scriptEnv testConfig false)
    as (Hstart & _ & Hstop & _ & Hlast & _).
  split; [| split].
  - cbv zeta. split; [| reflexivity].
    apply (Hstart (snd (CetusRebalanceBot.start scriptEnv testConfig false testBot))).
    reflexivity.
  - apply (Hstop testBot). reflexivity.
  - exact (Hlast [Stop; Start; Start; Stop; Stop; Start]
             (testWorld (testPool 1000 60) (testPosition 960 1020 true) [] [])).
Defined.

(** ** Check cycles under the interval timer *)


(** A step begins at most one check cycle. *)
Lemma step_inFlight (validates : bool) (e : Scheduler.Step)
    (s s' : Scheduler.State) :
  Scheduler.step validates e s = Some s' ->
  (Scheduler.inFlight s' <= S (Scheduler.inFlight s))%nat.
Proof.
  unfold Scheduler.step, Scheduler.inFlight, Scheduler.beginFirstCheck.
  destruct e as [| ok | | id | |].
  - destruct (Scheduler.isRunning s); [| destruct validates];
      intros H; injection H as <-; cbn; lia.
  - destruct (Scheduler.validating s); [discriminate |].
    destruct ok; intros H; injection H as <-; cbn; lia.
  - destruct (Scheduler.starting s) eqn:Hs; [discriminate |].
    intros H; injection H as <-; cbn; lia.
  - destruct (existsb _ _); [| discriminate].
    intros H; injection H as <-; cbn; lia.
  - destruct (Scheduler.cycles s) eqn:Hc; [discriminate |].
    intros H; injection H as <-; cbn; lia.
  - destruct (negb (Scheduler.isRunning s));
      [| destruct (Scheduler.intervalId s)];
      intros H; injection H as <-; cbn; lia.
Qed.

Lemma unhurried_serialized (validates : bool) (trace : list Scheduler.Step) :
  forall s s' : Scheduler.State,
    (Scheduler.inFlight s <= 1)%nat ->
    unhurried validates trace s = true ->
    Scheduler.run validates trace s = Some s' ->
    (Scheduler.inFlight s' <= 1)%nat.
Proof.
  induction trace as [| e trace IH]; intros s s' Hs Hquiet Hrun.
  - cbn in Hrun. injection Hrun as <-. exact Hs.
  - cbn [unhurried Scheduler.run] in Hquiet, Hrun.
    destruct (Scheduler.step validates e s) as [s1 |] eqn:Hstep;
      [| discriminate].
    apply andb_true_iff in Hquiet as [Hnow Hrest].
    apply (IH s1 s'); [| exact Hrest | exact Hrun].
    pose proof (step_inFlight validates e s s1 Hstep) as Hbound.
    destruct (Nat.ltb_spec (Scheduler.inFlight s) (Scheduler.inFlight s1))
      as [Hlt | Hge]; [| lia].
    apply Nat.eqb_eq in Hnow. lia.
Qed.

(** C9, as the code has it.  The scheduler does not wait for a check cycle
    to finish: a tick of an armed interval timer always begins a new cycle,
    whatever is in flight, and only an armed timer can tick; [stop()]
    leaves the cycles in flight alone; [start()] arms its timer not when it
    is called but when the initial check it awaits has finished.  Check
    cycles are therefore serialized only in runs in which every cycle has
    finished before the next one begins. *)
Theorem timer_cycles_not_serialized :
  forall (validates : bool) (s : Scheduler.State),
    (forall id : nat,
        In id (Scheduler.timers s) ->
        exists s',
          Scheduler.step validates (Scheduler.TimerFires id) s = Some s'
          /\ Scheduler.inFlight s' = S (Scheduler.inFlight s))
    /\ (forall id : nat,
           ~ In id (Scheduler.timers s) ->
           Scheduler.step validates (Scheduler.TimerFires id) s = None)
    /\ (exists s',
           Scheduler.step validates Scheduler.CallStop s = Some s'
           /\ Scheduler.isRunning s' = false
           /\ Scheduler.inFlight s' = Scheduler.inFlight s)
    /\ (forall s' : Scheduler.State,
           Scheduler.step validates Scheduler.CallStart s = Some s' ->
           Scheduler.timers s' = Scheduler.timers s)
    /\ (forall s' : Scheduler.State,
           Scheduler.step validates Scheduler.InitialCheckDone s = Some s' ->
           Scheduler.timers s' = Scheduler.timers s ++ [Scheduler.nextTimer s]
           /\ S (Scheduler.inFlight s') = Scheduler.inFlight s)
    /\ (forall (trace : list Scheduler.Step) (s' : Scheduler.State),
           unhurried validates trace Scheduler.init = true ->
           Scheduler.run validates trace Scheduler.init = Some s' ->
           (Scheduler.inFlight s' <= 1)%nat).
Proof.
  intros validates s. split; [| split; [| split; [| split; [| split]]]].
  - intros id Hin. unfold Scheduler.step.
    assert (Hex : existsb (Nat.eqb id) (Scheduler.timers s) = true).
    { apply existsb_exists. exists id. split; [exact Hin |].
      apply Nat.eqb_refl. }
    rewrite Hex. eexists. split; [reflexivity |].
    unfold Scheduler.inFlight. cbn. lia.
  - intros id Hnot. unfold Scheduler.step.
    destruct (existsb (Nat.eqb id) (Scheduler.timers s)) eqn:Hex;
      [| reflexivity].
    apply existsb_exists in Hex as (x & Hin & Heq).
    apply Nat.eqb_eq in Heq. subst x. contradiction.
  - unfold Scheduler.step.
    destruct (Scheduler.isRunning s) eqn:Hrun; cbn [negb].
    + destruct (Scheduler.intervalId s); eexists;
        (split; [reflexivity | split; reflexivity]).
    + exists s. split; [reflexivity | split; [exact Hrun | reflexivity]].
  - intros s'. unfold Scheduler.step, Scheduler.beginFirstCheck.
    destruct (Scheduler.isRunning s); [| destruct validates];
      intros H; injection H as <-; reflexivity.
  - intros s'. unfold Scheduler.step, Scheduler.inFlight.
    destruct (Scheduler.starting s) as [| n] eqn:Hstarting; [discriminate |].
    intros H; injection H as <-. cbn. split; reflexivity.
  - intros trace s' Hquiet Hrun.
    apply (unhurried_serialized validates trace Scheduler.init s');
      [cbn; lia | exact Hquiet | exact Hrun].
Qed.

Lemma timer_cycles_not_serialized_witness :
  (exists s',
      Scheduler.step false (Scheduler.TimerFires 0)
        (Scheduler.mkState true (Some 0%nat) [0%nat] 1 0 0 1) = Some s'
      /\ Scheduler.inFlight s' = 2%nat)
  /\ (Scheduler.inFlight
        (Scheduler.mkState true (Some 0%nat) [0%nat] 1 0 0 1) <= 1)%nat.
Proof.
  split.
  - destruct (timer_cycles_not_serialized false
                (Scheduler.mkState true (Some 0%nat) [0%nat] 1 0 0 1))
      as (Hfires & _).
    apply (Hfires 0%nat). left. reflexivity.
  - destruct (timer_cycles_not_serialized false Scheduler.init)
      as (_ & _ & _ & _ & _ & Hserial).
    apply (Hserial [Scheduler.CallStart; Scheduler.InitialCheckDone;
                    Scheduler.TimerFires 0; Scheduler.CycleDone;
                    Scheduler.TimerFires 0]);
      reflexivity.
Defined.

(** C9, as claimed, fails: after [start()] has armed its timer, two ticks
    in a row put two check cycles in flight, in either variant of the bot. *)
Lemma timer_cycles_overlap :
  Scheduler.run false
    [Scheduler.CallStart; Scheduler.InitialCheckDone;
     Scheduler.TimerFires 0; Scheduler.TimerFires 0] Scheduler.init
  = Some (Scheduler.mkState true (Some 0%nat) [0%nat] 1 0 0 2)
  /\ ~ Scheduler.cyclesSerialized false
  /\ ~ Scheduler.cyclesSerialized true.
Proof.
  split; [reflexivity |]. split.
  - intros Hserial.
    specialize (Hserial
                  [Scheduler.CallStart; Scheduler.InitialCheckDone;
                   Scheduler.TimerFires 0; Scheduler.TimerFires 0]
                  (Scheduler.mkState true (Some 0%nat) [0%nat] 1 0 0 2)
                  eq_refl).
    cbn in Hserial. lia.
  - intros Hserial.
    specialize (Hserial
                  [Scheduler.CallStart; Scheduler.ValidationDone true;
                   Scheduler.InitialCheckDone;
                   Scheduler.TimerFires 0; Scheduler.TimerFires 0]
                  (Scheduler.mkState true (Some 0%nat) [0%nat] 1 0 0 2)
                  eq_refl).
    cbn in Hserial. lia.
Qed.

(** With a check every second, the delays of a single cycle with one
    failed add-liquidity attempt already span six ticks of the timer. *)
Example cycle_outlasts_short_interval :
  scClock (world (snd (SimpleRebalanceService.checkAndRebalance scriptEnv
                         quickConfig "0x123" addRetryWorld))) = 6000
  /\ BotConfig.checkInterval quickConfig * 1000 = 1000.
Proof. split; reflexivity. Qed.

(** * Further properties *)

(** ** The configuration loader *)

Section ConfigFacts.

Variable Number : Type.
Variable parseFloat : string -> Number.
Variable parseInt : string -> Number.
Variable literal : Q -> Number.

Lemma truthy_unsetEmpty (env : Config.ProcessEnv) (key : string) :
  Config.truthy (Config.unsetEmpty env key) = Config.truthy (env key).
Proof.
  unfold Config.unsetEmpty.
  destruct (Config.truthy (env key)) eqn:H; [exact H | reflexivity].
Qed.

Lemma orEmpty_unsetEmpty (env : Config.ProcessEnv) (key : string) :
  Config.orEmpty (Config.unsetEmpty env key) = Config.orEmpty (env key).
Proof.
  unfold Config.unsetEmpty.
  destruct (env key) as [v |] eqn:H; cbn; [| reflexivity].
  destruct (String.eqb_spec v "") as [-> | Hne]; reflexivity.
Qed.

Lemma getEnvVar_unsetEmpty (env : Config.ProcessEnv) (key : string)
    (required : bool) :
  Config.getEnvVar (Config.unsetEmpty env) key required
  = Config.getEnvVar env key required.
Proof.
  unfold Config.getEnvVar.
  rewrite truthy_unsetEmpty, orEmpty_unsetEmpty. reflexivity.
Qed.

Lemma getEnvVar_optional (env : Config.ProcessEnv) (key : string) :
  Config.getEnvVar env key false = Ok (Config.orEmpty (env key)).
Proof. reflexivity. Qed.

Lemma getEnvVar_required (env : Config.ProcessEnv) (key : string) :
  Config.truthy (env key) = true ->
  Config.getEnvVar env key true = Ok (Config.orEmpty (env key)).
Proof. intros H. unfold Config.getEnvVar. rewrite H. reflexivity. Qed.

(** The five checks collect the missing variables in order. *)
Lemma truthy_nonempty (env : Config.ProcessEnv) (key : string) :
  Config.truthy (env key) = true <-> exists v, env key = Some v /\ v <> "".
Proof.
  unfold Config.truthy.
  destruct (env key) as [v |].
  - rewrite negb_true_iff. split.
    + intros H. exists v. split; [reflexivity |].
      intros ->. discriminate.
    + intros (v' & Hv & Hne). injection Hv as ->.
      destruct (String.eqb_spec v' ""); [contradiction | reflexivity].
  - split; [discriminate | intros (v & Hv & _); discriminate].
Qed.

Lemma pushIfMissing_chain (env : Config.ProcessEnv) :
  Config.pushIfMissing env "TOKEN_B_AMOUNT"
    (Config.pushIfMissing env "TOKEN_A_AMOUNT"
       (Config.pushIfMissing env "POSITION_ID"
          (Config.pushIfMissing env "POOL_ADDRESS"
             (Config.pushIfMissing env "PRIVATE_KEY" []))))
  = missingVariables env.
Proof.
  unfold missingVariables, Config.requiredVariables, Config.pushIfMissing.
  cbn [filter].
  destruct (Config.truthy (env "PRIVATE_KEY"));
    destruct (Config.truthy (env "POOL_ADDRESS"));
    destruct (Config.truthy (env "POSITION_ID"));
    destruct (Config.truthy (env "TOKEN_A_AMOUNT"));
    destruct (Config.truthy (env "TOKEN_B_AMOUNT")); reflexivity.
Qed.

Lemma missingVariables_nil (env : Config.ProcessEnv) :
  missingVariables env = []
  <-> forall key, In key Config.requiredVariables ->
                  Config.truthy (env key) = true.
Proof.
  unfold missingVariables. split.
  - intros Hnil key Hin.
    destruct (Config.truthy (env key)) eqn:Ht; [reflexivity |].
    assert (Hmem : In key (filter (fun k => negb (Config.truthy (env k)))
                             Config.requiredVariables)).
    { apply filter_In. split; [exact Hin | rewrite Ht; reflexivity]. }
    rewrite Hnil in Hmem. destruct Hmem.
  - intros Hall.
    destruct (filter _ Config.requiredVariables) as [| key rest] eqn:Hf;
      [reflexivity |].
    assert (Hmem : In key (filter (fun k => negb (Config.truthy (env k)))
                             Config.requiredVariables)).
    { rewrite Hf. left. reflexivity. }
    apply filter_In in Hmem as [Hin Hneg].
    rewrite (Hall key Hin) in Hneg. discriminate.
Qed.

(** The three outcomes of [loadConfig]. *)
Lemma loadConfig_cases (env : Config.ProcessEnv) :
  Config.loadConfig parseFloat parseInt literal env
  = if negb (networkValid env) then
      Throw ("Invalid NETWORK value: " ++ networkName env
             ++ ". Must be 'mainnet' or 'testnet'")
    else if (0 <? List.length (missingVariables env))%nat then
      Throw (Config.missingMessage (missingVariables env))
    else
      Ok (Config.mkLoaded
            (if String.eqb (networkName env) "mainnet" then mainnet else testnet)
            (Config.orUndefined (Config.orEmpty (env "SUI_RPC_URL")))
            (Config.orEmpty (env "PRIVATE_KEY"))
            (Config.getEnvNumber parseFloat env "CHECK_INTERVAL" (literal 300))
            (Config.getEnvNumber parseFloat env "REBALANCE_THRESHOLD"
               (literal (5 # 100)))
            (Config.orEmpty (env "POOL_ADDRESS"))
            (Config.orUndefined (Config.orEmpty (env "POSITION_ID")))
            (if String.eqb (Config.orEmpty (env "LOWER_TICK")) "" then None
             else Some (parseInt (Config.orEmpty (env "LOWER_TICK"))))
            (if String.eqb (Config.orEmpty (env "UPPER_TICK")) "" then None
             else Some (parseInt (Config.orEmpty (env "UPPER_TICK"))))
            (if String.eqb (Config.orEmpty (env "RANGE_WIDTH")) "" then None
             else Some (parseInt (Config.orEmpty (env "RANGE_WIDTH"))))
            (Config.orUndefined (Config.orEmpty (env "TOKEN_A_AMOUNT")))
            (Config.orUndefined (Config.orEmpty (env "TOKEN_B_AMOUNT")))
            (Config.getEnvNumber parseFloat env "MAX_SLIPPAGE" (literal (1 # 100)))
            (Config.getEnvNumber parseFloat env "GAS_BUDGET" (literal 50000000))
            (if String.eqb (Config.orEmpty (env "LOG_LEVEL")) "" then "info"
             else Config.orEmpty (env "LOG_LEVEL"))
            (Config.getEnvBoolean env "VERBOSE_LOGS" false)).
Proof.
  unfold Config.loadConfig.
  rewrite getEnvVar_optional. cbn [Config.andThen]. cbv zeta.
  rewrite pushIfMissing_chain.
  fold (networkName env).
  unfold networkValid. rewrite negb_orb.
  destruct (negb (String.eqb (networkName env) "mainnet")
            && negb (String.eqb (networkName env) "testnet")); [reflexivity |].
  destruct (missingVariables env) as [| key rest] eqn:Hmissing;
    [| reflexivity].
  cbn [List.length Nat.ltb Nat.leb].
  pose proof (proj1 (missingVariables_nil env) Hmissing) as Hall.
  rewrite (getEnvVar_required env "PRIVATE_KEY");
    [| apply Hall; cbn; tauto].
  rewrite (getEnvVar_required env "POOL_ADDRESS");
    [| apply Hall; cbn; tauto].
  unfold Config.optionalVar, Config.optionalInt.
  rewrite !getEnvVar_optional. cbn [Config.andThen].
  destruct (String.eqb (Config.orEmpty (env "LOWER_TICK")) "");
    destruct (String.eqb (Config.orEmpty (env "UPPER_TICK")) "");
    destruct (String.eqb (Config.orEmpty (env "RANGE_WIDTH")) "");
    reflexivity.
Qed.

End ConfigFacts.

Section ConfigProperties.

Variable Number : Type.
Variable parseFloat : string -> Number.
Variable parseInt : string -> Number.
Variable literal : Q -> Number.

(** X1.  [loadConfig] returns a configuration exactly when [NETWORK] is
    unset, empty, ['mainnet'] or ['testnet'] and each of the five required
    variables PRIVATE_KEY, POOL_ADDRESS, POSITION_ID, TOKEN_A_AMOUNT and
    TOKEN_B_AMOUNT is set to a non-empty value; whatever the optional
    variables hold never makes it fail. *)
Theorem loadConfig_succeeds_iff :
  forall env : Config.ProcessEnv,
    (exists c, Config.loadConfig parseFloat parseInt literal env = Ok c)
    <-> (networkName env = "mainnet" \/ networkName env = "testnet")
        /\ (forall key, In key Config.requiredVariables ->
                        exists v, env key = Some v /\ v <> "").
Proof.
  intros env. rewrite loadConfig_cases.
  assert (Hnet : networkValid env = true
                 <-> networkName env = "mainnet" \/ networkName env = "testnet").
  { unfold networkValid. rewrite orb_true_iff, !String.eqb_eq. reflexivity. }
  pose proof (truthy_nonempty env) as Htruthy.
  split.
  - intros [c Hc].
    destruct (networkValid env) eqn:Hvalid; cbn [negb] in Hc; [| discriminate].
    destruct (missingVariables env) as [| key rest] eqn:Hmissing;
      [| discriminate].
    split; [apply Hnet; reflexivity |].
    intros key Hin. apply Htruthy.
    apply (proj1 (missingVariables_nil env) Hmissing). exact Hin.
  - intros [Hvalid Hall].
    apply Hnet in Hvalid. rewrite Hvalid. cbn [negb].
    assert (Hmissing : missingVariables env = []).
    { apply missingVariables_nil. intros key Hin.
      apply Htruthy. apply Hall. exact Hin. }
    rewrite Hmissing. cbn. eexists. reflexivity.
Qed.

(** X2.  When the network name is accepted and a required variable is
    missing, [loadConfig] throws one error that lists every required
    variable that is unset or empty, in the fixed order PRIVATE_KEY,
    POOL_ADDRESS, POSITION_ID, TOKEN_A_AMOUNT, TOKEN_B_AMOUNT; an invalid
    network name is reported first, whatever else is missing. *)
Theorem loadConfig_reports_every_missing_variable :
  forall env : Config.ProcessEnv,
    (networkValid env = true ->
     missingVariables env <> [] ->
     Config.loadConfig parseFloat parseInt literal env
     = Throw (Config.missingMessage (missingVariables env)))
    /\ (networkValid env = false ->
        Config.loadConfig parseFloat parseInt literal env
        = Throw ("Invalid NETWORK value: " ++ networkName env
                 ++ ". Must be 'mainnet' or 'testnet'"))
    /\ (forall key,
           In key (missingVariables env)
           <-> In key Config.requiredVariables
               /\ (env key = None \/ env key = Some "")).
Proof.
  intros env. split; [| split].
  - intros Hvalid Hmissing. rewrite loadConfig_cases, Hvalid. cbn [negb].
    destruct (missingVariables env); [contradiction | reflexivity].
  - intros Hvalid. rewrite loadConfig_cases, Hvalid. reflexivity.
  - intros key. unfold missingVariables. rewrite filter_In.
    unfold Config.truthy.
    split; intros [Hin H]; (split; [exact Hin |]).
    + destruct (env key) as [v |]; [| left; reflexivity].
      rewrite negb_involutive in H. apply String.eqb_eq in H. subst v.
      right. reflexivity.
    + destruct H as [-> | ->]; reflexivity.
Qed.

(** X3.  A configuration that [loadConfig] returns carries the values of
    the required variables as they are set: the private key and the pool
    address are the non-empty values of PRIVATE_KEY and POOL_ADDRESS, and
    the position id and the two token amounts are present, so the simple
    service always has its tracked position and its two amounts. *)
Theorem loadConfig_required_fields :
  forall (env : Config.ProcessEnv) (c : Config.Loaded Number),
    Config.loadConfig parseFloat parseInt literal env = Ok c ->
    env "PRIVATE_KEY" = Some (Config.privateKey c)
    /\ Config.privateKey c <> ""
    /\ env "POOL_ADDRESS" = Some (Config.poolAddress c)
    /\ Config.poolAddress c <> ""
    /\ Config.positionId c = env "POSITION_ID"
    /\ Config.tokenAAmount c = env "TOKEN_A_AMOUNT"
    /\ Config.tokenBAmount c = env "TOKEN_B_AMOUNT"
    /\ Config.positionId c <> None /\ Config.positionId c <> Some ""
    /\ Config.tokenAAmount c <> None /\ Config.tokenAAmount c <> Some ""
    /\ Config.tokenBAmount c <> None /\ Config.tokenBAmount c <> Some "".
Proof.
  intros env c Hload.
  rewrite loadConfig_cases in Hload.
  destruct (negb (networkValid env)); [discriminate |].
  destruct (missingVariables env) as [| missing rest] eqn:Hmissing;
    [| discriminate].
  assert (Hall : forall key, In key Config.requiredVariables ->
                             exists v, env key = Some v /\ v <> "").
  { intros key Hin. apply truthy_nonempty.
    apply (proj1 (missingVariables_nil env) Hmissing). exact Hin. }
  cbn [List.length Nat.ltb Nat.leb] in Hload.
  injection Hload as <-. cbn.
  destruct (Hall "PRIVATE_KEY") as (v1 & H1 & N1); [cbn; tauto |].
  destruct (Hall "POOL_ADDRESS") as (v2 & H2 & N2); [cbn; tauto |].
  destruct (Hall "POSITION_ID") as (v3 & H3 & N3); [cbn; tauto |].
  destruct (Hall "TOKEN_A_AMOUNT") as (v4 & H4 & N4); [cbn; tauto |].
  destruct (Hall "TOKEN_B_AMOUNT") as (v5 & H5 & N5); [cbn; tauto |].
  rewrite H1, H2, H3, H4, H5. cbn [Config.orEmpty]. unfold Config.orUndefined.
  destruct (String.eqb_spec v3 ""); [contradiction |].
  destruct (String.eqb_spec v4 ""); [contradiction |].
  destruct (String.eqb_spec v5 ""); [contradiction |].
  repeat split; try reflexivity; try assumption; congruence.
Qed.

(** X4.  An empty value counts as no value: unsetting every variable that
    is set to the empty string changes neither the configuration that
    [loadConfig] returns nor the error that it throws, and it changes no
    result of the readers [getEnvVar], [getEnvNumber] and
    [getEnvBoolean]. *)
Theorem loadConfig_empty_is_unset :
  forall env : Config.ProcessEnv,
    Config.loadConfig parseFloat parseInt literal (Config.unsetEmpty env)
    = Config.loadConfig parseFloat parseInt literal env
    /\ (forall key required,
           Config.getEnvVar (Config.unsetEmpty env) key required
           = Config.getEnvVar env key required)
    /\ (forall key defaultValue,
           Config.getEnvNumber parseFloat (Config.unsetEmpty env) key
             defaultValue
           = Config.getEnvNumber parseFloat env key defaultValue)
    /\ (forall key defaultValue,
           Config.getEnvBoolean (Config.unsetEmpty env) key defaultValue
           = Config.getEnvBoolean env key defaultValue).
Proof.
  intros env.
  split; [| split; [| split]].
  2:{ intros key required. apply getEnvVar_unsetEmpty. }
  2:{ intros key defaultValue. unfold Config.getEnvNumber.
      rewrite truthy_unsetEmpty, orEmpty_unsetEmpty. reflexivity. }
  2:{ intros key defaultValue. unfold Config.getEnvBoolean.
      rewrite truthy_unsetEmpty, orEmpty_unsetEmpty. reflexivity. }
  rewrite !loadConfig_cases.
  assert (Hname : networkName (Config.unsetEmpty env) = networkName env).
  { unfold networkName. rewrite orEmpty_unsetEmpty. reflexivity. }
  assert (Hmissing : missingVariables (Config.unsetEmpty env)
                     = missingVariables env).
  { unfold missingVariables. apply filter_ext. intros key.
    rewrite truthy_unsetEmpty. reflexivity. }
  unfold networkValid, Config.getEnvNumber, Config.getEnvBoolean.
  rewrite Hname, Hmissing.
  rewrite !truthy_unsetEmpty, !orEmpty_unsetEmpty. reflexivity.
Qed.

End ConfigProperties.

Lemma loadConfig_reports_every_missing_variable_witness :
  Config.loadConfig textParse textParse textLiteral (envOf incompleteSettings)
  = Throw (Config.missingMessage
             ["POOL_ADDRESS"; "TOKEN_A_AMOUNT"; "TOKEN_B_AMOUNT"])
  /\ Config.loadConfig textParse textParse textLiteral
       (envOf (("NETWORK", "devnet") :: incompleteSettings))
     = Throw "Invalid NETWORK value: devnet. Must be 'mainnet' or 'testnet'".
Proof.
  split.
  - destruct (loadConfig_reports_every_missing_variable textNumber textParse
                textParse textLiteral (envOf incompleteSettings))
      as (Hmissing & _).
    apply Hmissing; [reflexivity | discriminate].
  - destruct (loadConfig_reports_every_missing_variable textNumber textParse
                textParse textLiteral
                (envOf (("NETWORK", "devnet") :: incompleteSettings)))
      as (_ & Hnetwork & _).
    apply Hnetwork. reflexivity.
Defined.

Lemma loadConfig_required_fields_witness :
  exists c,
    Config.loadConfig textParse textParse textLiteral (envOf completeSettings)
    = Ok c
    /\ envOf completeSettings "PRIVATE_KEY" = Some (Config.privateKey c)
    /\ Config.positionId c = Some "0xpos"
    /\ Config.tokenAAmount c = Some "1000000".
Proof.
  eexists. split; [reflexivity |].
  destruct (loadConfig_required_fields textNumber textParse textParse
              textLiteral (envOf completeSettings) _ eq_refl)
    as (Hkey & _ & _ & _ & Hposition & HamountA & _).
  split; [exact Hkey | split; [exact Hposition | exact HamountA]].
Defined.

(** The letters that [toLowerCase] maps to a given lower-case letter. *)
Lemma lowerChar_letter (c l u : ascii) :
  (l = "t" /\ u = "T" \/ l = "r" /\ u = "R"
   \/ l = "u" /\ u = "U" \/ l = "e" /\ u = "E")%char ->
  Config.lowerChar c = l <-> c = l \/ c = u.
Proof.
  intros Hl.
  destruct c as [[] [] [] [] [] [] [] []];
    destruct Hl as [[-> ->] | [[-> ->] | [[-> ->] | [-> ->]]]];
    vm_compute; split;
    solve [ intros H; discriminate H
          | intros [H | H]; discriminate H
          | intros _; left; reflexivity
          | intros _; right; reflexivity
          | intros _; reflexivity ].
Qed.

(** X5.  A boolean setting falls back to its default only when the variable
    is unset or empty.  A non-empty value decides alone: the result is true
    exactly for the sixteen spellings of [true] in upper or lower case
    letters, and false for every other value, such as [1] or [yes], even
    where the default is true. *)
Theorem getEnvBoolean_reads_true_only :
  forall (env : Config.ProcessEnv) (key : string) (defaultValue : bool),
    (env key = None \/ env key = Some "" ->
     Config.getEnvBoolean env key defaultValue = defaultValue)
    /\ (forall v, env key = Some v -> v <> "" ->
          (Config.getEnvBoolean env key defaultValue = true
           <-> exists c1 c2 c3 c4 : ascii,
                 v = String c1 (String c2 (String c3 (String c4 EmptyString)))
                 /\ (c1 = "t" \/ c1 = "T")%char /\ (c2 = "r" \/ c2 = "R")%char
                 /\ (c3 = "u" \/ c3 = "U")%char /\ (c4 = "e" \/ c4 = "E")%char)).
Proof.
  intros env key defaultValue. split.
  - intros [H | H]; unfold Config.getEnvBoolean; rewrite H; reflexivity.
  - intros v Hv Hne. unfold Config.getEnvBoolean. rewrite Hv.
    cbn [Config.truthy Config.orEmpty].
    destruct (String.eqb_spec v "") as [-> | _]; [contradiction |].
    cbn [negb]. rewrite String.eqb_eq.
    split.
    + intros Hlow.
      destruct v as [| c1 [| c2 [| c3 [| c4 [| c5 v]]]]];
        cbn [Config.toLowerCase] in Hlow; try discriminate Hlow.
      injection Hlow as H1 H2 H3 H4.
      exists c1, c2, c3, c4. split; [reflexivity |].
      repeat split;
        [ apply (lowerChar_letter c1 "t" "T") in H1
        | apply (lowerChar_letter c2 "r" "R") in H2
        | apply (lowerChar_letter c3 "u" "U") in H3
        | apply (lowerChar_letter c4 "e" "E") in H4 ];
        try assumption; tauto.
    + intros (c1 & c2 & c3 & c4 & -> & H1 & H2 & H3 & H4).
      cbn [Config.toLowerCase].
      apply (lowerChar_letter c1 "t" "T") in H1; [| tauto].
      apply (lowerChar_letter c2 "r" "R") in H2; [| tauto].
      apply (lowerChar_letter c3 "u" "U") in H3; [| tauto].
      apply (lowerChar_letter c4 "e" "E") in H4; [| tauto].
      rewrite H1, H2, H3, H4. reflexivity.
Qed.

Lemma getEnvBoolean_reads_true_only_witness :
  Config.getEnvBoolean (envOf completeSettings) "VERBOSE_LOGS" false = true
  /\ Config.getEnvBoolean (envOf incompleteSettings) "VERBOSE_LOGS" true = true.
Proof.
  split.
  - destruct (getEnvBoolean_reads_true_only (envOf completeSettings)
                "VERBOSE_LOGS" false) as (_ & Hset).
    apply (Hset "TRUE" eq_refl); [discriminate |].
    exists "T"%char, "R"%char, "U"%char, "E"%char.
    split; [reflexivity |]. repeat split; right; reflexivity.
  - destruct (getEnvBoolean_reads_true_only (envOf incompleteSettings)
                "VERBOSE_LOGS" true) as (Hunset & _).
    apply Hunset. left. reflexivity.
Defined.

(** ** Amount selection and swap detection *)

Lemma half_bounds (x : Z) : 0 <= x -> 0 <= Z.quot x 2 <= x.
Proof.
  intros Hx. rewrite Z.quot_div_nonneg by lia.
  split; [apply Z.div_pos; lia |].
  apply Z.div_le_upper_bound; lia.
Qed.

Section AmountFacts.

Variable tickIndexToSqrtPriceX64 : Z -> Z.
Variable getCoinAmountFromLiquidity : Z -> Z -> Z -> Z -> bool -> Z * Z.

(** X6.  Whatever the SDK computes as required amounts,
    [computeAmountsFromLiquidity] never selects more of a token than the
    wallet holds, and for a SUI balance above the gas budget never more
    than the balance less the budget; a non-negative required amount is
    used in full when the wallet covers it on top of the budget and is
    otherwise cut down, never below zero.  A SUI balance that does not
    exceed the gas budget is not protected: it can be selected entirely. *)
Theorem computeAmountsFromLiquidity_within_wallet :
  forall (originalLiquidity currentSqrtPrice tickLower tickUpper : Z)
         (walletBalanceA walletBalanceB : Z) (isSuiA isSuiB : bool)
         (gasBudget : Z),
    0 <= gasBudget ->
    let r := LiquidityPreservation.computeAmountsFromLiquidity
               tickIndexToSqrtPriceX64 getCoinAmountFromLiquidity
               originalLiquidity currentSqrtPrice tickLower tickUpper
               walletBalanceA walletBalanceB isSuiA isSuiB gasBudget in
    let amountA := LiquidityPreservation.amountA r in
    let amountB := LiquidityPreservation.amountB r in
    let requiredA := LiquidityPreservation.requiredA r in
    let requiredB := LiquidityPreservation.requiredB r in
    (amountA <= Z.max 0 walletBalanceA /\ amountB <= Z.max 0 walletBalanceB)
    /\ (isSuiA = true -> gasBudget < walletBalanceA ->
        amountA <= walletBalanceA - gasBudget)
    /\ (isSuiB = true -> gasBudget < walletBalanceB ->
        amountB <= walletBalanceB - gasBudget)
    /\ (0 <= requiredA -> 0 <= amountA <= requiredA)
    /\ (0 <= requiredB -> 0 <= amountB <= requiredB)
    /\ (requiredA <= walletBalanceA - (if isSuiA then gasBudget else 0) ->
        amountA = requiredA)
    /\ (requiredB <= walletBalanceB - (if isSuiB then gasBudget else 0) ->
        amountB = requiredB)
    /\ (isSuiA = true -> 0 < walletBalanceA <= gasBudget ->
        walletBalanceA <= requiredA -> amountA = walletBalanceA).
Proof.
  intros originalLiquidity currentSqrtPrice tickLower tickUpper
         walletBalanceA walletBalanceB isSuiA isSuiB gasBudget Hgas.
  unfold LiquidityPreservation.computeAmountsFromLiquidity.
  cbv zeta. cbn [LiquidityPreservation.amountA LiquidityPreservation.amountB
                 LiquidityPreservation.requiredA LiquidityPreservation.requiredB].
  destruct (getCoinAmountFromLiquidity originalLiquidity currentSqrtPrice
              (tickIndexToSqrtPriceX64 tickLower)
              (tickIndexToSqrtPriceX64 tickUpper) true) as [reqA reqB].
  cbn [fst snd].
  destruct isSuiA, isSuiB; cbn [andb];
    repeat match goal with
           | |- context [ (?a <? ?b) ] => destruct (Z.ltb_spec a b)
           | |- context [ (?a <=? ?b) ] => destruct (Z.leb_spec a b)
           end;
    repeat split; intros; try discriminate; lia.
Qed.

End AmountFacts.

Lemma computeAmountsFromLiquidity_within_wallet_witness :
  let r := LiquidityPreservation.computeAmountsFromLiquidity
             flatSqrtPrice flatCoinAmounts 500 1230 1200 1260
             200 40 true false 100 in
  LiquidityPreservation.amountA r <= 200 - 100
  /\ LiquidityPreservation.amountB r <= Z.max 0 40.
Proof.
  destruct (computeAmountsFromLiquidity_within_wallet
              flatSqrtPrice flatCoinAmounts 500 1230 1200 1260
              200 40 true false 100 ltac:(lia))
    as ((_ & HB) & HA & _).
  split; [apply HA; [reflexivity | lia] | exact HB].
Defined.

(** X7.  [needsSwap] never asks for a negative swap.  When the wallet is
    short on one token that is wanted and holds more than is wanted of the
    other, it sells exactly the surplus of the other token, which is
    positive.  When both amounts are positive and the wallet covers both,
    or both amounts are zero, no swap is requested. *)
Theorem needsSwap_shortfall :
  forall amountA amountB safeBalanceA safeBalanceB : Z,
    let d := LiquidityPreservation.needsSwap amountA amountB
               safeBalanceA safeBalanceB in
    (LiquidityPreservation.swap d = true ->
     0 <= LiquidityPreservation.swapAmount d)
    /\ (0 < amountA -> safeBalanceA < amountA -> amountB < safeBalanceB ->
        LiquidityPreservation.swap d = true
        /\ LiquidityPreservation.aToB d = false
        /\ LiquidityPreservation.swapAmount d = safeBalanceB - amountB)
    /\ (0 < amountB -> safeBalanceB < amountB -> amountA < safeBalanceA ->
        LiquidityPreservation.swap d = true
        /\ LiquidityPreservation.aToB d = true
        /\ LiquidityPreservation.swapAmount d = safeBalanceA - amountA)
    /\ (0 < amountA <= safeBalanceA -> 0 < amountB <= safeBalanceB ->
        LiquidityPreservation.swap d = false)
    /\ (amountA = 0 -> amountB = 0 -> LiquidityPreservation.swap d = false).
Proof.
  intros amountA amountB safeBalanceA safeBalanceB.
  unfold LiquidityPreservation.needsSwap. cbv zeta.
  destruct (Z.eqb_spec amountA 0) as [HA0 | HA0];
    destruct (Z.eqb_spec amountB 0) as [HB0 | HB0];
    destruct (Z.ltb_spec 0 amountA) as [HAp | HAp];
    destruct (Z.ltb_spec 0 amountB) as [HBp | HBp];
    destruct (Z.ltb_spec safeBalanceA amountA) as [HsA | HsA];
    destruct (Z.ltb_spec safeBalanceB amountB) as [HsB | HsB];
    destruct (Z.ltb_spec amountB safeBalanceB) as [HB' | HB'];
    destruct (Z.ltb_spec amountA safeBalanceA) as [HA' | HA'];
    try lia;
    cbn [andb orb negb LiquidityPreservation.swap LiquidityPreservation.aToB
         LiquidityPreservation.swapAmount];
    repeat split; intros; try discriminate; try reflexivity; try lia;
    try (apply half_bounds; lia).
Qed.

Lemma needsSwap_shortfall_witness :
  LiquidityPreservation.needsSwap 5000 3000 0 10000
  = LiquidityPreservation.mkSwapDecision true false 7000
  /\ LiquidityPreservation.swap
       (LiquidityPreservation.needsSwap 3000 5000 10000 10000) = false.
Proof.
  split.
  - destruct (needsSwap_shortfall 5000 3000 0 10000)
      as (_ & Hshort & _).
    destruct Hshort as (Hswap & Hdir & Hamount); try lia.
    destruct (LiquidityPreservation.needsSwap 5000 3000 0 10000)
      as [s a m]. cbn in *. subst. reflexivity.
  - destruct (needsSwap_shortfall 3000 5000 10000 10000)
      as (_ & _ & _ & Hcovered & _).
    apply Hcovered; lia.
Defined.

(** X8.  When the two amounts handed to [needsSwap] are within the wallet,
    as those selected by [computeAmountsFromLiquidity] are for required
    amounts and balances that are not negative, the shortfall branches
    cannot fire: a swap is requested exactly when one amount is zero and the
    other is not, it sells the token whose amount is not zero, and the
    amount sold is half of it, rounded down, which the wallet holds. *)
Theorem needsSwap_within_wallet :
  forall amountA amountB safeBalanceA safeBalanceB : Z,
    0 <= amountA <= safeBalanceA ->
    0 <= amountB <= safeBalanceB ->
    let d := LiquidityPreservation.needsSwap amountA amountB
               safeBalanceA safeBalanceB in
    (LiquidityPreservation.swap d = true
     <-> (amountA = 0 /\ 0 < amountB) \/ (0 < amountA /\ amountB = 0))
    /\ (LiquidityPreservation.swap d = true ->
        (LiquidityPreservation.aToB d = true <-> 0 < amountA)
        /\ LiquidityPreservation.swapAmount d
           = Z.quot (if LiquidityPreservation.aToB d then amountA else amountB) 2
        /\ LiquidityPreservation.swapAmount d
           <= (if LiquidityPreservation.aToB d
               then safeBalanceA else safeBalanceB)).
Proof.
  intros amountA amountB safeBalanceA safeBalanceB HA HB.
  unfold LiquidityPreservation.needsSwap. cbv zeta.
  pose proof (half_bounds amountA) as HhalfA.
  pose proof (half_bounds amountB) as HhalfB.
  destruct (Z.eqb_spec amountA 0) as [HA0 | HA0];
    destruct (Z.eqb_spec amountB 0) as [HB0 | HB0];
    destruct (Z.ltb_spec 0 amountA) as [HAp | HAp];
    destruct (Z.ltb_spec 0 amountB) as [HBp | HBp];
    destruct (Z.ltb_spec safeBalanceA amountA) as [HsA | HsA];
    destruct (Z.ltb_spec safeBalanceB amountB) as [HsB | HsB];
    destruct (Z.ltb_spec amountB safeBalanceB) as [HB' | HB'];
    destruct (Z.ltb_spec amountA safeBalanceA) as [HA' | HA'];
    try lia;
    cbn [andb orb negb LiquidityPreservation.swap LiquidityPreservation.aToB
         LiquidityPreservation.swapAmount];
    (split; [split; [intros H; try discriminate H; lia
                    | intros H; try reflexivity; lia]
            | intros H;
              first [ discriminate H
                    | split; [split; intros H'; try reflexivity;
                              try discriminate H'; lia
                             | split; [reflexivity | lia]]]]).
Qed.

Lemma needsSwap_within_wallet_witness :
  LiquidityPreservation.swap (LiquidityPreservation.needsSwap 10000 0 10000 0)
  = true.
Proof.
  destruct (needsSwap_within_wallet 10000 0 10000 0 ltac:(lia) ltac:(lia))
    as (Hswap & _).
  apply Hswap. right. lia.
Defined.

(** ** The full rebalance service: outcomes *)

Section FullServiceOutcomes.

Context {W : Type} (env : Env W).
Variable config : BotConfig.t.

Ltac outcome_log :=
  cbn [fst snd log world];
  first [ exists (@nil Event); split; [symmetry; apply app_nil_r |]
        | eexists; split; [rewrite <- ?app_assoc; cbn [app]; reflexivity |] ];
  cbn [submitted app].

(** [removeLiquidity] submits the removal, or throws before it. *)
Lemma full_removeLiquidity_outcome (positionId : string) (liquidity : Z)
    (s : St W) :
  exists d,
    log (snd (RebalanceService.removeLiquidity env positionId liquidity s))
    = log s ++ d
    /\ ((exists tx, submitted d = [tx] /\ isRemoveLiquidity tx = true)
        \/ (submitted d = []
            /\ exists msg,
                 fst (RebalanceService.removeLiquidity env positionId liquidity s)
                 = Throw msg)).
Proof.
  unfold RebalanceService.removeLiquidity, tryCatch, bind, callGetPositions,
    callBuildPayload, callSignAndExecute, call, throw, ret.
  cbv zeta.
  destruct (getPositions env (getAddress env) (world s))
    as [[positions | msg] w1]; cbn [world log];
    [| outcome_log; right; split; [reflexivity | eexists; reflexivity]].
  destruct (find _ positions) as [position |]; cbn [world log];
    [| outcome_log; right; split; [reflexivity | eexists; reflexivity]].
  match goal with
  | |- context [buildPayload env ?p w1] =>
      destruct (buildPayload env p w1) as [[[] | msg] w2]
  end; cbn [world log];
    [| outcome_log; right; split; [reflexivity | eexists; reflexivity]].
  match goal with
  | |- context [signAndExecuteTransaction env ?tx w2] =>
      destruct (signAndExecuteTransaction env tx w2) as [[result | msg] w3]
  end;
    cbn [world log];
    [destruct (notSuccess result) |];
    outcome_log; left; eexists; split; reflexivity.
Qed.

(** [addLiquidity] submits the opening with the ticks it is given, or
    throws before it. *)
Lemma full_addLiquidity_outcome (poolInfo : PoolInfo.t)
    (tickLower tickUpper : Z) (s : St W) :
  exists d,
    log (snd (RebalanceService.addLiquidity env config poolInfo
                tickLower tickUpper s))
    = log s ++ d
    /\ (submitted d
        = [mkTransaction
             (OpenPositionParams (PoolInfo.poolAddress poolInfo)
                tickLower tickUpper
                (PoolInfo.coinTypeA poolInfo) (PoolInfo.coinTypeB poolInfo))
             None None]
        \/ (submitted d = []
            /\ exists msg,
                 fst (RebalanceService.addLiquidity env config poolInfo
                        tickLower tickUpper s)
                 = Throw msg)).
Proof.
  unfold RebalanceService.addLiquidity, tryCatch, bind, callGetBalance,
    callBuildPayload, callSignAndExecute, call, liftRes, throw, ret.
  cbv zeta.
  destruct (getBalance env (getAddress env) (PoolInfo.coinTypeA poolInfo)
              (world s)) as [[balanceA | msg] w1]; cbn [world log];
    [| outcome_log; right; split; [reflexivity | eexists; reflexivity]].
  destruct (getBalance env (getAddress env) (PoolInfo.coinTypeB poolInfo) w1)
    as [[balanceB | msg] w2]; cbn [world log];
    [| outcome_log; right; split; [reflexivity | eexists; reflexivity]].
  destruct (RebalanceService.selectAmount (BotConfig.tokenAAmount config)
              balanceA) as [amountA | msg];
    [| outcome_log; right; split; [reflexivity | eexists; reflexivity]].
  destruct (amountA =? 0);
    [outcome_log; right; split; [reflexivity | eexists; reflexivity] |].
  destruct (RebalanceService.selectAmount (BotConfig.tokenBAmount config)
              balanceB) as [amountB | msg];
    [| outcome_log; right; split; [reflexivity | eexists; reflexivity]].
  destruct (amountB =? 0);
    [outcome_log; right; split; [reflexivity | eexists; reflexivity] |].
  cbn [world log].
  match goal with
  | |- context [buildPayload env ?p w2] =>
      destruct (buildPayload env p w2) as [[[] | msg] w3]
  end; cbn [world log];
    [| outcome_log; right; split; [reflexivity | eexists; reflexivity]].
  match goal with
  | |- context [signAndExecuteTransaction env ?tx w3] =>
      destruct (signAndExecuteTransaction env tx w3) as [[result | msg] w4]
  end;
    cbn [world log];
    [destruct (notSuccess result) |];
    outcome_log; left; reflexivity.
Qed.

End FullServiceOutcomes.

Section FullServiceProperties.

Context {W : Type} (env : Env W).
Variable config : BotConfig.t.

Ltac run_addLiquidity d Hd Hsub dg msg s1 :=
  match goal with
  | |- context [RebalanceService.addLiquidity env config ?p ?l ?u ?st] =>
      destruct (full_addLiquidity_outcome env config p l u st)
        as (d & Hd & Hsub);
      destruct (RebalanceService.addLiquidity env config p l u st)
        as [[dg | msg] s1]; cbn [fst snd] in *
  end.

Ltac run_removeLiquidity d Hd Hsub msg s1 :=
  match goal with
  | |- context [RebalanceService.removeLiquidity env ?p ?l ?st] =>
      destruct (full_removeLiquidity_outcome env p l st)
        as (d & Hd & Hsub);
      destruct (RebalanceService.removeLiquidity env p l st)
        as [[[] | msg] s1]; cbn [fst snd] in *
  end.

Ltac absurd_throw H :=
  destruct H as (_ & ? & H); discriminate H.

Ltac failed_result := cbn; repeat split; discriminate.

(** A leaf that submits nothing. *)
Ltac quiet_leaf :=
  eexists; eexists; cbn [fst snd log];
  split; [reflexivity |];
  split; [first [ symmetry; apply app_nil_r
                | rewrite <- ?app_assoc; cbn [app]; reflexivity ] |];
  split; [first [ reflexivity | failed_result ] |];
  left; split; reflexivity.

(** [createNewPosition] returns a result in every case. *)
Lemma createNewPosition_outcome (dryRun : bool) (poolInfo : PoolInfo.t)
    (s : St W) :
  exists result d,
    fst (RebalanceService.createNewPosition env config dryRun poolInfo s)
    = Ok result
    /\ log (snd (RebalanceService.createNewPosition env config dryRun poolInfo s))
       = log s ++ d
    /\ wellFormedResult result
    /\ ((submitted d = [] /\ transactionDigest result = None)
        \/ (exists o, submitted d = [o] /\ isOpenPosition o = true
                      /\ (success result = true ->
                          transactionDigest result <> None))).
Proof.
  unfold RebalanceService.createNewPosition, tryCatch, bind,
    RebalanceService.calculateOptimalRange, liftRes, ret,
    RebalanceService.failure.
  assert (Hopen : forall (range : Range) (d : list Event),
    submitted d
    = [mkTransaction
         (OpenPositionParams (PoolInfo.poolAddress poolInfo)
            (lower range) (upper range)
            (PoolInfo.coinTypeA poolInfo) (PoolInfo.coinTypeB poolInfo))
         None None] ->
    exists o, submitted d = [o] /\ isOpenPosition o = true).
  { intros range d ->. eexists. split; reflexivity. }
  destruct (RebalanceService.configuredRange config) as [range |];
    [| destruct (PositionMonitorService.calculateOptimalRange config _ _)
         as [range | msg]; [| quiet_leaf]];
    (destruct dryRun; [quiet_leaf |]);
    run_addLiquidity d Hd Hsub dg msg s1;
    eexists; exists d; (split; [reflexivity |]); (split; [exact Hd |]).
  all: split; [first [reflexivity | failed_result] |].
  all: destruct Hsub as [Hsub | Hsub];
    [ right; destruct (Hopen range d Hsub) as (o & Ho & Hopened);
      exists o; split; [exact Ho |]; split; [exact Hopened | cbn; discriminate]
    | first [ absurd_throw Hsub
            | left; split; [exact (proj1 Hsub) | reflexivity] ] ].
Qed.

(** [rebalancePosition] returns a result in every case; what it submits
    is a removal, an opening, or a removal followed by an opening. *)
Lemma full_rebalancePosition_outcome (dryRun : bool) (poolAddress : string)
    (s : St W) :
  exists result d,
    fst (RebalanceService.rebalancePosition env config dryRun poolAddress s)
    = Ok result
    /\ log (snd (RebalanceService.rebalancePosition
                   env config dryRun poolAddress s))
       = log s ++ d
    /\ wellFormedResult result
    /\ ((submitted d = [] /\ transactionDigest result = None)
        \/ (exists o, submitted d = [o] /\ isOpenPosition o = true
                      /\ (success result = true ->
                          transactionDigest result <> None))
        \/ (exists r, submitted d = [r] /\ isRemoveLiquidity r = true
                      /\ success result = false)
        \/ (exists r o, submitted d = [r; o]
                        /\ isRemoveLiquidity r = true
                        /\ isOpenPosition o = true
                        /\ (success result = true ->
                            transactionDigest result <> None))).
Proof.
  unfold RebalanceService.rebalancePosition, tryCatch, bind,
    callGetPoolInfo, callGetPositions, call,
    RebalanceService.calculateOptimalRange, liftRes, ret.
  destruct (getPoolInfo env poolAddress (world s)) as [[poolInfo | msg] w1];
    cbn [world log]; [| quiet_leaf].
  destruct (getPositions env (getAddress env) w1) as [[positions | msg] w2];
    cbn [world log]; [| quiet_leaf].
  destruct (filter _ positions) as [| position others].
  - destruct dryRun.
    + destruct (PositionMonitorService.calculateOptimalRange config _ _);
        quiet_leaf.
    + match goal with
      | |- context [RebalanceService.createNewPosition env config false
                      poolInfo ?st] =>
          destruct (createNewPosition_outcome false poolInfo st)
            as (result & d & Hr & Hd & Hwf & Hshape);
          destruct (RebalanceService.createNewPosition env config false
                      poolInfo st) as [[created | msg] s3];
          cbn [fst snd log] in *; [| discriminate Hr]
      end.
      injection Hr as ->.
      exists result. eexists. cbn [fst snd].
      split; [reflexivity |].
      split; [rewrite Hd, <- !app_assoc; cbn [app]; reflexivity |].
      split; [exact Hwf |].
      cbn [submitted].
      destruct Hshape as [Hquiet | Hopened]; [left | right; left]; assumption.
  - destruct (PositionMonitorService.calculateOptimalRange config _ _)
      as [range | msg]; [| quiet_leaf].
    destruct (RebalanceService.rangeUnchanged position range poolInfo);
      [quiet_leaf |].
    destruct dryRun; [quiet_leaf |].
    run_removeLiquidity d1 Hd1 Hsub1 msg1 s3; cbn [log] in Hd1.
    + destruct Hsub1 as [(r & Hr & Hremoved) | Hsub1];
        [| absurd_throw Hsub1].
      run_addLiquidity d2 Hd2 Hsub2 dg msg2 s4.
      * destruct Hsub2 as [Hsub2 | Hsub2]; [| absurd_throw Hsub2].
        eexists. eexists. split; [reflexivity |].
        split; [rewrite Hd2, Hd1, <- !app_assoc; cbn [app]; reflexivity |].
        split; [reflexivity |].
        cbn [submitted]. rewrite submitted_app, Hr, Hsub2.
        right; right; right. eexists. eexists.
        split; [reflexivity |]. split; [exact Hremoved |].
        split; [reflexivity | cbn; discriminate].
      * eexists. eexists. split; [reflexivity |].
        split; [rewrite Hd2, Hd1, <- !app_assoc; cbn [app]; reflexivity |].
        split; [failed_result |].
        cbn [submitted]. rewrite submitted_app, Hr.
        destruct Hsub2 as [Hsub2 | [Hsub2 _]]; rewrite Hsub2.
        -- right; right; right. eexists. eexists.
           split; [reflexivity |]. split; [exact Hremoved |].
           split; [reflexivity | cbn; discriminate].
        -- right; right; left. exists r.
           split; [reflexivity |]. split; [exact Hremoved | reflexivity].
    + eexists. eexists. split; [reflexivity |].
      split; [rewrite Hd1, <- !app_assoc; cbn [app]; reflexivity |].
      split; [failed_result |].
      cbn [submitted].
      destruct Hsub1 as [(r & Hr & Hremoved) | [Hsub1 _]].
      * right; right; left. exists r.
        split; [exact Hr |]. split; [exact Hremoved | reflexivity].
      * left. split; [exact Hsub1 | reflexivity].
Qed.

End FullServiceProperties.

Section FullServiceTheorems.

Context {W : Type} (env : Env W).
Variable config : BotConfig.t.

(** X9.  [rebalancePosition] and [createNewPosition] of the full service
    never throw: whatever the collaborators answer or throw, they return a
    result, and the result reports a failure by its fields, with [error]
    present exactly when [success] is false and then no digest and no
    range. *)
Theorem rebalancePosition_never_throws :
  forall (dryRun : bool) (poolAddress : string) (poolInfo : PoolInfo.t)
         (s : St W),
    (exists result,
        fst (RebalanceService.rebalancePosition env config dryRun poolAddress s)
        = Ok result
        /\ wellFormedResult result)
    /\ (exists result,
           fst (RebalanceService.createNewPosition env config dryRun poolInfo s)
           = Ok result
           /\ wellFormedResult result).
Proof.
  intros dryRun poolAddress poolInfo s. split.
  - destruct (full_rebalancePosition_outcome env config dryRun poolAddress s)
      as (result & d & Hr & _ & Hwf & _).
    exists result. split; assumption.
  - destruct (createNewPosition_outcome env config dryRun poolInfo s)
      as (result & d & Hr & _ & Hwf & _).
    exists result. split; assumption.
Qed.

(** X10.  What a run of [rebalancePosition] submits is nothing, the
    opening of a position, a removal, or a removal followed by an opening:
    never more than two transactions, never an opening before a removal,
    and a removal alone only in a failed run.  A result with a digest ends
    with the opening; a success without a digest submitted nothing. *)
Theorem rebalancePosition_removes_before_opening :
  forall (dryRun : bool) (poolAddress : string) (s : St W),
  exists result d,
    fst (RebalanceService.rebalancePosition env config dryRun poolAddress s)
    = Ok result
    /\ log (snd (RebalanceService.rebalancePosition
                   env config dryRun poolAddress s))
       = log s ++ d
    /\ (submitted d = []
        \/ (exists o, submitted d = [o] /\ isOpenPosition o = true)
        \/ (exists r, submitted d = [r] /\ isRemoveLiquidity r = true
                      /\ success result = false)
        \/ (exists r o, submitted d = [r; o]
                        /\ isRemoveLiquidity r = true
                        /\ isOpenPosition o = true))
    /\ (transactionDigest result <> None ->
        exists pre o, submitted d = pre ++ [o] /\ isOpenPosition o = true)
    /\ (success result = true -> transactionDigest result = None ->
        submitted d = []).
Proof.
  intros dryRun poolAddress s.
  destruct (full_rebalancePosition_outcome env config dryRun poolAddress s)
    as (result & d & Hr & Hd & Hwf & Hshape).
  exists result, d. split; [exact Hr |]. split; [exact Hd |].
  unfold wellFormedResult in Hwf.
  destruct Hshape
    as [[Hnone Hdigest]
       | [(o & Ho & Hopened & Hsome)
         | [(r & Hr1 & Hremoved & Hfailed)
           | (r & o & Hro & Hremoved & Hopened & Hsome)]]].
  - split; [left; exact Hnone |]. split; [congruence |].
    intros _ _. exact Hnone.
  - split; [right; left; exists o; split; assumption |].
    split; [intros _; exists [], o; split; assumption |].
    intros Hs Hd'. destruct (Hsome Hs Hd').
  - split; [right; right; left; exists r; repeat split; assumption |].
    rewrite Hfailed in Hwf. destruct Hwf as (_ & Hdigest & _).
    split; [congruence |]. intros Hs. congruence.
  - split; [right; right; right; exists r, o; repeat split; assumption |].
    split; [intros _; exists [r], o; split; assumption |].
    intros Hs Hd'. destruct (Hsome Hs Hd').
Qed.

(** X11.  [addLiquidity] of the full service adds no liquidity: the only
    transaction it ever submits is the opening of a position between the
    ticks it is given, whose payload names the pool and the two coin types
    and carries no amount.  The configured amounts and the balances only
    decide whether that transaction is submitted. *)
Theorem addLiquidity_only_opens_a_position :
  forall (poolInfo : PoolInfo.t) (tickLower tickUpper : Z) (s : St W),
  exists d,
    log (snd (RebalanceService.addLiquidity env config poolInfo
                tickLower tickUpper s))
    = log s ++ d
    /\ (forall tx, In tx (submitted d) ->
        tx = mkTransaction
               (OpenPositionParams (PoolInfo.poolAddress poolInfo)
                  tickLower tickUpper
                  (PoolInfo.coinTypeA poolInfo) (PoolInfo.coinTypeB poolInfo))
               None None)
    /\ (List.length (submitted d) <= 1)%nat
    /\ (forall dg,
           fst (RebalanceService.addLiquidity env config poolInfo
                  tickLower tickUpper s) = Ok dg ->
           List.length (submitted d) = 1%nat).
Proof.
  intros poolInfo tickLower tickUpper s.
  destruct (full_addLiquidity_outcome env config poolInfo tickLower tickUpper s)
    as (d & Hd & Hsub).
  exists d. split; [exact Hd |].
  destruct Hsub as [Hsub | (Hsub & msg & Hmsg)]; rewrite Hsub.
  - split; [intros tx [<- | []]; reflexivity |].
    split; [cbn; lia | reflexivity].
  - split; [intros tx [] |].
    split; [cbn; lia |].
    intros dg Hdg. congruence.
Qed.

(** X12.  Without configured amounts the test for a zero amount in
    [addLiquidity] never fires: the amount is a tenth of the balance and at
    least 1000, so even with an empty wallet the run goes on to build the
    opening of the position. *)
Theorem addLiquidity_unconfigured_amounts_pass :
  forall (poolInfo : PoolInfo.t) (tickLower tickUpper : Z) (s : St W)
         (balanceA : Z) (w1 : W) (balanceB : Z) (w2 : W),
    BotConfig.tokenAAmount config = None ->
    BotConfig.tokenBAmount config = None ->
    getBalance env (getAddress env) (PoolInfo.coinTypeA poolInfo) (world s)
    = (Ok balanceA, w1) ->
    getBalance env (getAddress env) (PoolInfo.coinTypeB poolInfo) w1
    = (Ok balanceB, w2) ->
    0 <= balanceA < 10 * 2 ^ 53 ->
    0 <= balanceB < 10 * 2 ^ 53 ->
    RebalanceService.selectAmount None balanceA
    = Ok (Z.max 1000 (Z.quot balanceA 10))
    /\ RebalanceService.selectAmount None balanceB
       = Ok (Z.max 1000 (Z.quot balanceB 10))
    /\ exists rest,
         log (snd (RebalanceService.addLiquidity env config poolInfo
                     tickLower tickUpper s))
         = log s
           ++ [EGetBalance (getAddress env) (PoolInfo.coinTypeA poolInfo);
               EGetBalance (getAddress env) (PoolInfo.coinTypeB poolInfo);
               EBuildPayload
                 (OpenPositionParams (PoolInfo.poolAddress poolInfo)
                    tickLower tickUpper
                    (PoolInfo.coinTypeA poolInfo)
                    (PoolInfo.coinTypeB poolInfo))]
           ++ rest.
Proof.
  intros poolInfo tickLower tickUpper s balanceA w1 balanceB w2
         HcfgA HcfgB HgetA HgetB HA HB.
  assert (Hselect : forall balance, 0 <= balance < 10 * 2 ^ 53 ->
            RebalanceService.selectAmount None balance
            = Ok (Z.max 1000 (Z.quot balance 10))).
  { intros balance Hb.
    assert (Hq : 0 <= Z.quot balance 10 < 2 ^ 53).
    { rewrite Z.quot_div_nonneg by lia.
      split; [apply Z.div_pos; lia |].
      apply Z.div_lt_upper_bound; lia. }
    unfold RebalanceService.selectAmount, NumberOfBigInt, BigIntOfNumberString.
    rewrite (Z.abs_eq (Z.quot balance 10)) by lia.
    destruct (Z.ltb_spec (Z.quot balance 10) (2 ^ 53)) as [_ | Hge]; [| lia].
    assert (H53 : 2 ^ 53 < 10 ^ 21) by (vm_compute; reflexivity).
    destruct (Z.ltb_spec (Z.abs (Z.max 1000 (Z.quot balance 10))) (10 ^ 21))
      as [_ | Hge]; [reflexivity | lia]. }
  split; [apply Hselect; exact HA |].
  split; [apply Hselect; exact HB |].
  unfold RebalanceService.addLiquidity, tryCatch, bind, callGetBalance,
    callBuildPayload, callSignAndExecute, call, liftRes, throw, ret.
  cbv zeta.
  rewrite HgetA. cbn [world log]. rewrite HgetB. cbn [world log].
  rewrite HcfgA, HcfgB, (Hselect balanceA HA), (Hselect balanceB HB).
  destruct (Z.eqb_spec (Z.max 1000 (Z.quot balanceA 10)) 0) as [H0 | _];
    [lia |].
  destruct (Z.eqb_spec (Z.max 1000 (Z.quot balanceB 10)) 0) as [H0 | _];
    [lia |].
  cbn [world log].
  match goal with
  | |- context [buildPayload env ?p w2] =>
      destruct (buildPayload env p w2) as [[[] | msg] w3]
  end; cbn [world log fst snd].
  - match goal with
    | |- context [signAndExecuteTransaction env ?tx w3] =>
        destruct (signAndExecuteTransaction env tx w3) as [[result | msg] w4]
    end; [destruct (notSuccess result) |]; cbn [snd log];
      eexists; rewrite <- !app_assoc; cbn [app]; reflexivity.
  - exists []. rewrite <- !app_assoc. reflexivity.
Qed.

(** X13.  With a configured range and no position in the pool, a dry run
    is not a preview of the real run: the dry run reports the range
    computed around the current tick, while the real run opens the position
    between the configured ticks and reports those. *)
Theorem dry_run_ignores_configured_range :
  forall (poolAddress : string) (s : St W) (poolInfo : PoolInfo.t) (w1 : W)
         (positions : list PositionInfo.t) (w2 : W)
         (configured range : Range),
    getPoolInfo env poolAddress (world s) = (Ok poolInfo, w1) ->
    getPositions env (getAddress env) w1 = (Ok positions, w2) ->
    filter (fun p => String.eqb (PositionInfo.poolAddress p) poolAddress)
           positions = [] ->
    RebalanceService.configuredRange config = Some configured ->
    PositionMonitorService.calculateOptimalRange config
      (PoolInfo.currentTickIndex poolInfo) (PoolInfo.tickSpacing poolInfo)
    = Ok range ->
    fst (RebalanceService.rebalancePosition env config true poolAddress s)
    = Ok (mkResult true None None None
            (Some (mkTickRange (lower range) (upper range))))
    /\ (exists d,
           log (snd (RebalanceService.rebalancePosition
                       env config false poolAddress s))
           = log s ++ d
           /\ forall tx, In tx (submitted d) ->
                tx = mkTransaction
                       (OpenPositionParams (PoolInfo.poolAddress poolInfo)
                          (lower configured) (upper configured)
                          (PoolInfo.coinTypeA poolInfo)
                          (PoolInfo.coinTypeB poolInfo))
                       None None)
    /\ (forall result,
           fst (RebalanceService.rebalancePosition
                  env config false poolAddress s) = Ok result ->
           success result = true ->
           newPosition result
           = Some (mkTickRange (lower configured) (upper configured))).
Proof.
  intros poolAddress s poolInfo w1 positions w2 configured range
         Hpool Hpos Hfilter Hcfg Hrange.
  unfold RebalanceService.rebalancePosition, tryCatch, bind,
    callGetPoolInfo, callGetPositions, call,
    RebalanceService.calculateOptimalRange, liftRes, ret.
  rewrite Hpool. cbn [world log]. rewrite Hpos. cbn [world log].
  rewrite Hfilter, Hrange.
  split; [reflexivity |].
  unfold RebalanceService.createNewPosition, tryCatch, bind, ret.
  rewrite Hcfg.
  match goal with
  | |- context [RebalanceService.addLiquidity env config ?p ?l ?u ?st] =>
      destruct (full_addLiquidity_outcome env config p l u st)
        as (d & Hd & Hsub);
      destruct (RebalanceService.addLiquidity env config p l u st)
        as [[dg | msg] s1]; cbn [fst snd log] in *
  end.
  - split.
    + eexists. split; [rewrite Hd, <- !app_assoc; cbn [app]; reflexivity |].
      cbn [submitted].
      destruct Hsub as [Hsub | [Hsub _]]; rewrite Hsub.
      * intros tx [<- | []]. reflexivity.
      * intros tx [].
    + intros result Hresult _. injection Hresult as <-. reflexivity.
  - split.
    + eexists. split; [rewrite Hd, <- !app_assoc; cbn [app]; reflexivity |].
      cbn [submitted].
      destruct Hsub as [Hsub | [Hsub _]]; rewrite Hsub.
      * intros tx [<- | []]. reflexivity.
      * intros tx [].
    + intros result Hresult Hsuccess. injection Hresult as <-.
      discriminate Hsuccess.
Qed.

(** X14.  [checkAndRebalance] of the full service throws exactly when the
    monitor throws, with the monitor's error and after that call alone.
    When the monitor reports that no rebalance is needed it returns [null]
    having made no other call; otherwise it returns the result of
    [rebalancePosition], which may be a failure but is never thrown. *)
Theorem checkAndRebalance_throws_only_for_monitor :
  forall (dryRun : bool) (poolAddress : string) (s : St W),
    match monitorPosition env poolAddress (world s) with
    | (Throw msg, w1) =>
        RebalanceService.checkAndRebalance env config dryRun poolAddress s
        = (Throw msg, mkSt w1 (log s ++ [EMonitorPosition poolAddress]))
    | (Ok monitorResult, w1) =>
        if needsRebalance monitorResult then
          exists result,
            fst (RebalanceService.checkAndRebalance
                   env config dryRun poolAddress s) = Ok (Some result)
            /\ wellFormedResult result
            /\ RebalanceService.rebalancePosition env config dryRun
                 poolAddress
                 (mkSt w1 (log s ++ [EMonitorPosition poolAddress]))
               = (Ok result,
                  snd (RebalanceService.checkAndRebalance
                         env config dryRun poolAddress s))
        else
          RebalanceService.checkAndRebalance env config dryRun poolAddress s
          = (Ok None, mkSt w1 (log s ++ [EMonitorPosition poolAddress]))
    end.
Proof.
  intros dryRun poolAddress s.
  unfold RebalanceService.checkAndRebalance, tryCatch, bind,
    callMonitorPosition, call, throw, ret.
  destruct (monitorPosition env poolAddress (world s))
    as [[monitorResult | msg] w1]; [| reflexivity].
  destruct (needsRebalance monitorResult); cbn [negb]; [| reflexivity].
  match goal with
  | |- context [RebalanceService.rebalancePosition env config dryRun
                  poolAddress ?st] =>
      destruct (full_rebalancePosition_outcome env config dryRun poolAddress st)
        as (result & d & Hr & _ & Hwf & _);
      destruct (RebalanceService.rebalancePosition env config dryRun
                  poolAddress st) as [[result' | msg] s2];
      cbn [fst snd] in *; [| discriminate Hr]
  end.
  injection Hr as ->. exists result.
  split; [reflexivity |]. split; [exact Hwf | reflexivity].
Qed.

End FullServiceTheorems.

(** The removal stays on the ledger when the opening is rejected: the run
    reports a failure after both transactions were submitted. *)
Example rebalancePosition_removal_not_undone :
  let run := RebalanceService.rebalancePosition scriptEnv testConfig false
               "0x123" openFailsWorld in
  fst run = Ok (mkResult false None (Some "Failed to open position: MoveAbort")
                  None None)
  /\ submitted (log (snd run))
     = [mkTransaction
          (RemoveLiquidityParams "0x123" "pos1" 1000000 0 0 "0xA" "0xB" None [])
          None None;
        mkTransaction (OpenPositionParams "0x123" 960 1020 "0xA" "0xB")
          None None].
Proof. split; reflexivity. Qed.

Lemma addLiquidity_unconfigured_amounts_pass_witness :
  RebalanceService.selectAmount None 0 = Ok 1000
  /\ exists rest,
       log (snd (RebalanceService.addLiquidity emptyWalletEnv rangedConfig
                   (testPool 1000 60) 600 1200 emptyPoolWorld))
       = [EGetBalance "0xowner" "0xA"; EGetBalance "0xowner" "0xB";
          EBuildPayload (OpenPositionParams "0x123" 600 1200 "0xA" "0xB")]
         ++ rest.
Proof.
  destruct (addLiquidity_unconfigured_amounts_pass emptyWalletEnv rangedConfig
              (testPool 1000 60) 600 1200 emptyPoolWorld
              0 (world emptyPoolWorld) 0 (world emptyPoolWorld)
              eq_refl eq_refl eq_refl eq_refl
              ltac:(vm_compute; split; [discriminate | reflexivity])
              ltac:(vm_compute; split; [discriminate | reflexivity]))
    as (HA & _ & Hlog).
  split; [exact HA | exact Hlog].
Defined.

Lemma dry_run_ignores_configured_range_witness :
  fst (RebalanceService.rebalancePosition scriptEnv rangedConfig true "0x123"
         emptyPoolWorld)
  = Ok (mkResult true None None None (Some (mkTickRange 960 1020)))
  /\ forall result,
       fst (RebalanceService.rebalancePosition scriptEnv rangedConfig false
              "0x123" emptyPoolWorld) = Ok result ->
       success result = true ->
       newPosition result = Some (mkTickRange 600 1200).
Proof.
  destruct (dry_run_ignores_configured_range scriptEnv rangedConfig "0x123"
              emptyPoolWorld (testPool 1000 60) (world emptyPoolWorld)
              [] (world emptyPoolWorld) (mkRange 600 1200) (mkRange 960 1020)
              eq_refl eq_refl eq_refl eq_refl eq_refl)
    as (Hdry & _ & Hreal).
  split; [exact Hdry | exact Hreal].
Defined.

(** ** Logs of a given kind *)

Section AppendingFacts.

Context {W : Type}.
Variable P : list Event -> Prop.
Hypothesis P_nil : P [].
Hypothesis P_app : forall d1 d2, P d1 -> P d2 -> P (d1 ++ d2).

Lemma appending_ret {A : Type} (a : A) : appending P (@ret (St W) A a).
Proof.
  intros s. exists []. cbn. split; [symmetry; apply app_nil_r | exact P_nil].
Qed.

Lemma appending_throw {A : Type} (msg : string) :
  appending P (@throw (St W) A msg).
Proof.
  intros s. exists []. cbn. split; [symmetry; apply app_nil_r | exact P_nil].
Qed.

Lemma appending_liftRes {A : Type} (r : Res A) :
  appending P (@liftRes (St W) A r).
Proof.
  intros s. exists []. cbn. split; [symmetry; apply app_nil_r | exact P_nil].
Qed.

Lemma appending_call {A : Type} (e : Event) (f : W -> Res A * W) :
  P [e] -> appending P (call e f).
Proof.
  intros He s. exists [e]. unfold call.
  destruct (f (world s)) as [r w']. split; [reflexivity | exact He].
Qed.

Lemma appending_bind {A B : Type} (c : M (St W) A) (k : A -> M (St W) B) :
  appending P c -> (forall a, appending P (k a)) -> appending P (bind c k).
Proof.
  intros Hc Hk s. unfold bind.
  destruct (Hc s) as (d & Hd & HP).
  destruct (c s) as [[a | msg] s1]; cbn [snd] in Hd.
  - destruct (Hk a s1) as (d' & Hd' & HP').
    exists (d ++ d'). split; [| apply P_app; assumption].
    rewrite Hd', Hd. symmetry. apply app_assoc.
  - exists d. split; assumption.
Qed.

Lemma appending_tryCatch {A : Type} (c : M (St W) A)
    (h : string -> M (St W) A) :
  appending P c -> (forall msg, appending P (h msg)) ->
  appending P (tryCatch c h).
Proof.
  intros Hc Hh s. unfold tryCatch.
  destruct (Hc s) as (d & Hd & HP).
  destruct (c s) as [[a | msg] s1]; cbn [snd] in Hd.
  - exists d. split; assumption.
  - destruct (Hh msg s1) as (d' & Hd' & HP').
    exists (d ++ d'). split; [| apply P_app; assumption].
    rewrite Hd', Hd. symmetry. apply app_assoc.
Qed.

Lemma appending_forAttempts {A : Type} (env : Env W) (body : Z -> M (St W) A)
    (exhausted : string) :
  P [EDelay 2000] ->
  (forall attempt, appending P (body attempt)) ->
  forall (remaining : nat) (attempt : Z) (lastError : option string),
    appending P (SimpleRebalanceService.forAttempts env remaining attempt
                   lastError body exhausted).
Proof.
  intros Hdelay Hbody remaining.
  induction remaining as [| remaining IH]; intros attempt lastError;
    cbn [SimpleRebalanceService.forAttempts].
  - apply appending_throw.
  - apply appending_tryCatch; [apply Hbody |]. intros msg.
    apply appending_bind; [| intros _; apply IH].
    destruct (attempt <? 1); [| apply appending_ret].
    apply appending_call. exact Hdelay.
Qed.

End AppendingFacts.

Lemma noRemoval_app (d1 d2 : list Event) :
  noRemoval d1 -> noRemoval d2 -> noRemoval (d1 ++ d2).
Proof.
  unfold noRemoval. intros H1 H2.
  rewrite submitted_app, forallb_app, H1, H2. reflexivity.
Qed.

Ltac appending_tac Hnil Happ :=
  repeat first
    [ apply (appending_ret _ Hnil)
    | apply (appending_throw _ Hnil)
    | apply (appending_liftRes _ Hnil)
    | apply appending_call; reflexivity
    | apply (appending_bind _ Happ); [| intro]
    | apply (appending_tryCatch _ Happ); [| intro]
    | match goal with
      | |- appending _ (match ?x with _ => _ end) => destruct x
      | |- appending _ (let _ := _ in _) => cbv zeta
      end ].

(** ** The simple rebalance service: outcomes *)

Section SimpleServiceOutcomes.

Context {W : Type} (env : Env W).
Variable config : BotConfig.t.

(** [mergeCoins] and [addLiquidity] submit no removal. *)
Lemma mergeCoins_noRemoval (coinType : string) :
  appending noRemoval (SimpleRebalanceService.mergeCoins env config coinType).
Proof.
  unfold SimpleRebalanceService.mergeCoins, callGetCoins, callSignAndExecute,
    delay.
  appending_tac (eq_refl : noRemoval []) noRemoval_app.
Qed.

Lemma simple_addLiquidity_noRemoval (poolInfo : PoolInfo.t)
    (tickLower tickUpper : Z) :
  appending noRemoval
    (SimpleRebalanceService.addLiquidity env config poolInfo tickLower tickUpper).
Proof.
  unfold SimpleRebalanceService.addLiquidity.
  apply (appending_forAttempts _ (eq_refl : noRemoval []) noRemoval_app);
    [reflexivity |].
  intros attempt. unfold SimpleRebalanceService.addLiquidityAttempt.
  apply (appending_bind _ noRemoval_app); [apply mergeCoins_noRemoval | intro].
  apply (appending_bind _ noRemoval_app); [apply mergeCoins_noRemoval | intro].
  unfold callBuildPayload, callSignAndExecute, delay.
  appending_tac (eq_refl : noRemoval []) noRemoval_app.
Qed.

End SimpleServiceOutcomes.

Section SimpleServiceProperties.

Context {W : Type} (env : Env W).
Variable config : BotConfig.t.

Ltac removal_leaf :=
  eexists; split;
  [ cbn [snd log]; rewrite <- ?app_assoc; cbn [app]; reflexivity
  | cbn; split; [reflexivity | lia] ].

(** [removeLiquidity] submits removals only, and at most two. *)
Lemma simple_removeLiquidity_outcome (positionId : string) (liquidity : Z)
    (s : St W) :
  exists d,
    log (snd (SimpleRebalanceService.removeLiquidity env config
                positionId liquidity s))
    = log s ++ d
    /\ forallb isRemoveLiquidity (submitted d) = true
    /\ (List.length (submitted d) <= 2)%nat.
Proof.
  unfold SimpleRebalanceService.removeLiquidity.
  unfold bind at 1 2 3.
  unfold callGetPositionById, callGetPool, callBuildPayload, call.
  destruct (getPositionById env positionId (world s))
    as [[position | msg] w1]; cbn [world log]; [| removal_leaf].
  destruct (getPool env (pool position) w1) as [[pool' | msg] w2];
    cbn [world log]; [| removal_leaf].
  match goal with
  | |- context [buildPayload env ?p w2] =>
      destruct (buildPayload env p w2) as [[[] | msg] w3]
  end; cbn [world log]; [| removal_leaf].
  rewrite forAttempts_two.
  rewrite (submit_checked env _ "Remove liquidity failed: " (fun _ => tt)).
  cbn [world log].
  destruct (judged _ _) as [result | e1]; [removal_leaf |].
  unfold delay, call. cbn [snd world log].
  rewrite (submit_checked env _ "Remove liquidity failed: " (fun _ => tt)).
  removal_leaf.
Qed.

Lemma addLiquidityPrelude_extends (poolInfo : PoolInfo.t)
    (tickLower tickUpper : Z) :
  extends (addLiquidityPrelude env config poolInfo tickLower tickUpper).
Proof.
  unfold addLiquidityPrelude.
  apply extends_bind; [apply mergeCoins_extends | intro].
  apply extends_bind; [apply mergeCoins_extends | intro].
  unfold delay, callBuildPayload. extends_tac.
Qed.

(** An attempt that returns a digest has just submitted the add-liquidity
    transaction. *)
Lemma addLiquidityAttempt_ok (poolInfo : PoolInfo.t)
    (tickLower tickUpper attempt : Z) (s : St W) (txDigest : string) :
  fst (SimpleRebalanceService.addLiquidityAttempt env config poolInfo
         tickLower tickUpper attempt s) = Ok txDigest ->
  exists pre,
    log (snd (SimpleRebalanceService.addLiquidityAttempt env config poolInfo
                tickLower tickUpper attempt s))
    = log s ++ pre
      ++ [ESubmit (addLiquidityTransaction config poolInfo tickLower tickUpper)].
Proof.
  rewrite addLiquidityAttempt_shape.
  destruct (addLiquidityPrelude_extends poolInfo tickLower tickUpper s)
    as [d Hd].
  destruct (addLiquidityPrelude env config poolInfo tickLower tickUpper s)
    as [[[] | e] s0]; cbn [fst snd] in *; [| discriminate].
  intros _. exists d. cbn [snd log]. rewrite Hd, <- app_assoc. reflexivity.
Qed.

Lemma simple_addLiquidity_ok (poolInfo : PoolInfo.t)
    (tickLower tickUpper : Z) (s : St W) (txDigest : string) :
  fst (SimpleRebalanceService.addLiquidity env config poolInfo
         tickLower tickUpper s) = Ok txDigest ->
  exists pre,
    log (snd (SimpleRebalanceService.addLiquidity env config poolInfo
                tickLower tickUpper s))
    = log s ++ pre
      ++ [ESubmit (addLiquidityTransaction config poolInfo tickLower tickUpper)].
Proof.
  unfold SimpleRebalanceService.addLiquidity. rewrite forAttempts_two.
  pose proof (addLiquidityAttempt_ok poolInfo tickLower tickUpper 0 s) as H0.
  assert (Hext : extends (SimpleRebalanceService.addLiquidityAttempt env config
                            poolInfo tickLower tickUpper 0)).
  { unfold SimpleRebalanceService.addLiquidityAttempt.
    apply extends_bind; [apply mergeCoins_extends | intro].
    apply extends_bind; [apply mergeCoins_extends | intro].
    unfold delay, callBuildPayload, callSignAndExecute. extends_tac. }
  destruct (Hext s) as [d0 Hd0].
  destruct (SimpleRebalanceService.addLiquidityAttempt env config poolInfo
              tickLower tickUpper 0 s) as [[dg | e1] s1]; cbn [fst snd] in *.
  - intros H. injection H as ->. apply (H0 txDigest). reflexivity.
  - intros H.
    destruct (addLiquidityAttempt_ok poolInfo tickLower tickUpper 1
                (snd (delay env 2000 s1)) txDigest H) as [pre Hpre].
    exists (d0 ++ EDelay 2000 :: pre).
    rewrite Hpre. unfold delay, call. cbn [snd log].
    rewrite Hd0, <- !app_assoc. reflexivity.
Qed.

(** Every run of [rebalancePosition] of the simple service. *)
Lemma simple_rebalancePosition_run (poolAddress : string)
    (position : PositionInfo.t) (poolInfo : PoolInfo.t) (s : St W) :
  exists result d,
    fst (SimpleRebalanceService.rebalancePosition env config poolAddress
           position poolInfo s) = Ok result
    /\ log (snd (SimpleRebalanceService.rebalancePosition env config
                   poolAddress position poolInfo s)) = log s ++ d
    /\ wellFormedResult result
    /\ (exists removals rest,
           submitted d = removals ++ rest
           /\ forallb isRemoveLiquidity removals = true
           /\ (List.length removals <= 2)%nat
           /\ forallb (fun tx => negb (isRemoveLiquidity tx)) rest = true
           /\ (PositionInfo.liquidity position <= 0 -> removals = []))
    /\ (success result = true ->
        exists range pre,
          PositionMonitorService.calculateOptimalRange config
            (PoolInfo.currentTickIndex poolInfo) (PoolInfo.tickSpacing poolInfo)
          = Ok range
          /\ d = pre ++ [ESubmit (addLiquidityTransaction config poolInfo
                                    (lower range) (upper range))]
          /\ oldPosition result
             = Some (mkTickRange (PositionInfo.tickLower position)
                                 (PositionInfo.tickUpper position))
          /\ newPosition result
             = Some (mkTickRange (lower range) (upper range))).
Proof.
  unfold SimpleRebalanceService.rebalancePosition, tryCatch, bind, liftRes, ret.
  destruct (PositionMonitorService.calculateOptimalRange config _ _)
    as [range | msg] eqn:Hrange.
  2:{ eexists. exists []. cbn [fst snd].
      split; [reflexivity |]. split; [symmetry; apply app_nil_r |].
      split; [cbn; repeat split; discriminate |].
      split; [| intros H; discriminate H].
      exists [], []. repeat split; try reflexivity. cbn. lia. }
  destruct (Z.ltb_spec 0 (PositionInfo.liquidity position)) as [Hliq | Hliq].
  - destruct (simple_removeLiquidity_outcome
                (PositionInfo.positionId position)
                (PositionInfo.liquidity position) s)
      as (d1 & Hd1 & Hremovals & Hlength).
    destruct (SimpleRebalanceService.removeLiquidity env config
                (PositionInfo.positionId position)
                (PositionInfo.liquidity position) s)
      as [[[] | msg] s1]; cbn [fst snd] in *.
    + destruct (simple_addLiquidity_noRemoval env config poolInfo
                  (lower range) (upper range) s1) as (d2 & Hd2 & Hrest).
      pose proof (simple_addLiquidity_ok poolInfo (lower range) (upper range) s1)
        as Hok.
      destruct (SimpleRebalanceService.addLiquidity env config poolInfo
                  (lower range) (upper range) s1)
        as [[txDigest | msg] s2]; cbn [fst snd] in *.
      * eexists. exists (d1 ++ d2).
        split; [reflexivity |].
        split; [rewrite Hd2, Hd1, <- app_assoc; reflexivity |].
        split; [reflexivity |].
        split.
        -- exists (submitted d1), (submitted d2).
           split; [apply submitted_app |].
           split; [exact Hremovals |]. split; [exact Hlength |].
           split; [exact Hrest | lia].
        -- intros _. destruct (Hok txDigest eq_refl) as [pre Hpre].
           rewrite Hd2 in Hpre. apply app_inv_head in Hpre.
           exists range, (d1 ++ pre).
           split; [reflexivity |].
           split; [rewrite Hpre, <- app_assoc; reflexivity |].
           split; reflexivity.
      * eexists. exists (d1 ++ d2).
        split; [reflexivity |].
        split; [rewrite Hd2, Hd1, <- app_assoc; reflexivity |].
        split; [cbn; repeat split; discriminate |].
        split; [| intros H; discriminate H].
        exists (submitted d1), (submitted d2).
        split; [apply submitted_app |].
        split; [exact Hremovals |]. split; [exact Hlength |].
        split; [exact Hrest | lia].
    + eexists. exists d1.
      split; [reflexivity |]. split; [exact Hd1 |].
      split; [cbn; repeat split; discriminate |].
      split; [| intros H; discriminate H].
      exists (submitted d1), [].
      split; [symmetry; apply app_nil_r |].
      split; [exact Hremovals |]. split; [exact Hlength |].
      split; [reflexivity | lia].
  - destruct (simple_addLiquidity_noRemoval env config poolInfo
                (lower range) (upper range) s) as (d2 & Hd2 & Hrest).
    pose proof (simple_addLiquidity_ok poolInfo (lower range) (upper range) s)
      as Hok.
    destruct (SimpleRebalanceService.addLiquidity env config poolInfo
                (lower range) (upper range) s)
      as [[txDigest | msg] s2]; cbn [fst snd] in *.
    + eexists. exists d2.
      split; [reflexivity |]. split; [exact Hd2 |].
      split; [reflexivity |].
      split.
      * exists [], (submitted d2).
        split; [reflexivity |]. split; [reflexivity |].
        split; [cbn; lia |]. split; [exact Hrest | reflexivity].
      * intros _. destruct (Hok txDigest eq_refl) as [pre Hpre].
        rewrite Hd2 in Hpre. apply app_inv_head in Hpre.
        exists range, pre. split; [reflexivity |].
        split; [exact Hpre |]. split; reflexivity.
    + eexists. exists d2.
      split; [reflexivity |]. split; [exact Hd2 |].
      split; [cbn; repeat split; discriminate |].
      split; [| intros H; discriminate H].
      exists [], (submitted d2).
      split; [reflexivity |]. split; [reflexivity |].
      split; [cbn; lia |]. split; [exact Hrest | reflexivity].
Qed.

End SimpleServiceProperties.

Section SimpleServiceTheorems.

Context {W : Type} (env : Env W).
Variable config : BotConfig.t.

(** X15.  [checkAndRebalance] of the simple service throws only when one
    of its two reads throws, with that error.  When the tracked position is
    not among the positions of the owner, or is in range and not flagged by
    [shouldRebalance], it returns [null] after the two reads and nothing
    else; otherwise it returns the result of [rebalancePosition], which may
    report a failure but is never thrown. *)
Theorem simple_checkAndRebalance_outcome :
  forall (poolAddress : string) (s : St W),
    let run := SimpleRebalanceService.checkAndRebalance env config
                 poolAddress s in
    match getPoolInfo env poolAddress (world s) with
    | (Throw msg, w1) =>
        run = (Throw msg, mkSt w1 (log s ++ [EGetPoolInfo poolAddress]))
    | (Ok poolInfo, w1) =>
        match getPositions env (getAddress env) w1 with
        | (Throw msg, w2) =>
            run = (Throw msg,
                   mkSt w2 (log s ++ [EGetPoolInfo poolAddress;
                                      EGetPositions (getAddress env)]))
        | (Ok allPositions, w2) =>
            let quiet :=
              run = (Ok None,
                     mkSt w2 (log s ++ [EGetPoolInfo poolAddress;
                                        EGetPositions (getAddress env)])) in
            match SimpleRebalanceService.findTracked config allPositions with
            | None => quiet
            | Some position =>
                if PositionMonitorService.isPositionInRange
                     (PositionInfo.tickLower position)
                     (PositionInfo.tickUpper position)
                     (PoolInfo.currentTickIndex poolInfo)
                   && negb (PositionMonitorService.shouldRebalance
                              config position poolInfo)
                then quiet
                else exists result,
                       fst run = Ok (Some result) /\ wellFormedResult result
                       /\ SimpleRebalanceService.rebalancePosition env config
                            poolAddress position poolInfo
                            (mkSt w2 (log s ++ [EGetPoolInfo poolAddress;
                                                EGetPositions (getAddress env)]))
                          = (Ok result, snd run)
            end
        end
    end.
Proof.
  intros poolAddress s. cbv zeta.
  unfold SimpleRebalanceService.checkAndRebalance, tryCatch, bind,
    callGetPoolInfo, callGetPositions, call, throw, ret.
  destruct (getPoolInfo env poolAddress (world s)) as [[poolInfo | msg] w1];
    cbn [world log]; [| reflexivity].
  destruct (getPositions env (getAddress env) w1)
    as [[allPositions | msg] w2]; cbn [world log];
    rewrite <- app_assoc; cbn [app]; [| reflexivity].
  destruct (SimpleRebalanceService.findTracked config allPositions)
    as [position |]; [| reflexivity].
  destruct (PositionMonitorService.isPositionInRange _ _ _
            && negb (PositionMonitorService.shouldRebalance _ _ _));
    [reflexivity |].
  match goal with
  | |- context [SimpleRebalanceService.rebalancePosition env config
                  poolAddress position poolInfo ?st] =>
      destruct (simple_rebalancePosition_run env config poolAddress position
                  poolInfo st) as (result & d & Hr & _ & Hwf & _);
      destruct (SimpleRebalanceService.rebalancePosition env config
                  poolAddress position poolInfo st) as [[result' | msg] s3];
      cbn [fst snd] in *; [| discriminate Hr]
  end.
  injection Hr as ->. exists result.
  split; [reflexivity |]. split; [exact Hwf | reflexivity].
Qed.

(** X16.  [rebalancePosition] of the simple service never throws and
    reports a failure by its fields.  What it submits is at most two
    removals followed by transactions that are not removals, and no removal
    at all for a position without liquidity; a success ends with the
    submission of the add-liquidity transaction for the computed range.
    When the removal fails, the run stops there: it reports a failure, in
    the state the removal left, and nothing is merged or added. *)
Theorem simple_rebalancePosition_removes_first :
  forall (poolAddress : string) (position : PositionInfo.t)
         (poolInfo : PoolInfo.t) (s : St W),
    (exists result d,
        fst (SimpleRebalanceService.rebalancePosition env config poolAddress
               position poolInfo s) = Ok result
        /\ log (snd (SimpleRebalanceService.rebalancePosition env config
                       poolAddress position poolInfo s)) = log s ++ d
        /\ wellFormedResult result
        /\ (exists removals rest,
               submitted d = removals ++ rest
               /\ forallb isRemoveLiquidity removals = true
               /\ (List.length removals <= 2)%nat
               /\ forallb (fun tx => negb (isRemoveLiquidity tx)) rest = true
               /\ (PositionInfo.liquidity position <= 0 -> removals = []))
        /\ (success result = true ->
            exists range pre,
              PositionMonitorService.calculateOptimalRange config
                (PoolInfo.currentTickIndex poolInfo)
                (PoolInfo.tickSpacing poolInfo) = Ok range
              /\ d = pre ++ [ESubmit (addLiquidityTransaction config poolInfo
                                        (lower range) (upper range))]
              /\ oldPosition result
                 = Some (mkTickRange (PositionInfo.tickLower position)
                                     (PositionInfo.tickUpper position))
              /\ newPosition result
                 = Some (mkTickRange (lower range) (upper range))))
    /\ (forall (range : Range) (msg : string),
           PositionMonitorService.calculateOptimalRange config
             (PoolInfo.currentTickIndex poolInfo)
             (PoolInfo.tickSpacing poolInfo) = Ok range ->
           0 < PositionInfo.liquidity position ->
           fst (SimpleRebalanceService.removeLiquidity env config
                  (PositionInfo.positionId position)
                  (PositionInfo.liquidity position) s) = Throw msg ->
           exists result,
             SimpleRebalanceService.rebalancePosition env config poolAddress
               position poolInfo s
             = (Ok result,
                snd (SimpleRebalanceService.removeLiquidity env config
                       (PositionInfo.positionId position)
                       (PositionInfo.liquidity position) s))
             /\ success result = false
             /\ error result <> None
             /\ transactionDigest result = None
             /\ oldPosition result = None
             /\ newPosition result = None).
Proof.
  intros poolAddress position poolInfo s. split.
  - apply simple_rebalancePosition_run.
  - intros range msg Hrange Hliq Hremove.
    unfold SimpleRebalanceService.rebalancePosition, tryCatch, bind,
      liftRes, ret.
    rewrite Hrange.
    apply Z.ltb_lt in Hliq. rewrite Hliq.
    destruct (SimpleRebalanceService.removeLiquidity env config
                (PositionInfo.positionId position)
                (PositionInfo.liquidity position) s) as [[[] | msg'] s1];
      cbn [fst snd] in *; [discriminate Hremove |].
    eexists. split; [reflexivity |]. cbn.
    split; [reflexivity |]. split; [discriminate |].
    split; [reflexivity |]. split; reflexivity.
Qed.

End SimpleServiceTheorems.

Section MergePostcondition.

Context {W : Type} (env : Env W).
Variable config : BotConfig.t.

(** X17.  [mergeCoins] returns normally only when the last thing it did
    was a query of the coin objects that reported at most one of them:
    either the first query, and then nothing was submitted, or a
    verification after the one merge transaction.  A merge that the ledger
    does not report as consolidated within the two verifications is an
    error. *)
Theorem mergeCoins_returns_only_when_consolidated :
  forall (coinType : string) (s : St W),
    fst (SimpleRebalanceService.mergeCoins env config coinType s) = Ok tt ->
    exists (w : W) (answer : option (list Coin)) (pre : list Event),
      getCoins env (getAddress env) coinType w
      = (Ok answer,
         world (snd (SimpleRebalanceService.mergeCoins env config coinType s)))
      /\ (forall data, answer = Some data -> (List.length data <= 1)%nat)
      /\ log (snd (SimpleRebalanceService.mergeCoins env config coinType s))
         = log s ++ pre ++ [EGetCoins (getAddress env) coinType]
      /\ (List.length (submitted pre) <= 1)%nat.
Proof.
  intros coinType s.
  unfold SimpleRebalanceService.mergeCoins, tryCatch, bind, callGetCoins,
    callSignAndExecute, delay, call, throw, ret.
  destruct (getCoins env (getAddress env) coinType (world s))
    as [[answer | msg] w1] eqn:Hfirst; cbn [world log fst snd];
    [| discriminate].
  assert (Hquiet : forall answer',
    getCoins env (getAddress env) coinType (world s) = (Ok answer', w1) ->
    (forall data, answer' = Some data -> (List.length data <= 1)%nat) ->
    exists (w : W) (answer0 : option (list Coin)) (pre : list Event),
      getCoins env (getAddress env) coinType w = (Ok answer0, w1)
      /\ (forall data, answer0 = Some data -> (List.length data <= 1)%nat)
      /\ log s ++ [EGetCoins (getAddress env) coinType]
         = log s ++ pre ++ [EGetCoins (getAddress env) coinType]
      /\ (List.length (submitted pre) <= 1)%nat).
  { intros answer' Hget Hsmall. exists (world s), answer', [].
    split; [exact Hget |]. split; [exact Hsmall |].
    split; [reflexivity | cbn; lia]. }
  destruct answer as [data |];
    [| intros _; apply (Hquiet None Hfirst); intros data H; discriminate H].
  destruct (Nat.leb_spec (List.length data) 1) as [Hle | Hgt].
  { intros _. apply (Hquiet (Some data) Hfirst).
    intros data' H. injection H as <-. exact Hle. }
  destruct (SimpleRebalanceService.sortByBalance data)
    as [| primaryCoin others]; [discriminate |].
  cbn [world log].
  match goal with
  | |- context [signAndExecuteTransaction env ?tx w1] =>
      destruct (signAndExecuteTransaction env tx w1) as [[result | msg] w2]
  end; cbn [world log fst snd]; [| discriminate].
  destruct (notSuccess result); [discriminate |].
  cbn [world log].
  destruct (getCoins env (getAddress env) coinType
              (setTimeout env SimpleRebalanceService.COIN_MERGE_FINALITY_DELAY_MS w2))
    as [[verifyCoins | msg] w3] eqn:Hverify; cbn [world log fst snd];
    [| discriminate].
  assert (Hverified :
    (forall data', verifyCoins = Some data' -> (List.length data' <= 1)%nat) ->
    forall st : St W,
      world st = w3 ->
      log st
      = (((log s ++ [EGetCoins (getAddress env) coinType])
          ++ [ESubmit (mkTransaction
                         (MergeCoinsCommand (coinObjectId primaryCoin)
                            (map coinObjectId others))
                         (Some (getAddress env))
                         (Some (BotConfig.gasBudget config)))])
         ++ [EDelay SimpleRebalanceService.COIN_MERGE_FINALITY_DELAY_MS])
        ++ [EGetCoins (getAddress env) coinType] ->
      exists (w : W) (answer0 : option (list Coin)) (pre : list Event),
        getCoins env (getAddress env) coinType w = (Ok answer0, world st)
        /\ (forall data', answer0 = Some data' -> (List.length data' <= 1)%nat)
        /\ log st = log s ++ pre ++ [EGetCoins (getAddress env) coinType]
        /\ (List.length (submitted pre) <= 1)%nat).
  { intros Hsmall st Hworld Hlog. eexists. exists verifyCoins.
    exists [EGetCoins (getAddress env) coinType;
            ESubmit (mkTransaction
                       (MergeCoinsCommand (coinObjectId primaryCoin)
                          (map coinObjectId others))
                       (Some (getAddress env))
                       (Some (BotConfig.gasBudget config)));
            EDelay SimpleRebalanceService.COIN_MERGE_FINALITY_DELAY_MS].
    split; [rewrite Hworld; exact Hverify |]. split; [exact Hsmall |].
    split; [rewrite Hlog, <- !app_assoc; reflexivity |].
    cbn. lia. }
  destruct verifyCoins as [verifyData |];
    [| intros _; apply Hverified;
       [intros data' H; discriminate H | reflexivity | reflexivity]].
  destruct (Nat.ltb_spec 1 (List.length verifyData)) as [Hmany | Hfew];
    [| intros _; apply Hverified;
       [intros data' H; injection H as <-; exact Hfew
       | reflexivity | reflexivity]].
  cbn [world log]. clear Hverified.
  destruct (getCoins env (getAddress env) coinType
              (setTimeout env SimpleRebalanceService.COIN_MERGE_FINALITY_DELAY_MS w3))
    as [[secondVerify | msg] w4] eqn:Hsecond; cbn [world log fst snd];
    [| discriminate].
  assert (Hsmall :
    (forall data', secondVerify = Some data' -> (List.length data' <= 1)%nat) ->
    exists (w : W) (answer0 : option (list Coin)) (pre : list Event),
      getCoins env (getAddress env) coinType w = (Ok answer0, w4)
      /\ (forall data', answer0 = Some data' -> (List.length data' <= 1)%nat)
      /\ (((((log s ++ [EGetCoins (getAddress env) coinType])
             ++ [ESubmit (mkTransaction
                            (MergeCoinsCommand (coinObjectId primaryCoin)
                               (map coinObjectId others))
                            (Some (getAddress env))
                            (Some (BotConfig.gasBudget config)))])
            ++ [EDelay SimpleRebalanceService.COIN_MERGE_FINALITY_DELAY_MS])
           ++ [EGetCoins (getAddress env) coinType])
          ++ [EDelay SimpleRebalanceService.COIN_MERGE_FINALITY_DELAY_MS])
         ++ [EGetCoins (getAddress env) coinType]
         = log s ++ pre ++ [EGetCoins (getAddress env) coinType]
      /\ (List.length (submitted pre) <= 1)%nat).
  { intros Hsmall. eexists. exists secondVerify.
    exists [EGetCoins (getAddress env) coinType;
            ESubmit (mkTransaction
                       (MergeCoinsCommand (coinObjectId primaryCoin)
                          (map coinObjectId others))
                       (Some (getAddress env))
                       (Some (BotConfig.gasBudget config)));
            EDelay SimpleRebalanceService.COIN_MERGE_FINALITY_DELAY_MS;
            EGetCoins (getAddress env) coinType;
            EDelay SimpleRebalanceService.COIN_MERGE_FINALITY_DELAY_MS].
    split; [exact Hsecond |]. split; [exact Hsmall |].
    split; [rewrite <- !app_assoc; reflexivity |].
    cbn. lia. }
  destruct secondVerify as [secondData |];
    [| intros _; apply Hsmall; intros data' H; discriminate H].
  destruct (Nat.ltb_spec 1 (List.length secondData)) as [Hmany2 | Hfew2];
    [discriminate |].
  intros _. apply Hsmall. intros data' H. injection H as <-. exact Hfew2.
Qed.

End MergePostcondition.


Lemma mergeCoins_returns_only_when_consolidated_witness :
  exists (w : Script) (answer : option (list Coin)) (pre : list Event),
    getCoins scriptEnv "0xowner" "0xA" w
    = (Ok answer,
       world (snd (SimpleRebalanceService.mergeCoins scriptEnv testConfig "0xA"
                     fragmentedWorld)))
    /\ (forall data, answer = Some data -> (List.length data <= 1)%nat)
    /\ log (snd (SimpleRebalanceService.mergeCoins scriptEnv testConfig "0xA"
                   fragmentedWorld))
       = log fragmentedWorld ++ pre ++ [EGetCoins "0xowner" "0xA"]
    /\ (List.length (submitted pre) <= 1)%nat.
Proof.
  exact (mergeCoins_returns_only_when_consolidated scriptEnv testConfig "0xA"
           fragmentedWorld eq_refl).
Defined.

(** ** The merge target *)

Lemma sortByBalance_sorted_fixed (l : list Coin) :
  StronglySorted notSmaller l -> SimpleRebalanceService.sortByBalance l = l.
Proof.
  unfold SimpleRebalanceService.sortByBalance.
  induction 1 as [| d l Hsorted IH Hall]; [reflexivity |].
  cbn [fold_right]. rewrite IH.
  destruct l as [| e l']; [reflexivity |].
  cbn [SimpleRebalanceService.insertCoin].
  apply Forall_inv in Hall. unfold notSmaller in Hall.
  destruct (Z.ltb_spec (balance d) (balance e)) as [Hlt | _];
    [lia | reflexivity].
Qed.

(** X18.  The sort of [mergeCoins] is stable, so among coins with the
    same, largest balance the merge target is the one the ledger listed
    first: every coin listed before the target holds strictly less, every
    coin after it holds no more.  Sorting coins that are already in order
    changes nothing. *)
Theorem sortByBalance_primary_is_first_largest :
  forall (data : list Coin) (primary : Coin) (others : list Coin),
    SimpleRebalanceService.sortByBalance data = primary :: others ->
    (exists before after,
        data = before ++ primary :: after
        /\ (forall c, In c before -> balance c < balance primary)
        /\ (forall c, In c after -> balance c <= balance primary))
    /\ SimpleRebalanceService.sortByBalance (primary :: others)
       = primary :: others.
Proof.
  intros data primary others Hsort. split.
  - revert primary others Hsort.
    induction data as [| c data IH]; intros primary others Hsort;
      [discriminate Hsort |].
    unfold SimpleRebalanceService.sortByBalance in Hsort.
    cbn [fold_right] in Hsort.
    fold (SimpleRebalanceService.sortByBalance data) in Hsort.
    destruct (SimpleRebalanceService.sortByBalance data)
      as [| p o] eqn:Hdata.
    + pose proof (sortByBalance_length data) as Hlen.
      rewrite Hdata in Hlen. destruct data; [| discriminate Hlen].
      cbn in Hsort. injection Hsort as <- <-.
      exists [], []. split; [reflexivity |].
      split; intros x [].
    + cbn [SimpleRebalanceService.insertCoin] in Hsort.
      destruct (Z.ltb_spec (balance c) (balance p)) as [Hlt | Hge].
      * injection Hsort as <- <-.
        destruct (IH p o eq_refl) as (before & after & -> & Hbefore & Hafter).
        exists (c :: before), after. split; [reflexivity |].
        split; [| exact Hafter].
        intros x [<- | Hx]; [exact Hlt | apply Hbefore; exact Hx].
      * injection Hsort as <- <-.
        exists [], data. split; [reflexivity |].
        split; [intros x [] |].
        intros x Hx.
        destruct (sortByBalance_primary data p o Hdata) as [_ Hmax].
        specialize (Hmax x Hx). lia.
  - rewrite <- Hsort. apply sortByBalance_sorted_fixed.
    apply sortByBalance_sorted.
Qed.

Lemma sortByBalance_primary_is_first_largest_witness :
  exists before after,
    tiedCoins = before ++ mkCoin "a2" 800 :: after
    /\ (forall c, In c before -> balance c < 800)
    /\ (forall c, In c after -> balance c <= 800).
Proof.
  destruct (sortByBalance_primary_is_first_largest tiedCoins
              (mkCoin "a2" 800) [mkCoin "a3" 800; mkCoin "a1" 500] eq_refl)
    as [Hfirst _].
  exact Hfirst.
Defined.

(** ** The simple rebalance service before coin merging *)

Section BeforeMerge.

Context {W : Type} (env : Env W).
Variable config : BotConfig.t.

(** X19.  Before coin merging was added, [addLiquidity] of the simple
    service built its payload once and queried no coins: a run is the
    construction of the payload followed by one submission, or by two
    submissions of the same transaction 2000 ms apart when the first one
    throws or is not reported successful; the caller gets the digest of the
    accepted submission or the error of the second. *)
Theorem addLiquidity_before_merge_builds_once :
  forall (poolInfo : PoolInfo.t) (tickLower tickUpper : Z) (s : St W),
    let tx := addLiquidityTransaction config poolInfo tickLower tickUpper in
    let run := SimpleRebalanceServiceBeforeMerge.addLiquidity env config
                 poolInfo tickLower tickUpper s in
    coinQueries (log (snd run)) = coinQueries (log s)
    /\ match buildPayload env (payload tx) (world s) with
       | (Throw msg, w1) =>
           run = (Throw msg, mkSt w1 (log s ++ [EBuildPayload (payload tx)]))
       | (Ok _, w1) =>
           let first := signAndExecuteTransaction env tx w1 in
           let second :=
             signAndExecuteTransaction env tx
               (setTimeout env 2000 (snd first)) in
           run = match judged "Add liquidity failed: " (fst first) with
                 | Ok result =>
                     (Ok (digest result),
                      mkSt (snd first)
                           (log s ++ [EBuildPayload (payload tx); ESubmit tx]))
                 | Throw e1 =>
                     (match judged "Add liquidity failed: " (fst second) with
                      | Ok result => Ok (digest result)
                      | Throw e2 => Throw e2
                      end,
                      mkSt (snd second)
                           (log s ++ [EBuildPayload (payload tx); ESubmit tx;
                                      EDelay 2000; ESubmit tx]))
                 end
       end.
Proof.
  intros poolInfo tickLower tickUpper s tx run.
  assert (Hrun :
    run
    = match buildPayload env (payload tx) (world s) with
      | (Throw msg, w1) =>
          (Throw msg, mkSt w1 (log s ++ [EBuildPayload (payload tx)]))
      | (Ok _, w1) =>
          let first := signAndExecuteTransaction env tx w1 in
          let second :=
            signAndExecuteTransaction env tx (setTimeout env 2000 (snd first)) in
          match judged "Add liquidity failed: " (fst first) with
          | Ok result =>
              (Ok (digest result),
               mkSt (snd first)
                    (log s ++ [EBuildPayload (payload tx); ESubmit tx]))
          | Throw e1 =>
              (match judged "Add liquidity failed: " (fst second) with
               | Ok result => Ok (digest result)
               | Throw e2 => Throw e2
               end,
               mkSt (snd second)
                    (log s ++ [EBuildPayload (payload tx); ESubmit tx;
                               EDelay 2000; ESubmit tx]))
          end
      end).
  { unfold run, SimpleRebalanceServiceBeforeMerge.addLiquidity.
    unfold bind at 1. unfold callBuildPayload, call.
    unfold tx, addLiquidityTransaction. cbn [payload].
    destruct (buildPayload env _ (world s)) as [[[] | msg] w1];
      [| reflexivity].
    cbv zeta. rewrite forAttempts_two.
    rewrite (submit_checked env _ "Add liquidity failed: " digest).
    cbn [world log].
    destruct (judged _ _) as [result | e1];
      [rewrite <- app_assoc; reflexivity |].
    unfold delay, call. cbn [snd world log].
    rewrite (submit_checked env _ "Add liquidity failed: " digest).
    cbn [world log]. rewrite <- !app_assoc. reflexivity. }
  assert (Happ : forall l1 l2, coinQueries (l1 ++ l2)
                               = coinQueries l1 ++ coinQueries l2).
  { intros l1 l2. induction l1 as [| e l1 IH]; [reflexivity |].
    destruct e; cbn; rewrite IH; reflexivity. }
  rewrite Hrun. clear Hrun.
  destruct (buildPayload env (payload tx) (world s)) as [[[] | msg] w1];
    cbv zeta.
  - split; [| reflexivity].
    destruct (judged _ _); cbn [snd log]; rewrite Happ; cbn;
      apply app_nil_r.
  - split; [| reflexivity].
    cbn [snd log]. rewrite Happ. cbn. apply app_nil_r.
Qed.

End BeforeMerge.

(** ** The simple bot: validation before the start *)

Section SimpleBotStart.

Context {W : Type} (env : Env W).
Variable config : BotConfig.t.
Variable retryWithBackoff : forall A : Type, M (St W) A -> string -> M (St W) A.

(** [validateSetup] after the read of the balance, whose outcome does not
    matter. *)
Lemma validateSetup_outcome (s : St W) :
  let s0 := snd (retryWithBackoff Z
                   (callGetBalance env (getAddress env) "0x2::sui::SUI")
                   "getBalance" s) in
  fst (SimpleCetusRebalanceBot.validateSetup env config retryWithBackoff s)
  = match getPoolInfo env (BotConfig.poolAddress config) (world s0) with
    | (Throw _, _) =>
        Throw "Invalid pool configuration. Please check POOL_ADDRESS in .env file."
    | (Ok _, w1) =>
        match getPositions env (getAddress env) w1 with
        | (Throw msg, _) => Throw msg
        | (Ok positions, _) =>
            match SimpleRebalanceService.findTracked config positions with
            | Some _ => Ok tt
            | None =>
                Throw ("Position "
                       ++ match BotConfig.positionId config with
                          | Some id => id
                          | None => "undefined"
                          end
                       ++ " not found. Please check POSITION_ID in .env file.")
            end
        end
    end.
Proof.
  unfold SimpleCetusRebalanceBot.validateSetup, tryCatch, bind,
    callGetPoolInfo, callGetPositions, call, throw, ret.
  cbv zeta.
  destruct (retryWithBackoff Z _ "getBalance" s) as [[balance | msg] s0];
    cbn [snd];
    (destruct (getPoolInfo env (BotConfig.poolAddress config) (world s0))
       as [[poolInfo | msg'] w1]; cbn [world log fst]; [| reflexivity]);
    (destruct (getPositions env (getAddress env) w1)
       as [[positions | msg''] w2]; cbn [world log fst]; [| reflexivity]);
    destruct (SimpleRebalanceService.findTracked config positions);
    reflexivity.
Qed.

(** X20.  [start()] of the simple bot on a stopped bot validates the setup
    first and refuses to start, by throwing and leaving the bot stopped
    with no timer armed, exactly when the pool cannot be read, the
    positions cannot be read, or the tracked position is not among them; a
    pool error is replaced by a fixed message.  A failed read of the
    balance never prevents the start, nor does a failed first check: the
    bot then runs with one timer of [checkInterval] seconds. *)
Theorem simple_start_validates_first :
  forall b : BotSt W,
    isRunning b = false ->
    let s0 := snd (retryWithBackoff Z
                     (callGetBalance env (getAddress env) "0x2::sui::SUI")
                     "getBalance" (services b)) in
    let refused (msg : string) :=
      exists s',
        SimpleCetusRebalanceBot.start env config retryWithBackoff b
        = (Throw msg,
           mkBotSt false (intervalId b) (timers b) (nextTimer b) s') in
    match getPoolInfo env (BotConfig.poolAddress config) (world s0) with
    | (Throw _, _) =>
        refused "Invalid pool configuration. Please check POOL_ADDRESS in .env file."
    | (Ok _, w1) =>
        match getPositions env (getAddress env) w1 with
        | (Throw msg, _) => refused msg
        | (Ok positions, _) =>
            match SimpleRebalanceService.findTracked config positions with
            | None => exists msg, refused msg
            | Some _ =>
                exists s',
                  SimpleCetusRebalanceBot.start env config retryWithBackoff b
                  = (Ok tt,
                     mkBotSt true (Some (nextTimer b))
                       (timers b
                        ++ [(nextTimer b, BotConfig.checkInterval config * 1000)])
                       (S (nextTimer b)) s')
            end
        end
    end.
Proof.
  intros b Hstopped. cbv zeta.
  pose proof (validateSetup_outcome (services b)) as Hvalid.
  cbv zeta in Hvalid.
  pose proof (simple_start_when_stopped env config retryWithBackoff b Hstopped)
    as Hstart.
  destruct (SimpleCetusRebalanceBot.validateSetup env config retryWithBackoff
              (services b)) as [[[] | msg] s1]; cbn [fst] in Hvalid.
  - destruct (getPoolInfo env (BotConfig.poolAddress config) _)
      as [[poolInfo | msg'] w1]; [| discriminate Hvalid].
    destruct (getPositions env (getAddress env) w1)
      as [[positions | msg''] w2]; [| discriminate Hvalid].
    destruct (SimpleRebalanceService.findTracked config positions);
      [exact Hstart | discriminate Hvalid].
  - destruct (getPoolInfo env (BotConfig.poolAddress config) _)
      as [[poolInfo | msg'] w1].
    + destruct (getPositions env (getAddress env) w1)
        as [[positions | msg''] w2].
      * destruct (SimpleRebalanceService.findTracked config positions);
          [discriminate Hvalid |].
        exists msg, s1. exact Hstart.
      * injection Hvalid as ->. exists s1. exact Hstart.
    + injection Hvalid as ->. exists s1. exact Hstart.
Qed.

End SimpleBotStart.

Lemma simple_start_validates_first_witness :
  exists s',
    SimpleCetusRebalanceBot.start scriptEnv testConfig (@singleTry Script)
      testBot
    = (Ok tt, mkBotSt true (Some 0%nat) [(0%nat, 60000)] 1 s').
Proof.
  exact (simple_start_validates_first scriptEnv testConfig (@singleTry Script)
           testBot eq_refl).
Defined.

(** ** Calls that interleave with the first check *)

(** X21.  When [stop()] is called while [start()] still awaits its first
    check, the bot ends up not running with a timer armed: [stop()] finds
    no timer to clear, and [start()] arms one when the check settles.
    Further calls of [stop()] return at the guard and leave the timer
    armed, and the timer goes on starting check cycles. *)
Theorem stop_during_start_leaves_timer :
  forall (validates : bool) (s : Scheduler.State) (n : nat),
    Scheduler.isRunning s = true ->
    Scheduler.starting s = S n ->
    exists s',
      Scheduler.run validates
        [Scheduler.CallStop; Scheduler.InitialCheckDone] s = Some s'
      /\ Scheduler.isRunning s' = false
      /\ Scheduler.intervalId s' = Some (Scheduler.nextTimer s)
      /\ In (Scheduler.nextTimer s) (Scheduler.timers s')
      /\ Scheduler.step validates Scheduler.CallStop s' = Some s'
      /\ exists s'',
           Scheduler.step validates
             (Scheduler.TimerFires (Scheduler.nextTimer s)) s' = Some s''
           /\ Scheduler.inFlight s'' = S (Scheduler.inFlight s').
Proof.
  intros validates s n Hrunning Hstarting.
  assert (Hfires : forall (l : list nat) (t : nat),
            existsb (Nat.eqb t) (l ++ [t]) = true).
  { intros l t. rewrite existsb_app. cbn. rewrite Nat.eqb_refl.
    rewrite orb_true_r. reflexivity. }
  cbn [Scheduler.run Scheduler.step]. rewrite Hrunning. cbn [negb].
  destruct (Scheduler.intervalId s) as [id |];
    cbn [Scheduler.starting Scheduler.isRunning Scheduler.intervalId
         Scheduler.timers Scheduler.nextTimer Scheduler.validating
         Scheduler.cycles];
    rewrite Hstarting; eexists; (split; [reflexivity |]);
    cbn [Scheduler.isRunning Scheduler.intervalId Scheduler.timers
         Scheduler.nextTimer negb];
    (split; [reflexivity |]); (split; [reflexivity |]);
    (split; [apply in_or_app; right; left; reflexivity |]);
    (split; [reflexivity |]);
    rewrite Hfires; eexists; (split; [reflexivity |]);
    unfold Scheduler.inFlight;
    cbn [Scheduler.starting Scheduler.cycles]; lia.
Qed.

Lemma stop_during_start_leaves_timer_witness :
  exists s',
    Scheduler.run false
      [Scheduler.CallStart; Scheduler.CallStop; Scheduler.InitialCheckDone]
      Scheduler.init = Some s'
    /\ Scheduler.isRunning s' = false
    /\ Scheduler.timers s' = [0%nat].
Proof.
  destruct (stop_during_start_leaves_timer false
              (Scheduler.mkState true None [] 0 0 1 0) 0 eq_refl eq_refl)
    as (s' & Hrun & Hstopped & _ & _ & _ & _).
  exists s'. split; [exact Hrun |]. split; [exact Hstopped |].
  cbn in Hrun. injection Hrun as <-. reflexivity.
Defined.

(** The invariant of the full bot as long as [stop()] is not called. *)
Lemma full_bot_step_invariant (e : Scheduler.Step) (s s' : Scheduler.State) :
  match e with Scheduler.CallStop => false | _ => true end = true ->
  Scheduler.step false e s = Some s' ->
  Scheduler.validating s = 0%nat
  /\ (List.length (Scheduler.timers s) + Scheduler.starting s <= 1)%nat
  /\ (Scheduler.isRunning s = false ->
      (List.length (Scheduler.timers s) + Scheduler.starting s = 0)%nat) ->
  Scheduler.validating s' = 0%nat
  /\ (List.length (Scheduler.timers s') + Scheduler.starting s' <= 1)%nat
  /\ (Scheduler.isRunning s' = false ->
      (List.length (Scheduler.timers s') + Scheduler.starting s' = 0)%nat).
Proof.
  intros He Hstep (Hvalidating & Hone & Hstopped).
  destruct e; cbn [Scheduler.step] in Hstep; try discriminate He.
  - destruct (Scheduler.isRunning s) eqn:Hrunning.
    + injection Hstep as <-. rewrite Hrunning.
      split; [exact Hvalidating |]. split; [exact Hone | discriminate].
    + injection Hstep as <-. specialize (Hstopped eq_refl).
      unfold Scheduler.beginFirstCheck.
      cbn [Scheduler.timers Scheduler.starting Scheduler.isRunning
           Scheduler.validating].
      split; [exact Hvalidating |]. split; [lia | discriminate].
  - rewrite Hvalidating in Hstep. discriminate Hstep.
  - destruct (Scheduler.starting s) as [| n] eqn:Hstarting;
      [discriminate Hstep |].
    injection Hstep as <-.
    cbn [Scheduler.timers Scheduler.starting Scheduler.isRunning
         Scheduler.validating].
    rewrite length_app. cbn [List.length].
    split; [exact Hvalidating |].
    split; [lia |]. intros Hrunning. specialize (Hstopped Hrunning). lia.
  - destruct (existsb _ _); [| discriminate Hstep].
    injection Hstep as <-.
    cbn [Scheduler.timers Scheduler.starting Scheduler.isRunning
         Scheduler.validating].
    split; [exact Hvalidating |]. split; assumption.
  - destruct (Scheduler.cycles s); [discriminate Hstep |].
    injection Hstep as <-.
    cbn [Scheduler.timers Scheduler.starting Scheduler.isRunning
         Scheduler.validating].
    split; [exact Hvalidating |]. split; assumption.
Qed.

(** X22.  As long as [stop()] is not called, the full bot never arms a
    second timer, however calls of [start()], checks and timer callbacks
    interleave: [start()] sets [isRunning] before its first await, so a
    second call returns at the guard.  The simple bot awaits
    [validateSetup()] before it sets [isRunning]: two calls of [start()]
    that overlap there both pass the guard and arm two timers, of which
    [stop()] clears only the one armed last. *)
Theorem full_bot_arms_one_timer :
  (forall (trace : list Scheduler.Step) (s : Scheduler.State),
      neverStopped trace = true ->
      Scheduler.run false trace Scheduler.init = Some s ->
      (List.length (Scheduler.timers s) + Scheduler.starting s <= 1)%nat)
  /\ (exists (trace : list Scheduler.Step) (s s' : Scheduler.State),
         neverStopped trace = true
         /\ Scheduler.run true trace Scheduler.init = Some s
         /\ List.length (Scheduler.timers s) = 2%nat
         /\ Scheduler.step true Scheduler.CallStop s = Some s'
         /\ Scheduler.isRunning s' = false
         /\ List.length (Scheduler.timers s') = 1%nat).
Proof.
  split.
  - assert (Hgen : forall (trace : list Scheduler.Step) (s0 s : Scheduler.State),
      neverStopped trace = true ->
      Scheduler.run false trace s0 = Some s ->
      Scheduler.validating s0 = 0%nat
      /\ (List.length (Scheduler.timers s0) + Scheduler.starting s0 <= 1)%nat
      /\ (Scheduler.isRunning s0 = false ->
          (List.length (Scheduler.timers s0) + Scheduler.starting s0 = 0)%nat) ->
      (List.length (Scheduler.timers s) + Scheduler.starting s <= 1)%nat).
    { induction trace as [| e trace IH]; intros s0 s Hnever Hrun Hinv.
      - injection Hrun as <-. apply Hinv.
      - cbn [neverStopped forallb] in Hnever.
        apply andb_true_iff in Hnever as [He Hnever].
        cbn [Scheduler.run] in Hrun.
        destruct (Scheduler.step false e s0) as [s1 |] eqn:Hstep;
          [| discriminate Hrun].
        apply (IH s1 s Hnever Hrun).
        apply (full_bot_step_invariant e s0 s1 He Hstep Hinv). }
    intros trace s Hnever Hrun.
    apply (Hgen trace Scheduler.init s Hnever Hrun).
    cbn. split; [reflexivity |]. split; [lia | reflexivity].
  - exists [Scheduler.CallStart; Scheduler.CallStart;
            Scheduler.ValidationDone true; Scheduler.ValidationDone true;
            Scheduler.InitialCheckDone; Scheduler.InitialCheckDone].
    exists (Scheduler.mkState true (Some 1%nat) [0%nat; 1%nat] 2 0 0 0).
    exists (Scheduler.mkState false None [0%nat] 2 0 0 0).
    split; [reflexivity |]. split; [reflexivity |].
    split; [reflexivity |]. split; [reflexivity |].
    split; reflexivity.
Qed.

Lemma full_bot_arms_one_timer_witness :
  (List.length
     (Scheduler.timers (Scheduler.mkState true (Some 0%nat) [0%nat] 1 0 0 1))
   + Scheduler.starting (Scheduler.mkState true (Some 0%nat) [0%nat] 1 0 0 1)
   <= 1)%nat.
Proof.
  destruct full_bot_arms_one_timer as [Hone _].
  exact (Hone [Scheduler.CallStart; Scheduler.CallStart;
               Scheduler.InitialCheckDone; Scheduler.CallStart;
               Scheduler.TimerFires 0]
              (Scheduler.mkState true (Some 0%nat) [0%nat] 1 0 0 1)
              eq_refl eq_refl).
Defined.

(** ** The simple rebalance service: time spent waiting *)

Lemma waited_app (l1 l2 : list Event) :
  waited (l1 ++ l2) = waited l1 + waited l2.
Proof.
  induction l1 as [| e l1 IH]; [reflexivity |].
  destruct e; cbn [app waited]; rewrite IH; lia.
Qed.

Section Waiting.

Context {W : Type} (env : Env W).
Variable config : BotConfig.t.

Ltac wait_done :=
  cbn [snd fst log world];
  rewrite ?waited_app; cbn [waited];
  unfold SimpleRebalanceService.COIN_MERGE_FINALITY_DELAY_MS,
    SimpleRebalanceService.COIN_MERGE_PROPAGATION_DELAY_MS;
  lia.

Ltac wait_leaf :=
  eexists; split;
  [ cbn [snd log]; rewrite <- ?app_assoc; cbn [app];
    rewrite waited_app; cbn [waited]; reflexivity
  | lia ].

Lemma mergeCoins_waited (coinType : string) (s : St W) :
  waited (log s)
  <= waited (log (snd (SimpleRebalanceService.mergeCoins env config coinType s)))
  <= waited (log s) + 10000.
Proof.
  unfold SimpleRebalanceService.mergeCoins, tryCatch, bind, callGetCoins,
    callSignAndExecute, delay, call, throw, ret.
  destruct (getCoins env (getAddress env) coinType (world s))
    as [[[data |] | msg] w1]; try wait_done.
  destruct (List.length data <=? 1)%nat; [wait_done |].
  destruct (SimpleRebalanceService.sortByBalance data)
    as [| primary others]; [wait_done |].
  cbn [world log].
  destruct (signAndExecuteTransaction env _ w1) as [[result | msg] w2];
    [| wait_done].
  destruct (notSuccess result); [wait_done |].
  cbn [world log].
  destruct (getCoins env (getAddress env) coinType _)
    as [[[verifyData |] | msg] w3]; try wait_done.
  destruct (1 <? List.length verifyData)%nat; [| wait_done].
  cbn [world log].
  destruct (getCoins env (getAddress env) coinType _)
    as [[[secondData |] | msg] w4]; try wait_done.
  destruct (1 <? List.length secondData)%nat; wait_done.
Qed.

Lemma addLiquidityAttempt_waited (poolInfo : PoolInfo.t)
    (tickLower tickUpper attempt : Z) (s : St W) :
  waited (log s)
  <= waited (log (snd (SimpleRebalanceService.addLiquidityAttempt env config
                         poolInfo tickLower tickUpper attempt s)))
  <= waited (log s) + 22000.
Proof.
  rewrite addLiquidityAttempt_shape.
  unfold addLiquidityPrelude, bind.
  pose proof (mergeCoins_waited (PoolInfo.coinTypeA poolInfo) s) as HA.
  destruct (SimpleRebalanceService.mergeCoins env config
              (PoolInfo.coinTypeA poolInfo) s) as [[[] | msg] sA];
    cbn [snd] in *; [| lia].
  pose proof (mergeCoins_waited (PoolInfo.coinTypeB poolInfo) sA) as HB.
  destruct (SimpleRebalanceService.mergeCoins env config
              (PoolInfo.coinTypeB poolInfo) sA) as [[[] | msg] sB];
    cbn [snd] in *; [| lia].
  unfold delay, callBuildPayload, call. cbn [world log].
  destruct (buildPayload env _ _) as [[[] | msg] w']; wait_done.
Qed.

Lemma simple_addLiquidity_waited (poolInfo : PoolInfo.t)
    (tickLower tickUpper : Z) (s : St W) :
  waited (log s)
  <= waited (log (snd (SimpleRebalanceService.addLiquidity env config
                         poolInfo tickLower tickUpper s)))
  <= waited (log s) + 46000.
Proof.
  unfold SimpleRebalanceService.addLiquidity. rewrite forAttempts_two.
  pose proof (addLiquidityAttempt_waited poolInfo tickLower tickUpper 0 s)
    as H0.
  destruct (SimpleRebalanceService.addLiquidityAttempt env config poolInfo
              tickLower tickUpper 0 s) as [[txDigest | e1] s1];
    cbn [snd] in *; [lia |].
  pose proof (addLiquidityAttempt_waited poolInfo tickLower tickUpper 1
                (snd (delay env 2000 s1))) as H1.
  unfold delay, call in H1 |- *. cbn [snd log] in H1 |- *.
  rewrite waited_app in H1. cbn [waited] in H1. lia.
Qed.

Lemma simple_removeLiquidity_waited (positionId : string) (liquidity : Z)
    (s : St W) :
  waited (log s)
  <= waited (log (snd (SimpleRebalanceService.removeLiquidity env config
                         positionId liquidity s)))
  <= waited (log s) + 2000.
Proof.
  enough (H : exists n,
             waited (log (snd (SimpleRebalanceService.removeLiquidity
                                 env config positionId liquidity s)))
             = waited (log s) + n
             /\ 0 <= n <= 2000)
    by (destruct H as (n & -> & Hn); lia).
  unfold SimpleRebalanceService.removeLiquidity.
  unfold bind at 1 2 3.
  unfold callGetPositionById, callGetPool, callBuildPayload, call.
  destruct (getPositionById env positionId (world s))
    as [[position | msg] w1]; cbn [world log]; [| wait_leaf].
  destruct (getPool env (pool position) w1) as [[pool' | msg] w2];
    cbn [world log]; [| wait_leaf].
  match goal with
  | |- context [buildPayload env ?p w2] =>
      destruct (buildPayload env p w2) as [[[] | msg] w3]
  end; cbn [world log]; [| wait_leaf].
  rewrite forAttempts_two.
  rewrite (submit_checked env _ "Remove liquidity failed: " (fun _ => tt)).
  cbn [world log].
  destruct (judged _ _) as [result | e1]; [wait_leaf |].
  unfold delay, call. cbn [snd world log].
  rewrite (submit_checked env _ "Remove liquidity failed: " (fun _ => tt)).
  wait_leaf.
Qed.

(** X23.  The simple service never waits long: [mergeCoins] spends at most
    10 seconds in delays, [removeLiquidity] at most 2, [addLiquidity] with
    its two attempts at most 46, and so a whole call of
    [checkAndRebalance] at most 48 seconds, whatever the ledger answers. *)
Theorem simple_service_waits_at_most :
  forall s : St W,
    (forall coinType,
        waited (log s)
        <= waited (log (snd (SimpleRebalanceService.mergeCoins env config
                               coinType s)))
        <= waited (log s) + 10000)
    /\ (forall positionId liquidity,
           waited (log s)
           <= waited (log (snd (SimpleRebalanceService.removeLiquidity
                                  env config positionId liquidity s)))
           <= waited (log s) + 2000)
    /\ (forall poolInfo tickLower tickUpper,
           waited (log s)
           <= waited (log (snd (SimpleRebalanceService.addLiquidity env config
                                  poolInfo tickLower tickUpper s)))
           <= waited (log s) + 46000)
    /\ (forall poolAddress,
           waited (log s)
           <= waited (log (snd (SimpleRebalanceService.checkAndRebalance
                                  env config poolAddress s)))
           <= waited (log s) + 48000).
Proof.
  intros s.
  split; [intros coinType; apply mergeCoins_waited |].
  split; [intros positionId liquidity; apply simple_removeLiquidity_waited |].
  split; [intros poolInfo tickLower tickUpper;
          apply simple_addLiquidity_waited |].
  intros poolAddress.
  unfold SimpleRebalanceService.checkAndRebalance, tryCatch, bind,
    callGetPoolInfo, callGetPositions, call, throw, ret.
  destruct (getPoolInfo env poolAddress (world s)) as [[poolInfo | msg] w1];
    cbn [world log]; [| wait_done].
  destruct (getPositions env (getAddress env) w1)
    as [[allPositions | msg] w2]; cbn [world log]; [| wait_done].
  destruct (SimpleRebalanceService.findTracked config allPositions)
    as [position |]; [| wait_done].
  destruct (PositionMonitorService.isPositionInRange _ _ _
            && negb (PositionMonitorService.shouldRebalance _ _ _));
    [wait_done |].
  assert (Hrebalance : forall st : St W,
    waited (log st)
    <= waited (log (snd (SimpleRebalanceService.rebalancePosition env config
                           poolAddress position poolInfo st)))
    <= waited (log st) + 48000).
  { intros st.
    unfold SimpleRebalanceService.rebalancePosition, tryCatch, bind,
      liftRes, ret.
    destruct (PositionMonitorService.calculateOptimalRange config _ _)
      as [range | msg]; [| cbn [snd]; lia].
    destruct (0 <? PositionInfo.liquidity position).
    - pose proof (simple_removeLiquidity_waited
                    (PositionInfo.positionId position)
                    (PositionInfo.liquidity position) st) as Hremove.
      destruct (SimpleRebalanceService.removeLiquidity env config
                  (PositionInfo.positionId position)
                  (PositionInfo.liquidity position) st)
        as [[[] | msg] s1]; cbn [snd] in *; [| lia].
      pose proof (simple_addLiquidity_waited poolInfo (lower range)
                    (upper range) s1) as Hadd.
      destruct (SimpleRebalanceService.addLiquidity env config poolInfo
                  (lower range) (upper range) s1)
        as [[txDigest | msg] s2]; cbn [snd] in *; lia.
    - pose proof (simple_addLiquidity_waited poolInfo (lower range)
                    (upper range) st) as Hadd.
      destruct (SimpleRebalanceService.addLiquidity env config poolInfo
                  (lower range) (upper range) st)
        as [[txDigest | msg] s2]; cbn [snd] in *; lia. }
  match goal with
  | |- context [SimpleRebalanceService.rebalancePosition env config
                  poolAddress position poolInfo ?st] =>
      pose proof (Hrebalance st) as Hrun;
      destruct (SimpleRebalanceService.rebalancePosition env config
                  poolAddress position poolInfo st) as [[result | msg] s3]
  end; cbn [snd log] in *; rewrite !waited_app in Hrun;
    cbn [waited] in Hrun; lia.
Qed.

End Waiting.
